(** * Token ledger, transaction coordinator and supply stabilizer

    A shallow embedding of

    - [utils/error_handler.py]     ([CustomException], [handle_exceptions]),
    - [utils/validation_utils.py]  ([Validator]),
    - [utils/smart_contract_utils.py] ([SmartContractManager.send_transaction]),
    - [tokens/token_manager.py]    ([TokenManager]),
    - [marketplace/transaction_manager.py] ([TransactionManager]),
    - [tokens/dynamic_stabilizer.py]       ([DynamicStabilizer]),

    together with the properties stated about them.

    Conventions of the embedding.

    - A finite Python [Decimal] is an exact rational ([Q]); comparisons are
      the rational ones and equalities of amounts are stated with [==].
      Where a method takes a number of any kind ([Union[int, float,
      Decimal]]) the argument is an [Amount], and [float(x)] is [py_float]:
      it raises for an integer beyond the range of a float and for a
      signaling NaN, and takes a tiny [Decimal] to zero.  Where the argument
      is annotated [Decimal] it is a finite value, and [float(x) > 0] is
      [x > 0].  Rounding to the precision of a float or of the decimal
      context is not modelled.
    - An [async] method is a function from the receiver's state to the new
      state and an [outcome]: a returned value or a raised exception.  A
      mutation made before an exception is raised stays in the state.
    - [handle_exceptions] is the decorator of [utils/error_handler.py], which
      re-raises a [CustomException] and wraps any other exception.  (A second
      copy in the utilities bundle returns the error as a dictionary instead
      of raising it; the error codes are the same.)
    - A [CustomException] keeps its code and message; of the [details]
      dictionary only the text of a wrapped exception is kept.
    - Wall-clock readings ([datetime.utcnow()]) and fresh identifiers
      ([uuid.uuid4()]) are arguments of the operation that takes them.
    - Log lines are not modelled. *)

From Stdlib Require Import ZArith QArith Qminmax Qabs Lia Lqa String Ascii List Bool.
From stdpp Require Import gmap strings list fin_maps.

Local Open Scope string_scope.
Local Open Scope Z_scope.

(* ===================================================================== *)
(** ** Exceptions and outcomes *)
(* ===================================================================== *)

(** The exceptions the embedded code can raise.  [CustomException] carries the
    stable error code and the message; [details] holds [str(e)] of the
    exception it wraps, when the source passes one. *)
Inductive exn : Type :=
| CustomException (code : string) (message : string) (details : option string)
| KeyError (key : string)
| NameError (name : string)
| TypeError (what : string)
| AttributeError (attr : string)
| DecimalException (signal : string)
| OverflowError (what : string)
| ValueError (what : string)
| ZeroDivisionError (what : string).

(** [str(e)] *)
Definition str_exn (e : exn) : string :=
  match e with
  | CustomException code message _ => code ++ ": " ++ message
  | KeyError k => k
  | NameError n => "name '" ++ n ++ "' is not defined"
  | TypeError w => w
  | AttributeError a => "object has no attribute '" ++ a ++ "'"
  | DecimalException s => s
  | OverflowError w => w
  | ValueError w => w
  | ZeroDivisionError w => w
  end.

Inductive outcome (A : Type) : Type :=
| Return (a : A)
| Raise (e : exn).
Arguments Return {A} a.
Arguments Raise {A} e.

(** [handle_exceptions]: a [CustomException] is re-raised as it is, any other
    exception is wrapped into [CustomException("INTERNAL_ERROR", str(e))]. *)
Definition handle_exceptions {S A : Type} (r : S * outcome A) : S * outcome A :=
  match r with
  | (s, Return a) => (s, Return a)
  | (s, Raise (CustomException c m d)) => (s, Raise (CustomException c m d))
  | (s, Raise e) => (s, Raise (CustomException "INTERNAL_ERROR" (str_exn e) None))
  end.

(** The error code an outcome carries, if it is a structured error. *)
Definition error_code {A : Type} (o : outcome A) : option string :=
  match o with
  | Raise (CustomException c _ _) => Some c
  | _ => None
  end.

Definition is_structured_error {A : Type} (o : outcome A) : Prop :=
  exists c m d, o = Raise (CustomException c m d).

(* ===================================================================== *)
(** ** Decimal helpers *)
(* ===================================================================== *)

Definition Qltb (a b : Q) : bool := negb (Qle_bool b a).
Definition Qleb (a b : Q) : bool := Qle_bool a b.

(** Python's [max] and [min] on two arguments: [max(a, b)] is [b] only when
    [b > a], [min(a, b)] is [b] only when [b < a]. *)
Definition py_max (a b : Q) : Q := if Qltb a b then b else a.
Definition py_min (a b : Q) : Q := if Qltb b a then b else a.

(* ===================================================================== *)
(** ** Numbers of any kind *)
(* ===================================================================== *)

(** A [Decimal]: a finite value, an infinity, or a NaN (quiet or
    signaling). *)
Inductive Dec : Type :=
| Fin (q : Q)
| Inf (negative : bool)
| NaN (signaling : bool).

(** A [float].  A finite float is given by the decimal number [str] shows
    for it, so that [Decimal(str(x))] is that number. *)
Inductive Float : Type :=
| FFin (q : Q)
| FInf (negative : bool)
| FNaN.

(** An argument annotated [Union[int, float, Decimal]]. *)
Inductive Amount : Type :=
| AInt (n : Z)
| AFloat (f : Float)
| ADec (d : Dec).

(** The range of a float: a magnitude from [FLOAT_OVERFLOW] on rounds beyond
    the largest finite float, a magnitude up to [FLOAT_UNDERFLOW] rounds to
    zero. *)
Definition FLOAT_OVERFLOW : Z := 2 ^ 1024 - 2 ^ 970.
Definition FLOAT_UNDERFLOW : Q := Qmake 1 (Pos.pow 2 1075).

(** [float(d)] for a finite [Decimal] [d]: a value out of range becomes an
    infinity or zero, nothing is raised. *)
Definition float_of_decimal (q : Q) : Float :=
  if Qleb (inject_Z FLOAT_OVERFLOW) (Qabs q) then FInf (Qltb q 0)
  else if Qleb (Qabs q) FLOAT_UNDERFLOW then FFin 0
  else FFin q.

(** [float(amount)]: an [int] beyond the range of a float raises
    [OverflowError], a signaling NaN raises [ValueError]. *)
Definition py_float (a : Amount) : outcome Float :=
  match a with
  | AInt n =>
      if FLOAT_OVERFLOW <=? Z.abs n
      then Raise (OverflowError "int too large to convert to float")
      else Return (FFin (inject_Z n))
  | AFloat f => Return f
  | ADec (Fin q) => Return (float_of_decimal q)
  | ADec (Inf negative) => Return (FInf negative)
  | ADec (NaN false) => Return FNaN
  | ADec (NaN true) => Raise (ValueError "cannot convert signaling NaN to float")
  end.

(** [Decimal(str(amount))] *)
Definition to_decimal (a : Amount) : Dec :=
  match a with
  | AInt n => Fin (inject_Z n)
  | AFloat (FFin q) => Fin q
  | AFloat (FInf negative) => Inf negative
  | AFloat FNaN => NaN false
  | ADec d => d
  end.

(** [balance < amount] for a finite balance: an ordering comparison with a
    NaN signals [InvalidOperation]. *)
Definition dec_lt (balance : Q) (amount : Dec) : outcome bool :=
  match amount with
  | Fin q => Return (Qltb balance q)
  | Inf negative => Return (negb negative)
  | NaN _ => Raise (DecimalException "InvalidOperation")
  end.

(** [a + b] on Decimals: a signaling NaN and the sum of opposite infinities
    signal [InvalidOperation]; a quiet NaN propagates. *)
Definition dec_add (a b : Dec) : outcome Dec :=
  match a, b with
  | NaN true, _ | _, NaN true => Raise (DecimalException "InvalidOperation")
  | NaN false, _ | _, NaN false => Return (NaN false)
  | Fin x, Fin y => Return (Fin (x + y)%Q)
  | Inf s, Fin _ | Fin _, Inf s => Return (Inf s)
  | Inf s, Inf s' =>
      if Bool.eqb s s' then Return (Inf s)
      else Raise (DecimalException "InvalidOperation")
  end.

(* ===================================================================== *)
(** ** Validator *)
(* ===================================================================== *)

Module Validator.

Definition is_hex_digit (c : ascii) : bool :=
  let n := nat_of_ascii c in
  ((48 <=? n)%nat && (n <=? 57)%nat)
  || ((65 <=? n)%nat && (n <=? 70)%nat)
  || ((97 <=? n)%nat && (n <=? 102)%nat).

(** Consume exactly [n] characters of the class [[a-fA-F0-9]] and return
    what follows them. *)
Fixpoint take_hex (n : nat) (s : string) : option string :=
  match n with
  | O => Some s
  | S n' =>
      match s with
      | String c rest => if is_hex_digit c then take_hex n' rest else None
      | EmptyString => None
      end
  end.

(** [bool(re.match(r'^0x[a-fA-F0-9]{40}$', address))].  In Python [$]
    matches at the end of the string and also just before a final
    newline. *)
Definition validate_ethereum_address (address : string) : bool :=
  match address with
  | String "0" (String "x" rest) =>
      match take_hex 40 rest with
      | Some EmptyString => true
      | Some (String "010" EmptyString) => true
      | _ => false
      end
  | _ => false
  end.

(** [amount > 0] *)
Definition validate_token_amount (amount : Q) : bool := Qltb 0 amount.

(** [amount > 0] for a float of any kind: true for the positive infinity,
    false for a NaN. *)
Definition validate_float (amount : Float) : bool :=
  match amount with
  | FFin q => validate_token_amount q
  | FInf negative => negb negative
  | FNaN => false
  end.

End Validator.

(* ===================================================================== *)
(** ** Token types *)
(* ===================================================================== *)

(** [config/constants.py]: [class TokenType(Enum)] *)
Inductive TokenType : Type := MAIN | UTILITY | GOVERNANCE.

Definition TokenType_eqb (a b : TokenType) : bool :=
  match a, b with
  | MAIN, MAIN | UTILITY, UTILITY | GOVERNANCE, GOVERNANCE => true
  | _, _ => false
  end.

(** [repr] of a member, which is what [str(KeyError(member))] shows. *)
Definition TokenType_repr (ty : TokenType) : string :=
  match ty with
  | MAIN => "<TokenType.MAIN: 'main'>"
  | UTILITY => "<TokenType.UTILITY: 'utility'>"
  | GOVERNANCE => "<TokenType.GOVERNANCE: 'governance'>"
  end.

(** A dictionary keyed by [TokenType], in insertion order. *)
Fixpoint dict_get {V : Type} (k : TokenType) (d : list (TokenType * V)) : option V :=
  match d with
  | [] => None
  | (k', v) :: d' => if TokenType_eqb k k' then Some v else dict_get k d'
  end.

Fixpoint dict_set {V : Type} (k : TokenType) (v : V) (d : list (TokenType * V))
  : list (TokenType * V) :=
  match d with
  | [] => [(k, v)]
  | (k', v') :: d' =>
      if TokenType_eqb k k' then (k', v) :: d' else (k', v') :: dict_set k v d'
  end.

(* ===================================================================== *)
(** ** Fixed-point amounts *)
(* ===================================================================== *)

Definition WEI : Z := 10 ^ 18.

(** [int(amount * 10**18)] for a finite amount: [int] truncates toward
    zero. *)
Definition to_wei (amount : Q) : Z := Z.quot (Qnum amount * WEI) (Zpos (Qden amount)).

(** The decimal value of a number of smallest units. *)
Definition from_wei (w : Z) : Q := Qmake w (Z.to_pos WEI).

(** [int(amount * 10**18)] for a [Decimal] of any kind: the product with a
    signaling NaN signals [InvalidOperation], and [int] raises for an infinity
    and for a NaN. *)
Definition dec_to_wei (amount : Dec) : outcome Z :=
  match amount with
  | Fin q => Return (to_wei q)
  | Inf _ => Raise (OverflowError "cannot convert Infinity to integer")
  | NaN false => Raise (ValueError "cannot convert NaN to integer")
  | NaN true => Raise (DecimalException "InvalidOperation")
  end.

(* ===================================================================== *)
(** ** The executor front ([utils/smart_contract_utils.py]) *)
(* ===================================================================== *)

Module Executor.

(** The calls the embedded code sends: the function name and its argument
    tuple, as passed to [send_transaction]. *)
Inductive call : Type :=
| balanceOf (address : string)
| transfer (to_address : string) (wei : Z)
| totalSupply
| mint (amount : Q)
| burn (amount : Q).

(** The two fields of a transaction receipt the callers read. *)
Record receipt : Type := { gasUsed : Z; blockNumber : Z }.

(** The dictionary [send_transaction] returns: either
    [{'success': True, 'transaction_hash': ..., 'receipt': ...}] or
    [{'success': False, 'error': ...}].  It has no other key; in particular
    it never has a ['data'] key. *)
Inductive tx_result : Type :=
| Mined (rcpt : receipt)
| Failed (error : string).

(** [result['success']] *)
Definition success (r : tx_result) : bool :=
  match r with
  | Mined _ => true
  | Failed _ => false
  end.

(** The [SmartContractManager] object.  Everything it does happens in the
    signing library, the node and the contract behind it, which are outside
    the sources; what the embedding keeps of them is how they will answer:
    [faults] holds one flag for each call still to come that gets as far as
    them, [true] when something in the [try:] block raises (the key is
    refused, the function is not in the contract, the node rejects the
    transaction or times out) and [false] when the receipt arrives; once the
    list is used up every call is answered with a receipt.  [mined] is the
    receipt the node then hands back. *)
Record t : Type := {
  faults : list bool;
  mined : receipt
}.

Definition next_call (c : t) : t :=
  {| faults := tl (faults c); mined := mined c |}.

(** [send_transaction(function_name, args, private_key)].  The first
    statement of its [try:] block is [Account.from_key(private_key)], which
    raises for [None] before anything is sent; every exception is turned into
    the failure dictionary.  The two error texts stand for [str(e)] of the
    library's exception. *)
Definition send_transaction (c : t) (f : call) (private_key : option string)
  : t * tx_result :=
  match private_key with
  | None => (c, Failed "not a private key: None")
  | Some _ =>
      match faults c with
      | true :: _ => (next_call c, Failed "transaction failed")
      | _ => (next_call c, Mined (mined c))
      end
  end.

End Executor.

(* ===================================================================== *)
(** ** TokenManager ([tokens/token_manager.py]) *)
(* ===================================================================== *)

Module TokenManager.

Inductive Status : Type := pending | completed | failed.

(** The [transaction_record] dictionary of [transfer].  The wall-clock
    fields ([timestamp], [confirmation_time]) are left out. *)
Record TransferRecord : Type := {
  transaction_id : string;
  from_address : string;
  to_address : string;
  amount : Dec;
  token_type : TokenType;
  status : Status;
  gas_used : option Z;
  block_number : option Z;
  error : option string
}.

(** [performance_metrics].  Of [average_confirmation_time] (a float computed
    from wall-clock differences) only the division that computes it is
    kept. *)
Record Metrics : Type := {
  total_transactions : Z;
  successful_transactions : Z;
  failed_transactions : Z;
  total_volume : list (TokenType * Dec)
}.

Record t : Type := {
  smart_contract_manager : Executor.t;
  token_contracts : list (TokenType * string);
  balance_cache : gmap string (list (TokenType * Q));
  transaction_history : list TransferRecord;
  performance_metrics : Metrics
}.

(** The names [class TokenManager] defines (methods and the attributes set
    in [__init__]); looking up any other name on a [TokenManager] raises
    [AttributeError]. *)
Definition attributes : list string :=
  [ "smart_contract_manager"; "validator"; "token_contracts";
    "balance_cache"; "allowance_cache"; "transaction_history";
    "transfer_lock"; "performance_metrics";
    "initialize_token_contracts"; "create_wallet"; "get_balance";
    "_get_token_balance"; "transfer"; "_update_metrics"; "check_allowance";
    "approve_spender"; "get_transaction_history"; "get_metrics" ].

Definition has_attribute (name : string) : bool :=
  existsb (String.eqb name) attributes.

(** What the attribute lookup [token_manager.check_balance] finds on a
    [TokenManager]: the class defines no method of that name (it is not among
    [attributes]), so there is nothing to call and Python raises
    [AttributeError]. *)
Definition check_balance : option (t -> string -> Q -> t * outcome bool) := None.

Definition set_executor (tm : t) (c : Executor.t) : t :=
  {| smart_contract_manager := c;
     token_contracts := token_contracts tm;
     balance_cache := balance_cache tm;
     transaction_history := transaction_history tm;
     performance_metrics := performance_metrics tm |}.

Definition set_cache (tm : t) (bc : gmap string (list (TokenType * Q))) : t :=
  {| smart_contract_manager := smart_contract_manager tm;
     token_contracts := token_contracts tm;
     balance_cache := bc;
     transaction_history := transaction_history tm;
     performance_metrics := performance_metrics tm |}.

Definition set_metrics (tm : t) (pm : Metrics) : t :=
  {| smart_contract_manager := smart_contract_manager tm;
     token_contracts := token_contracts tm;
     balance_cache := balance_cache tm;
     transaction_history := transaction_history tm;
     performance_metrics := pm |}.

Definition append_history (tm : t) (r : TransferRecord) : t :=
  {| smart_contract_manager := smart_contract_manager tm;
     token_contracts := token_contracts tm;
     balance_cache := balance_cache tm;
     transaction_history := (transaction_history tm ++ [r])%list;
     performance_metrics := performance_metrics tm |}.

(** [_get_token_balance]: the call is sent with [None] as the key; a failure
    raises [TOKEN_006], and on success [result['data']] is read, a key the
    result does not have.  The [except] clause logs and re-raises. *)
Definition _get_token_balance (tm : t) (address contract_address : string)
  : t * outcome Q :=
  let '(c, result) :=
    Executor.send_transaction (smart_contract_manager tm)
      (Executor.balanceOf address) None in
  let tm1 := set_executor tm c in
  match result with
  | Executor.Failed error_ =>
      (tm1, Raise (CustomException "TOKEN_006" "Balance check failed" (Some error_)))
  | Executor.Mined _ => (tm1, Raise (KeyError "'data'"))
  end.

(** What [get_balance] returns: one balance when a token type is given, the
    dictionary of all balances otherwise. *)
Inductive BalanceValue : Type :=
| Single (b : Q)
| PerType (bs : list (TokenType * Q)).

(** The loop [for token_type, contract_address in self.token_contracts.items()]
    of [get_balance]. *)
Fixpoint get_all_balances (tm : t) (address : string)
    (items : list (TokenType * string)) (balances : list (TokenType * Q))
  : t * outcome (list (TokenType * Q)) :=
  match items with
  | [] => (tm, Return balances)
  | (ty, contract_address) :: rest =>
      match _get_token_balance tm address contract_address with
      | (tm1, Return b) => get_all_balances tm1 address rest (dict_set ty b balances)
      | (tm1, Raise e) => (tm1, Raise e)
      end
  end.

(** [get_balance] *)
Definition get_balance (tm : t) (address : string) (ty : option TokenType)
  : t * outcome BalanceValue :=
  handle_exceptions
    (if negb (Validator.validate_ethereum_address address)
     then (tm, Raise (CustomException "TOKEN_004" "Invalid wallet address" None))
     else
       let fetch_failed (e : exn) :=
         CustomException "TOKEN_005" "Failed to fetch balance" (Some (str_exn e)) in
       match ty with
       | Some ty =>
           match dict_get ty (token_contracts tm) with
           | None => (tm, Raise (fetch_failed (KeyError (TokenType_repr ty))))
           | Some contract_address =>
               match _get_token_balance tm address contract_address with
               | (tm1, Return b) =>
                   (set_cache tm1 (<[address := [(ty, b)]]> (balance_cache tm1)),
                    Return (Single b))
               | (tm1, Raise e) => (tm1, Raise (fetch_failed e))
               end
           end
       | None =>
           match get_all_balances tm address (token_contracts tm) [] with
           | (tm1, Return bs) =>
               (set_cache tm1 (<[address := bs]> (balance_cache tm1)),
                Return (PerType bs))
           | (tm1, Raise e) => (tm1, Raise (fetch_failed e))
           end
       end).

(** [_update_metrics]: the counters as the method leaves them, and whether it
    returned; the statements run in order, so a counter incremented before a
    later statement raises stays incremented. *)
Definition _update_metrics (pm : Metrics) (r : TransferRecord) : Metrics * outcome unit :=
  match status r with
  | completed =>
      let pm1 :=
        {| total_transactions := total_transactions pm + 1;
           successful_transactions := successful_transactions pm + 1;
           failed_transactions := failed_transactions pm;
           total_volume := total_volume pm |} in
      match dict_get (token_type r) (total_volume pm) with
      | None => (pm1, Raise (KeyError (TokenType_repr (token_type r))))
      | Some v =>
          match dec_add v (amount r) with
          | Raise e => (pm1, Raise e)
          | Return v' =>
              let pm2 :=
                {| total_transactions := total_transactions pm1;
                   successful_transactions := successful_transactions pm1;
                   failed_transactions := failed_transactions pm1;
                   total_volume := dict_set (token_type r) v' (total_volume pm) |} in
              if successful_transactions pm2 =? 0
              then (pm2, Raise (ZeroDivisionError "float division by zero"))
              else (pm2, Return tt)
          end
      end
  | _ =>
      ({| total_transactions := total_transactions pm + 1;
          successful_transactions := successful_transactions pm;
          failed_transactions := failed_transactions pm + 1;
          total_volume := total_volume pm |},
       Return tt)
  end.

(** The dictionary a successful [transfer] returns. *)
Record TransferReceipt : Type := {
  rc_transaction_id : string;
  rc_block_number : Z;
  rc_gas_used : Z
}.

Definition with_status (r : TransferRecord) (s : Status)
    (g b : option Z) (e : option string) : TransferRecord :=
  {| transaction_id := transaction_id r;
     from_address := from_address r;
     to_address := to_address r;
     amount := amount r;
     token_type := token_type r;
     status := s; gas_used := g; block_number := b; error := e |}.

(** The body of [try:] in [transfer], up to the point where it either
    returns or raises: the new manager state, the record as mutated so far,
    and the outcome. *)
Definition transfer_attempt (tm : t) (record : TransferRecord)
    (private_key : option string)
  : t * TransferRecord * outcome TransferReceipt :=
  match dict_get (token_type record) (token_contracts tm) with
  | None => (tm, record, Raise (KeyError (TokenType_repr (token_type record))))
  | Some contract_address =>
      match dec_to_wei (amount record) with
      | Raise e => (tm, record, Raise e)
      | Return wei =>
          let '(c, result) :=
            Executor.send_transaction (smart_contract_manager tm)
              (Executor.transfer (to_address record) wei) private_key in
          let tm1 := set_executor tm c in
          match result with
          | Executor.Failed error_ =>
              (tm1, record,
               Raise (CustomException "TOKEN_008" "Transfer failed" (Some error_)))
          | Executor.Mined rcpt =>
              let record1 :=
                with_status record completed
                  (Some (Executor.gasUsed rcpt)) (Some (Executor.blockNumber rcpt))
                  (error record) in
              let '(pm, updated) := _update_metrics (performance_metrics tm1) record1 in
              let tm2 := set_metrics tm1 pm in
              match updated with
              | Raise e => (tm2, record1, Raise e)
              | Return _ =>
                  let tm3 :=
                    set_cache tm2
                      (delete (to_address record)
                         (delete (from_address record) (balance_cache tm2))) in
                  (tm3, record1,
                   Return {| rc_transaction_id := transaction_id record;
                             rc_block_number := Executor.blockNumber rcpt;
                             rc_gas_used := Executor.gasUsed rcpt |})
              end
          end
      end
  end.

(** [transfer].  [new_id] is the value of [str(uuid.uuid4())].  The amount is
    validated as [float(amount)], a conversion made outside any [try:]. *)
Definition transfer (tm : t) (from_ to_ : string) (amount_ : Amount)
    (ty : TokenType) (private_key : option string) (new_id : string)
  : t * outcome TransferReceipt :=
  handle_exceptions
    (if negb (Validator.validate_ethereum_address from_
              && Validator.validate_ethereum_address to_)
     then (tm, Raise (CustomException "TOKEN_004" "Invalid wallet address" None))
     else
       match py_float amount_ with
       | Raise e => (tm, Raise e)
       | Return as_float =>
           if negb (Validator.validate_float as_float)
           then (tm, Raise (CustomException "TOKEN_007" "Invalid transfer amount" None))
           else
             let amount_ := to_decimal amount_ in
             match get_balance tm from_ (Some ty) with
             | (tm1, Raise e) => (tm1, Raise e)
             | (tm1, Return (PerType _)) =>
                 (tm1, Raise (TypeError "'<' not supported between 'dict' and 'Decimal'"))
             | (tm1, Return (Single sender_balance)) =>
                 match dec_lt sender_balance amount_ with
                 | Raise e => (tm1, Raise e)
                 | Return true =>
                     (tm1, Raise (CustomException "TOKEN_001" "Insufficient balance" None))
                 | Return false =>
                     let record :=
                       {| transaction_id := new_id;
                          from_address := from_; to_address := to_;
                          amount := amount_; token_type := ty;
                          status := pending;
                          gas_used := None; block_number := None; error := None |} in
                     match transfer_attempt tm1 record private_key with
                     | (tm2, record1, Return v) =>
                         (append_history tm2 record1, Return v)
                     | (tm2, record1, Raise e) =>
                         (append_history tm2
                            (with_status record1 failed (gas_used record1)
                               (block_number record1) (Some (str_exn e))),
                          Raise (CustomException "TOKEN_008" "Transfer failed"
                                   (Some (str_exn e))))
                     end
                 end
             end
       end).

End TokenManager.


(* ===================================================================== *)
(** ** TransactionManager ([marketplace/transaction_manager.py]) *)
(* ===================================================================== *)

Module TransactionManager.

(** [class TransactionState] *)
Inductive TransactionState : Type :=
| PENDING | PROCESSING | COMPLETED | FAILED | REFUNDED | DISPUTED.

Definition state_eqb (a b : TransactionState) : bool :=
  match a, b with
  | PENDING, PENDING | PROCESSING, PROCESSING | COMPLETED, COMPLETED
  | FAILED, FAILED | REFUNDED, REFUNDED | DISPUTED, DISPUTED => true
  | _, _ => false
  end.

Record Resolution : Type := {
  outcome_text : string;
  refunded : bool;
  resolved_at : Q
}.

Record Dispute : Type := {
  opened_by : string;
  reason : string;
  opened_at : Q;
  resolution : option Resolution
}.

(** A transaction dictionary.  [dispute] is [None] while the dictionary has
    no ['dispute'] key. *)
Record Transaction : Type := {
  transaction_id : string;
  buyer_id : string;
  seller_id : string;
  agent_id : string;
  listing_id : option string;
  amount : Q;
  fee : Q;
  total_amount : Q;
  state : TransactionState;
  created_at : Q;
  completed_at : option Q;
  error : option string;
  dispute : option Dispute
}.

Definition set_state (x : Transaction) (s : TransactionState) : Transaction :=
  {| transaction_id := transaction_id x; buyer_id := buyer_id x;
     seller_id := seller_id x; agent_id := agent_id x;
     listing_id := listing_id x; amount := amount x; fee := fee x;
     total_amount := total_amount x; state := s;
     created_at := created_at x; completed_at := completed_at x;
     error := error x; dispute := dispute x |}.

Definition set_completed_at (x : Transaction) (at_ : Q) : Transaction :=
  {| transaction_id := transaction_id x; buyer_id := buyer_id x;
     seller_id := seller_id x; agent_id := agent_id x;
     listing_id := listing_id x; amount := amount x; fee := fee x;
     total_amount := total_amount x; state := state x;
     created_at := created_at x; completed_at := Some at_;
     error := error x; dispute := dispute x |}.

Definition set_error (x : Transaction) (e : string) : Transaction :=
  {| transaction_id := transaction_id x; buyer_id := buyer_id x;
     seller_id := seller_id x; agent_id := agent_id x;
     listing_id := listing_id x; amount := amount x; fee := fee x;
     total_amount := total_amount x; state := state x;
     created_at := created_at x; completed_at := completed_at x;
     error := Some e; dispute := dispute x |}.

Definition set_dispute (x : Transaction) (d : Dispute) : Transaction :=
  {| transaction_id := transaction_id x; buyer_id := buyer_id x;
     seller_id := seller_id x; agent_id := agent_id x;
     listing_id := listing_id x; amount := amount x; fee := fee x;
     total_amount := total_amount x; state := state x;
     created_at := created_at x; completed_at := completed_at x;
     error := error x; dispute := Some d |}.

(** [fee_config]; the tier dictionary in insertion order. *)
Record FeeConfig : Type := {
  base_fee_rate : Q;
  min_fee : Q;
  max_fee : Q;
  volume_discount_tiers : list (Q * Q)
}.

(** The configuration [__init__] installs. *)
Definition fee_config0 : FeeConfig :=
  {| base_fee_rate := 0.025;
     min_fee := 0.1;
     max_fee := 100.0;
     volume_discount_tiers :=
       [ (1000, 0.02); (10000, 0.015); (100000, 0.01) ]%Q |}.

(** [metrics]; [average_completion_time] (wall-clock float) is left out,
    [dispute_rate] is kept as the exact ratio. *)
Record Metrics : Type := {
  total_transactions : Z;
  successful_transactions : Z;
  failed_transactions : Z;
  total_volume : Q;
  total_fees : Q;
  dispute_rate : Q
}.

Record t : Type := {
  token_manager : TokenManager.t;
  transactions : gmap string Transaction;
  user_transactions : gmap string (list string);
  agent_transactions : gmap string (list string);
  active_transactions : list string;
  fee_config : FeeConfig;
  metrics : Metrics
}.

Definition set_token_manager (m : t) (tm : TokenManager.t) : t :=
  {| token_manager := tm; transactions := transactions m;
     user_transactions := user_transactions m;
     agent_transactions := agent_transactions m;
     active_transactions := active_transactions m;
     fee_config := fee_config m; metrics := metrics m |}.

(** The dictionary stored under [tid] is mutated in place. *)
Definition set_transaction (m : t) (tid : string) (x : Transaction) : t :=
  {| token_manager := token_manager m;
     transactions := <[tid := x]> (transactions m);
     user_transactions := user_transactions m;
     agent_transactions := agent_transactions m;
     active_transactions := active_transactions m;
     fee_config := fee_config m; metrics := metrics m |}.

Definition set_metrics (m : t) (k : Metrics) : t :=
  {| token_manager := token_manager m; transactions := transactions m;
     user_transactions := user_transactions m;
     agent_transactions := agent_transactions m;
     active_transactions := active_transactions m;
     fee_config := fee_config m; metrics := k |}.

Definition set_active (m : t) (a : list string) : t :=
  {| token_manager := token_manager m; transactions := transactions m;
     user_transactions := user_transactions m;
     agent_transactions := agent_transactions m;
     active_transactions := a;
     fee_config := fee_config m; metrics := metrics m |}.

(** *** Fee computation *)

(** Tuple order on [(threshold, rate)] items, strict. *)
Definition item_ltb (a b : Q * Q) : bool :=
  Qltb (fst a) (fst b) || (Qeq_bool (fst a) (fst b) && Qltb (snd a) (snd b)).

(** [sorted(items, reverse=True)], by insertion. *)
Fixpoint insert_desc (x : Q * Q) (l : list (Q * Q)) : list (Q * Q) :=
  match l with
  | [] => [x]
  | y :: l' => if item_ltb y x then x :: y :: l' else y :: insert_desc x l'
  end.

Fixpoint sorted_desc (l : list (Q * Q)) : list (Q * Q) :=
  match l with
  | [] => []
  | x :: l' => insert_desc x (sorted_desc l')
  end.

(** The [for ... break] loop of [_calculate_fee]: the rate of the first item
    whose threshold the volume reaches, [fee_rate] when there is none. *)
Fixpoint first_tier (user_volume : Q) (items : list (Q * Q)) (fee_rate : Q) : Q :=
  match items with
  | [] => fee_rate
  | (volume_threshold, discount_rate) :: rest =>
      if Qleb volume_threshold user_volume then discount_rate
      else first_tier user_volume rest fee_rate
  end.

Definition fee_rate (cfg : FeeConfig) (user_volume : Q) : Q :=
  first_tier user_volume (sorted_desc (volume_discount_tiers cfg)) (base_fee_rate cfg).

(** [_calculate_fee] *)
Definition _calculate_fee (cfg : FeeConfig) (amount_ user_volume : Q) : Q :=
  let fee_ := (amount_ * fee_rate cfg user_volume)%Q in
  py_max (min_fee cfg) (py_min (max_fee cfg) fee_).

(** [clamp(x, lo, hi)] as the specification words it: [x] held inside
    the range [[lo, hi]]. *)
Definition clamp (x lo hi : Q) : Q :=
  if Qltb x lo then lo else if Qltb hi x then hi else x.

(** *** Operations *)

Section Collaborators.

(** The two collaborators the manager calls without owning them.

    [check_balance] is what the attribute lookup
    [self.token_manager.check_balance] finds on the injected token manager:
    [None] when the object defines no such method.

    [update_agent_ownership agent from to] is the ownership-transfer
    collaborator ([agents/agent_manager.py], not in the sources): it either
    returns or raises. *)
Variable check_balance :
  option (TokenManager.t -> string -> Q -> TokenManager.t * outcome bool).
Variable update_agent_ownership : string -> string -> string -> outcome unit.

(** The generator summed into [buyer_volume]:
    [Decimal(str(self.transactions[tid]['amount']))] over the buyer's ids
    whose transaction is [COMPLETED]. *)
Fixpoint volume_of (txs : gmap string Transaction) (tids : list string) : outcome Q :=
  match tids with
  | [] => Return 0%Q
  | tid :: rest =>
      match txs !! tid with
      | None => Raise (KeyError tid)
      | Some x =>
          match volume_of txs rest with
          | Raise e => Raise e
          | Return v =>
              if state_eqb (state x) COMPLETED
              then Return (amount x + v)%Q else Return v
          end
      end
  end.

Definition index_append (ix : gmap string (list string)) (k tid : string)
  : gmap string (list string) :=
  <[k := (default [] (ix !! k) ++ [tid])%list]> ix.

(** [create_transaction].  [new_id] is [str(uuid.uuid4())], [now] the
    reading of [datetime.utcnow().timestamp()]. *)
Definition create_transaction (m : t) (buyer seller agent : string)
    (amount_ : Q) (listing : option string) (new_id : string) (now : Q)
  : t * outcome string :=
  handle_exceptions
    (if String.eqb buyer seller
     then (m, Raise (CustomException "TRANS_001"
                       "Buyer and seller cannot be the same" None))
     else if negb (Validator.validate_token_amount amount_)
     then (m, Raise (CustomException "TRANS_002" "Invalid transaction amount" None))
     else
       match volume_of (transactions m) (default [] (user_transactions m !! buyer)) with
       | Raise e => (m, Raise e)
       | Return buyer_volume =>
           let fee_ := _calculate_fee (fee_config m) amount_ buyer_volume in
           let total := (amount_ + fee_)%Q in
           match check_balance with
           | None => (m, Raise (AttributeError "check_balance"))
           | Some method =>
               match method (token_manager m) buyer total with
               | (tm1, Raise e) => (set_token_manager m tm1, Raise e)
               | (tm1, Return false) =>
                   (set_token_manager m tm1,
                    Raise (CustomException "TRANS_003" "Insufficient balance" None))
               | (tm1, Return true) =>
                   let x :=
                     {| transaction_id := new_id; buyer_id := buyer;
                        seller_id := seller; agent_id := agent;
                        listing_id := listing; amount := amount_;
                        fee := fee_; total_amount := total;
                        state := PENDING; created_at := now;
                        completed_at := None; error := None;
                        dispute := None |} in
                   let users1 := index_append (user_transactions m) buyer new_id in
                   let users2 := index_append users1 seller new_id in
                   let k := metrics m in
                   ({| token_manager := tm1;
                       transactions := <[new_id := x]> (transactions m);
                       user_transactions := users2;
                       agent_transactions :=
                         index_append (agent_transactions m) agent new_id;
                       active_transactions := (active_transactions m ++ [new_id])%list;
                       fee_config := fee_config m;
                       metrics :=
                         {| total_transactions := total_transactions k + 1;
                            successful_transactions := successful_transactions k;
                            failed_transactions := failed_transactions k;
                            total_volume := total_volume k;
                            total_fees := total_fees k;
                            dispute_rate := dispute_rate k |} |},
                    Return new_id)
               end
           end
       end).

(** [self.active_transactions.pop(transaction_id, None)] *)
Definition pop_active (m : t) (tid : string) : t :=
  set_active m (filter (fun a => a <> tid) (active_transactions m)).

(** The three awaited steps inside [try:] of [_process_transaction], after
    the state was set to [PROCESSING].  [id1], [id2] are the identifiers the
    two ledger transfers draw; the amounts are passed as
    [float(transaction['fee'])] and [float(transaction['amount'])]. *)
Definition settlement_steps (m : t) (x : Transaction) (id1 id2 : string)
  : t * outcome unit :=
  match TokenManager.transfer (token_manager m) (buyer_id x)
          "marketplace_treasury" (AFloat (float_of_decimal (fee x)))
          UTILITY None id1 with
  | (tm1, Raise e) => (set_token_manager m tm1, Raise e)
  | (tm1, Return _) =>
      match TokenManager.transfer tm1 (buyer_id x) (seller_id x)
              (AFloat (float_of_decimal (amount x))) UTILITY None id2 with
      | (tm2, Raise e) => (set_token_manager m tm2, Raise e)
      | (tm2, Return _) =>
          (set_token_manager m tm2,
           update_agent_ownership (agent_id x) (seller_id x) (buyer_id x))
      end
  end.

(** [_process_transaction] *)
Definition _process_transaction (m : t) (tid id1 id2 : string) (now : Q)
  : t * outcome unit :=
  match transactions m !! tid with
  | None => (m, Raise (KeyError tid))
  | Some x0 =>
      let x := set_state x0 PROCESSING in
      let m0 := set_transaction m tid x in
      let k := metrics m0 in
      match settlement_steps m0 x id1 id2 with
      | (m1, Return _) =>
          let x1 := set_completed_at (set_state x COMPLETED) now in
          let k1 := metrics m1 in
          (pop_active
             (set_metrics (set_transaction m1 tid x1)
                {| total_transactions := total_transactions k1;
                   successful_transactions := successful_transactions k1 + 1;
                   failed_transactions := failed_transactions k1;
                   total_volume := (total_volume k1 + amount x)%Q;
                   total_fees := (total_fees k1 + fee x)%Q;
                   dispute_rate := dispute_rate k1 |}) tid,
           Return tt)
      | (m1, Raise e) =>
          let x1 := set_error (set_state x FAILED) (str_exn e) in
          let k1 := metrics m1 in
          (pop_active
             (set_metrics (set_transaction m1 tid x1)
                {| total_transactions := total_transactions k1;
                   successful_transactions := successful_transactions k1;
                   failed_transactions := failed_transactions k1 + 1;
                   total_volume := total_volume k1;
                   total_fees := total_fees k1;
                   dispute_rate := dispute_rate k1 |}) tid,
           Return tt)
      end
  end.

(** [len([t for t in self.transactions.values() if t['state'] == DISPUTED])] *)
Definition disputed_count (txs : gmap string Transaction) : Z :=
  map_fold (fun (_ : string) (x : Transaction) (n : Z) =>
              if state_eqb (state x) DISPUTED then n + 1 else n) 0 txs.

(** [dispute_transaction] *)
Definition dispute_transaction (m : t) (tid user_id reason_ : string) (now : Q)
  : t * outcome bool :=
  handle_exceptions
    (match transactions m !! tid with
     | None => (m, Raise (CustomException "TRANS_004" "Transaction not found" None))
     | Some x =>
         if negb (String.eqb user_id (buyer_id x) || String.eqb user_id (seller_id x))
         then (m, Raise (CustomException "TRANS_005"
                           "Unauthorized transaction access" None))
         else if negb (state_eqb (state x) COMPLETED || state_eqb (state x) FAILED)
         then (m, Raise (CustomException "TRANS_006"
                           "Transaction cannot be disputed in current state" None))
         else
           let x1 :=
             set_dispute (set_state x DISPUTED)
               {| opened_by := user_id; reason := reason_;
                  opened_at := now; resolution := None |} in
           let m1 := set_transaction m tid x1 in
           let k := metrics m1 in
           let total_completed := successful_transactions k + failed_transactions k in
           let m2 :=
             if 0 <? total_completed
             then set_metrics m1
                    {| total_transactions := total_transactions k;
                       successful_transactions := successful_transactions k;
                       failed_transactions := failed_transactions k;
                       total_volume := total_volume k;
                       total_fees := total_fees k;
                       dispute_rate :=
                         (inject_Z (disputed_count (transactions m1))
                          / inject_Z total_completed)%Q |}
             else m1 in
           (m2, Return true)
     end).

(** The three awaited steps inside [try:] of the refund branch of
    [resolve_dispute]. *)
Definition refund_steps (m : t) (x : Transaction) (id1 id2 : string)
  : t * outcome unit :=
  match TokenManager.transfer (token_manager m) (seller_id x) (buyer_id x)
          (AFloat (float_of_decimal (amount x))) UTILITY None id1 with
  | (tm1, Raise e) => (set_token_manager m tm1, Raise e)
  | (tm1, Return _) =>
      match TokenManager.transfer tm1 "marketplace_treasury" (buyer_id x)
              (AFloat (float_of_decimal (fee x))) UTILITY None id2 with
      | (tm2, Raise e) => (set_token_manager m tm2, Raise e)
      | (tm2, Return _) =>
          (set_token_manager m tm2,
           update_agent_ownership (agent_id x) (buyer_id x) (seller_id x))
      end
  end.

(** The statement after the [if refund:] block of [resolve_dispute]:
    [transaction['dispute']['resolution'] = {...}; return True]. *)
Definition record_resolution (m : t) (tid : string) (x : Transaction) (resolution_ : string)
    (refund : bool) (now : Q) : t * outcome bool :=
  match dispute x with
  | None => (m, Raise (KeyError "dispute"))
  | Some d =>
      (set_transaction m tid
         (set_dispute x
            {| opened_by := opened_by d; reason := reason d;
               opened_at := opened_at d;
               resolution :=
                 Some {| outcome_text := resolution_; refunded := refund;
                         resolved_at := now |} |}),
       Return true)
  end.

(** [resolve_dispute] *)
Definition resolve_dispute (m : t) (tid resolution_ : string) (refund : bool)
    (id1 id2 : string) (now : Q) : t * outcome bool :=
  handle_exceptions
    (match transactions m !! tid with
     | None => (m, Raise (CustomException "TRANS_004" "Transaction not found" None))
     | Some x =>
         if negb (state_eqb (state x) DISPUTED)
         then (m, Raise (CustomException "TRANS_007" "Transaction is not disputed" None))
         else if refund
         then
           match refund_steps m x id1 id2 with
           | (m1, Raise e) =>
               (m1, Raise (CustomException "TRANS_008" "Refund failed"
                             (Some (str_exn e))))
           | (m1, Return _) =>
               let x1 := set_state x REFUNDED in
               record_resolution (set_transaction m1 tid x1) tid x1 resolution_ refund now
           end
         else record_resolution m tid x resolution_ refund now
     end).

End Collaborators.

End TransactionManager.

(* ===================================================================== *)
(** ** DynamicStabilizer ([tokens/dynamic_stabilizer.py]) *)
(* ===================================================================== *)

Module DynamicStabilizer.

Record Metrics : Type := {
  total_adjustments : Z;
  successful_adjustments : Z;
  failed_adjustments : Z;
  total_supply_changes : Q;
  max_price_deviation : Q;
  average_adjustment_size : Q;
  price_volatility : Q
}.

Record ControlParams : Type := {
  kp : Q;
  ki : Q;
  kd : Q;
  integral_error : Q;
  last_error : Q;
  damping_factor : Q
}.

Record MarketState : Type := {
  current_price : Q;
  current_supply : Q;
  demand_rate : Q;
  supply_rate : Q;
  liquidity_depth : Q
}.

(** The stabilizer object.  A [datetime] is the number of seconds it
    denotes; the two histories are the [deque(maxlen=1000)] buffers, oldest
    sample first. *)
Record t : Type := {
  token_manager : TokenManager.t;
  target_price : Q;
  price_tolerance : Q;
  adjustment_interval : Z;
  max_adjustment : Q;
  price_history : list (Q * Q);
  volume_history : list (Q * Q);
  last_adjustment_time : Q;
  metrics : Metrics;
  control_params : ControlParams;
  market_state : MarketState
}.

(** The object [__init__] builds around a token manager, with the default
    arguments; [now] is the reading of [datetime.utcnow()]. *)
Definition init (tm : TokenManager.t) (now : Q) : t :=
  {| token_manager := tm;
     target_price := 1.0;
     price_tolerance := 0.02;
     adjustment_interval := 3600;
     max_adjustment := 0.05;
     price_history := [];
     volume_history := [];
     last_adjustment_time := now;
     metrics :=
       {| total_adjustments := 0; successful_adjustments := 0;
          failed_adjustments := 0; total_supply_changes := 0;
          max_price_deviation := 0; average_adjustment_size := 0;
          price_volatility := 0 |};
     control_params :=
       {| kp := 0.5; ki := 0.1; kd := 0.2; integral_error := 0;
          last_error := 0; damping_factor := 0.8 |};
     market_state :=
       {| current_price := 1.0; current_supply := 0; demand_rate := 0;
          supply_rate := 0; liquidity_depth := 0 |} |}.

Definition set_token_manager (s : t) (tm : TokenManager.t) : t :=
  {| token_manager := tm; target_price := target_price s;
     price_tolerance := price_tolerance s;
     adjustment_interval := adjustment_interval s;
     max_adjustment := max_adjustment s;
     price_history := price_history s; volume_history := volume_history s;
     last_adjustment_time := last_adjustment_time s;
     metrics := metrics s; control_params := control_params s;
     market_state := market_state s |}.

Definition set_histories (s : t) (ph vh : list (Q * Q)) : t :=
  {| token_manager := token_manager s; target_price := target_price s;
     price_tolerance := price_tolerance s;
     adjustment_interval := adjustment_interval s;
     max_adjustment := max_adjustment s;
     price_history := ph; volume_history := vh;
     last_adjustment_time := last_adjustment_time s;
     metrics := metrics s; control_params := control_params s;
     market_state := market_state s |}.

Definition set_market_state (s : t) (ms : MarketState) : t :=
  {| token_manager := token_manager s; target_price := target_price s;
     price_tolerance := price_tolerance s;
     adjustment_interval := adjustment_interval s;
     max_adjustment := max_adjustment s;
     price_history := price_history s; volume_history := volume_history s;
     last_adjustment_time := last_adjustment_time s;
     metrics := metrics s; control_params := control_params s;
     market_state := ms |}.

Definition set_control_params (s : t) (cp : ControlParams) : t :=
  {| token_manager := token_manager s; target_price := target_price s;
     price_tolerance := price_tolerance s;
     adjustment_interval := adjustment_interval s;
     max_adjustment := max_adjustment s;
     price_history := price_history s; volume_history := volume_history s;
     last_adjustment_time := last_adjustment_time s;
     metrics := metrics s; control_params := cp;
     market_state := market_state s |}.

Definition set_metrics (s : t) (k : Metrics) : t :=
  {| token_manager := token_manager s; target_price := target_price s;
     price_tolerance := price_tolerance s;
     adjustment_interval := adjustment_interval s;
     max_adjustment := max_adjustment s;
     price_history := price_history s; volume_history := volume_history s;
     last_adjustment_time := last_adjustment_time s;
     metrics := k; control_params := control_params s;
     market_state := market_state s |}.

Definition set_last_adjustment_time (s : t) (at_ : Q) : t :=
  {| token_manager := token_manager s; target_price := target_price s;
     price_tolerance := price_tolerance s;
     adjustment_interval := adjustment_interval s;
     max_adjustment := max_adjustment s;
     price_history := price_history s; volume_history := volume_history s;
     last_adjustment_time := at_;
     metrics := metrics s; control_params := control_params s;
     market_state := market_state s |}.

Definition set_integral_error (cp : ControlParams) (v : Q) : ControlParams :=
  {| kp := kp cp; ki := ki cp; kd := kd cp; integral_error := v;
     last_error := last_error cp; damping_factor := damping_factor cp |}.

Definition set_last_error (cp : ControlParams) (v : Q) : ControlParams :=
  {| kp := kp cp; ki := ki cp; kd := kd cp;
     integral_error := integral_error cp;
     last_error := v; damping_factor := damping_factor cp |}.

(** [deque(maxlen=1000).append]: a full buffer drops its oldest sample. *)
Definition maxlen : nat := 1000.

Definition deque_append {A : Type} (d : list A) (x : A) : list A :=
  if (length d <? maxlen)%nat then (d ++ [x])%list else (tl d ++ [x])%list.

(** One dictionary of [new_transactions]. *)
Record MarketTx : Type := {
  tx_amount : Q;
  tx_price : Q;
  tx_token_type : TokenType
}.

(** [sum(f(tx) for tx in new_transactions if tx['token_type'] == UTILITY)] *)
Fixpoint sum_utility (f : MarketTx -> Q) (txs : list MarketTx) : Q :=
  match txs with
  | [] => 0
  | tx :: rest =>
      if TokenType_eqb (tx_token_type tx) UTILITY
      then (f tx + sum_utility f rest)%Q
      else sum_utility f rest
  end.

(** [_get_total_supply]: the call is sent with [None] as the key; a failure
    raises [STAB_003], and on success [result['data']] is read, a key the
    result does not have.  The [except] clause logs and re-raises. *)
Definition _get_total_supply (s : t) : t * outcome Q :=
  match dict_get UTILITY (TokenManager.token_contracts (token_manager s)) with
  | None => (s, Raise (KeyError (TokenType_repr UTILITY)))
  | Some contract_address =>
      let '(c, result) :=
        Executor.send_transaction
          (TokenManager.smart_contract_manager (token_manager s))
          Executor.totalSupply None in
      let s1 := set_token_manager s (TokenManager.set_executor (token_manager s) c) in
      match result with
      | Executor.Failed error_ =>
          (s1, Raise (CustomException "STAB_003" "Failed to get total supply"
                        (Some error_)))
      | Executor.Mined _ => (s1, Raise (KeyError "'data'"))
      end
  end.

(** A list comprehension [[volume for _, volume in history if cond]]: the
    condition is evaluated once per sample, in order, and the first
    exception ends the comprehension. *)
Fixpoint comprehension (cond : Q * Q -> outcome bool) (history : list (Q * Q))
  : outcome (list Q) :=
  match history with
  | [] => Return []
  | sample :: rest =>
      match cond sample with
      | Raise e => Raise e
      | Return keep =>
          match comprehension cond rest with
          | Raise e => Raise e
          | Return vs => Return (if keep then snd sample :: vs else vs)
          end
      end
  end.

(** The filter condition of [_calculate_demand_rate] and
    [_calculate_liquidity_depth],
    [datetime.utcnow() - timedelta(hours=...) <= timestamp]: the loop targets
    are [_] and [volume], and no [timestamp] is bound in the method or the
    module, so evaluating it raises [NameError]. *)
Definition recent_cond (sample : Q * Q) : outcome bool :=
  Raise (NameError "timestamp").

Definition Qsum (l : list Q) : Q := fold_right Qplus 0%Q l.

Definition mean_or_zero (vs : list Q) : Q :=
  match vs with
  | [] => 0
  | _ => (Qsum vs / inject_Z (Z.of_nat (length vs)))%Q
  end.

(** [_calculate_demand_rate] *)
Definition _calculate_demand_rate (s : t) : outcome Q :=
  if (length (volume_history s) <? 2)%nat then Return 0%Q
  else
    match comprehension recent_cond (volume_history s) with
    | Raise e => Raise e
    | Return recent_volumes => Return (mean_or_zero recent_volumes)
    end.

(** [_get_initial_supply] *)
Definition _get_initial_supply : Q := 1000000.

(** [_calculate_supply_rate]: [time_delta] is a [float], so the quotient
    [supply_delta / time_delta] of a [Decimal] by it raises [TypeError]. *)
Definition _calculate_supply_rate (s : t) : outcome Q :=
  if (length (price_history s) <? 2)%nat then Return 0%Q
  else
    match head (price_history s), last (price_history s) with
    | Some first_sample, Some last_sample =>
        let time_delta := (fst last_sample - fst first_sample)%Q in
        if Qltb 0 time_delta
        then Raise (TypeError "unsupported operand type(s) for /: 'Decimal' and 'float'")
        else Return 0%Q
    | _, _ => Return 0%Q
    end.

(** [_calculate_liquidity_depth] *)
Definition _calculate_liquidity_depth (s : t) : outcome Q :=
  match comprehension recent_cond (volume_history s) with
  | Raise e => Raise e
  | Return recent_volumes => Return (mean_or_zero recent_volumes)
  end.

(** The body of [try:] in [update_market_state]. *)
Definition update_market_state_body (s : t) (new_transactions : list MarketTx)
    (now : Q) : t * outcome unit :=
  let total_volume := sum_utility tx_amount new_transactions in
  let weighted_price :=
    if Qltb 0 total_volume
    then (sum_utility (fun tx => tx_amount tx * tx_price tx) new_transactions
          / total_volume)%Q
    else current_price (market_state s) in
  let s1 :=
    set_histories s
      (deque_append (price_history s) (now, weighted_price))
      (deque_append (volume_history s) (now, total_volume)) in
  match _get_total_supply s1 with
  | (s2, Raise e) => (s2, Raise e)
  | (s2, Return supply) =>
      match _calculate_demand_rate s2 with
      | Raise e => (s2, Raise e)
      | Return demand =>
          match _calculate_supply_rate s2 with
          | Raise e => (s2, Raise e)
          | Return rate =>
              match _calculate_liquidity_depth s2 with
              | Raise e => (s2, Raise e)
              | Return depth =>
                  let s3 :=
                    set_market_state s2
                      {| current_price := weighted_price;
                         current_supply := supply;
                         demand_rate := demand;
                         supply_rate := rate;
                         liquidity_depth := depth |} in
                  if Qeq_bool (target_price s3) 0
                  then (s3, Raise (DecimalException "DivisionByZero"))
                  else (s3, Return tt)
              end
          end
      end
  end.

(** [update_market_state] *)
Definition update_market_state (s : t) (new_transactions : list MarketTx)
    (now : Q) : t * outcome unit :=
  handle_exceptions
    (match new_transactions with
     | [] => (s, Return tt)
     | _ :: _ =>
         match update_market_state_body s new_transactions now with
         | (s1, Return v) => (s1, Return v)
         | (s1, Raise e) =>
             (s1, Raise (CustomException "STAB_002" "Market state update failed"
                           (Some (str_exn e))))
         end
     end).

(** [_mint_tokens]: [result['success']], [False] when anything raises.  The
    call is sent with [None] where the treasury's key would be. *)
Definition _mint_tokens (tm : TokenManager.t) (amount : Q) : TokenManager.t * bool :=
  let '(c, result) :=
    Executor.send_transaction (TokenManager.smart_contract_manager tm)
      (Executor.mint amount) None in
  (TokenManager.set_executor tm c, Executor.success result).

(** [_burn_tokens] *)
Definition _burn_tokens (tm : TokenManager.t) (amount : Q) : TokenManager.t * bool :=
  let '(c, result) :=
    Executor.send_transaction (TokenManager.smart_contract_manager tm)
      (Executor.burn amount) None in
  (TokenManager.set_executor tm c, Executor.success result).

(** The dictionary [check_and_adjust] returns after an adjustment. *)
Record Report : Type := {
  timestamp : Q;
  price_error : Q;
  adjustment : Q;
  supply_change : Q;
  success : bool
}.

(** The PID terms and the limited adjustment, from the error of this tick
    and the control parameters as they are after the integral was
    accumulated. *)
Definition pid_adjustment (cp : ControlParams) (interval : Z) (max_adj err : Q) : Q :=
  let p_term := (kp cp * err)%Q in
  let i_term := (ki cp * integral_error cp)%Q in
  let d_term := (kd cp * (err - last_error cp) / inject_Z interval)%Q in
  let adjustment_ := (- (p_term + i_term + d_term) * damping_factor cp)%Q in
  py_max (py_min adjustment_ max_adj) (- max_adj)%Q.

(** The metrics update after the mint or burn: the counters as the
    statements leave them, and whether they all ran.  The counters are
    incremented in place before the average is divided by the new number of
    successes, so they stay incremented when that division raises. *)
Definition adjusted_metrics (k : Metrics) (ok : bool) (adjustment_ supply_change_ : Q)
  : Metrics * outcome unit :=
  let total := total_adjustments k + 1 in
  if ok then
    let successful := successful_adjustments k + 1 in
    let k1 :=
      {| total_adjustments := total;
         successful_adjustments := successful;
         failed_adjustments := failed_adjustments k;
         total_supply_changes := (total_supply_changes k + Qabs supply_change_)%Q;
         max_price_deviation := max_price_deviation k;
         average_adjustment_size := average_adjustment_size k;
         price_volatility := price_volatility k |} in
    if successful =? 0 then (k1, Raise (DecimalException "DivisionByZero"))
    else
      ({| total_adjustments := total;
          successful_adjustments := successful;
          failed_adjustments := failed_adjustments k;
          total_supply_changes := (total_supply_changes k + Qabs supply_change_)%Q;
          max_price_deviation := max_price_deviation k;
          average_adjustment_size :=
            ((average_adjustment_size k * inject_Z (successful - 1)
              + Qabs adjustment_) / inject_Z successful)%Q;
          price_volatility := price_volatility k |},
       Return tt)
  else
    ({| total_adjustments := total;
        successful_adjustments := successful_adjustments k;
        failed_adjustments := failed_adjustments k + 1;
        total_supply_changes := total_supply_changes k;
        max_price_deviation := max_price_deviation k;
        average_adjustment_size := average_adjustment_size k;
        price_volatility := price_volatility k |},
     Return tt).

(** What happened in one tick, for stating properties: which phase it ended
    in, and in the adjusting phase the values it computed. *)
Inductive Phase : Type :=
| Idle
| Adjusting (err adjustment_ supply_change_ : Q) (minted ok : bool).

(** The body of [try:] in [check_and_adjust]. *)
Definition check_and_adjust_body (s : t) (current_time : Q)
  : t * Phase * outcome (option Report) :=
  if Qeq_bool (target_price s) 0
  then (s, Idle, Raise (DecimalException "DivisionByZero"))
  else
    let err := ((current_price (market_state s) - target_price s) / target_price s)%Q in
    if Qleb (Qabs err) (price_tolerance s) then (s, Idle, Return None)
    else
      let cp1 :=
        set_integral_error (control_params s)
          (integral_error (control_params s)
           + err * inject_Z (adjustment_interval s))%Q in
      let s1 := set_control_params s cp1 in
      if adjustment_interval s =? 0
      then (s1, Idle, Raise (DecimalException "DivisionByZero"))
      else
        let adjustment_ :=
          pid_adjustment cp1 (adjustment_interval s) (max_adjustment s) err in
        let supply_change_ := (current_supply (market_state s1) * adjustment_)%Q in
        let minted := Qltb 0 supply_change_ in
        let '(tm1, ok) :=
          if minted then _mint_tokens (token_manager s1) supply_change_
          else _burn_tokens (token_manager s1) (- supply_change_)%Q in
        let s2 := set_token_manager s1 tm1 in
        let phase := Adjusting err adjustment_ supply_change_ minted ok in
        let '(k, updated) :=
          adjusted_metrics (metrics s2) ok adjustment_ supply_change_ in
        let s3 := set_metrics s2 k in
        match updated with
        | Raise e => (s3, phase, Raise e)
        | Return _ =>
            let s4 := set_last_adjustment_time s3 current_time in
            let s5 := set_control_params s4 (set_last_error (control_params s4) err) in
            (s5, phase,
             Return (Some {| timestamp := current_time; price_error := err;
                             adjustment := adjustment_;
                             supply_change := supply_change_;
                             success := ok |}))
        end.

(** [check_and_adjust], with the phase the tick ended in. *)
Definition check_and_adjust_traced (s : t) (current_time : Q)
  : t * Phase * outcome (option Report) :=
  if Qltb (current_time - last_adjustment_time s) (inject_Z (adjustment_interval s))
  then (s, Idle, Return None)
  else
    match check_and_adjust_body s current_time with
    | (s1, ph, Return v) => (s1, ph, Return v)
    | (s1, ph, Raise e) =>
        (s1, ph, Raise (CustomException "STAB_004" "Price adjustment failed"
                          (Some (str_exn e))))
    end.

(** [check_and_adjust] *)
Definition check_and_adjust (s : t) (current_time : Q) : t * outcome (option Report) :=
  handle_exceptions
    (let '(s1, _, r) := check_and_adjust_traced s current_time in (s1, r)).

End DynamicStabilizer.

(* ===================================================================== *)
(** ** Concrete states used by the examples *)
(* ===================================================================== *)

Module Fixtures.

Definition alice : string := "0xaaaaaaaaaaaaaaaaaaaaaaaaaaaaaaaaaaaaaaaa".
Definition bob : string := "0xbbbbbbbbbbbbbbbbbbbbbbbbbbbbbbbbbbbbbbbb".
Definition vault : string := "0xcccccccccccccccccccccccccccccccccccccccc".

(** An executor front whose next answers follow the given schedule. *)
Definition node0 (schedule : list bool) : Executor.t :=
  {| Executor.faults := schedule;
     Executor.mined := {| Executor.gasUsed := 21000; Executor.blockNumber := 1 |} |}.

Definition contracts : list (TokenType * string) :=
  [ (MAIN, "0x1111111111111111111111111111111111111111");
    (UTILITY, "0x2222222222222222222222222222222222222222");
    (GOVERNANCE, "0x3333333333333333333333333333333333333333") ].

Definition tm0 (schedule : list bool) : TokenManager.t :=
  {| TokenManager.smart_contract_manager := node0 schedule;
     TokenManager.token_contracts := contracts;
     TokenManager.balance_cache := ∅;
     TokenManager.transaction_history := [];
     TokenManager.performance_metrics :=
       {| TokenManager.total_transactions := 0;
          TokenManager.successful_transactions := 0;
          TokenManager.failed_transactions := 0;
          TokenManager.total_volume :=
            [ (MAIN, Fin 0); (UTILITY, Fin 0); (GOVERNANCE, Fin 0) ] |} |}.

(** A collaborator that does answer [check_balance], and answers that the
    balance is enough; it stands for an injected object that provides the
    method the [TokenManager] of the sources lacks. *)
Definition check_balance_provided (tm : TokenManager.t) (address : string) (required : Q)
  : TokenManager.t * outcome bool :=
  (tm, Return true).

(** An ownership collaborator that always succeeds. *)
Definition ownership_ok (agent from_ to_ : string) : outcome unit := Return tt.

Definition metrics0 : TransactionManager.Metrics :=
  {| TransactionManager.total_transactions := 0;
     TransactionManager.successful_transactions := 0;
     TransactionManager.failed_transactions := 0;
     TransactionManager.total_volume := 0;
     TransactionManager.total_fees := 0;
     TransactionManager.dispute_rate := 0 |}.

(** A transaction manager as [__init__] leaves it. *)
Definition market0 : TransactionManager.t :=
  {| TransactionManager.token_manager := tm0 [];
     TransactionManager.transactions := ∅;
     TransactionManager.user_transactions := ∅;
     TransactionManager.agent_transactions := ∅;
     TransactionManager.active_transactions := [];
     TransactionManager.fee_config := TransactionManager.fee_config0;
     TransactionManager.metrics := metrics0 |}.

(** A purchase of agent-7 by Alice from Bob for 1000, in a given state and
    with a given dispute record. *)
Definition purchase (st : TransactionManager.TransactionState)
    (d : option TransactionManager.Dispute) : TransactionManager.Transaction :=
  {| TransactionManager.transaction_id := "tx-1";
     TransactionManager.buyer_id := alice;
     TransactionManager.seller_id := bob;
     TransactionManager.agent_id := "agent-7";
     TransactionManager.listing_id := None;
     TransactionManager.amount := 1000;
     TransactionManager.fee := 25;
     TransactionManager.total_amount := 1025;
     TransactionManager.state := st;
     TransactionManager.created_at := 0;
     TransactionManager.completed_at := Some 1%Q;
     TransactionManager.error := None;
     TransactionManager.dispute := d |}.

(** A manager holding that one purchase. *)
Definition market1 (st : TransactionManager.TransactionState)
    (d : option TransactionManager.Dispute) : TransactionManager.t :=
  {| TransactionManager.token_manager := tm0 [];
     TransactionManager.transactions := <["tx-1" := purchase st d]> ∅;
     TransactionManager.user_transactions :=
       <[alice := ["tx-1"]]> (<[bob := ["tx-1"]]> ∅);
     TransactionManager.agent_transactions := <["agent-7" := ["tx-1"]]> ∅;
     TransactionManager.active_transactions := [];
     TransactionManager.fee_config := TransactionManager.fee_config0;
     TransactionManager.metrics :=
       {| TransactionManager.total_transactions := 1;
          TransactionManager.successful_transactions := 1;
          TransactionManager.failed_transactions := 0;
          TransactionManager.total_volume := 1000;
          TransactionManager.total_fees := 25;
          TransactionManager.dispute_rate := 0 |} |}.

Definition dispute1 : TransactionManager.Dispute :=
  {| TransactionManager.opened_by := alice;
     TransactionManager.reason := "not as described";
     TransactionManager.opened_at := 2;
     TransactionManager.resolution := None |}.

(** A stabilizer with the default parameters, built at time 0 around the
    example token manager, whose market snapshot shows the given price and
    supply. *)
Definition stabilizer (schedule : list bool) (price supply_ : Q) : DynamicStabilizer.t :=
  DynamicStabilizer.set_market_state
    (DynamicStabilizer.init (tm0 schedule) 0)
    {| DynamicStabilizer.current_price := price;
       DynamicStabilizer.current_supply := supply_;
       DynamicStabilizer.demand_rate := 0;
       DynamicStabilizer.supply_rate := 0;
       DynamicStabilizer.liquidity_depth := 0 |}.

(** One market transaction of 10 utility tokens at price 1.1. *)
Definition sale : DynamicStabilizer.MarketTx :=
  {| DynamicStabilizer.tx_amount := 10;
     DynamicStabilizer.tx_price := 1.1;
     DynamicStabilizer.tx_token_type := UTILITY |}.

End Fixtures.

(* ===================================================================== *)
(** ** Python list slices and truth values *)
(* ===================================================================== *)

(** [l[start:stop]]: a negative index counts from the end, and both indices
    are then clamped to [[0, len(l)]]. *)
Definition py_slice {A : Type} (l : list A) (start stop : Z) : list A :=
  let n := Z.of_nat (length l) in
  let norm (i : Z) := if i <? 0 then Z.max (i + n) 0 else Z.min i n in
  take (Z.to_nat (norm stop - norm start)) (drop (Z.to_nat (norm start)) l).

(** The truth value of an optional string argument ([None] and [''] are
    false) and of an optional number ([None] and zero are false). *)
Definition truthy_str (o : option string) : option string :=
  match o with
  | Some s => if String.eqb s "" then None else Some s
  | None => None
  end.

Definition truthy_num (o : option Q) : option Q :=
  match o with
  | Some q => if Qeq_bool q 0 then None else Some q
  | None => None
  end.

(* ===================================================================== *)
(** ** TokenManager: set-up and queries *)
(* ===================================================================== *)

Module TokenManagerOps.

Import TokenManager.

Definition set_contracts (tm : t) (cs : list (TokenType * string)) : t :=
  {| smart_contract_manager := smart_contract_manager tm;
     token_contracts := cs;
     balance_cache := balance_cache tm;
     transaction_history := transaction_history tm;
     performance_metrics := performance_metrics tm |}.

(** [initialize_token_contracts] *)
Definition initialize_token_contracts (tm : t)
    (main_token_address utility_token_address governance_token_address : string)
  : t * outcome bool :=
  handle_exceptions
    (if negb (forallb Validator.validate_ethereum_address
                [main_token_address; utility_token_address; governance_token_address])
     then (tm, Raise (CustomException "TOKEN_003" "Invalid contract address format" None))
     else (set_contracts tm
             [ (MAIN, main_token_address); (UTILITY, utility_token_address);
               (GOVERNANCE, governance_token_address) ],
           Return true)).

(** The strings stored under ['status']. *)
Definition status_name (st : Status) : string :=
  match st with
  | pending => "pending"
  | completed => "completed"
  | failed => "failed"
  end.

Definition involves (address : string) (r : TransferRecord) : bool :=
  String.eqb (from_address r) address || String.eqb (to_address r) address.

Definition of_type (ty : TokenType) (r : TransferRecord) : bool :=
  TokenType_eqb (token_type r) ty.

Definition has_status (st : string) (r : TransferRecord) : bool :=
  String.eqb (status_name (status r)) st.

(** The three optional filters of [get_transaction_history], applied in the
    order of the source. *)
Definition filtered_history (h : list TransferRecord) (address : option string)
    (ty : option TokenType) (status_ : option string) : list TransferRecord :=
  let h1 :=
    match truthy_str address with
    | Some a => List.filter (involves a) h
    | None => h
    end in
  let h2 :=
    match ty with
    | Some t => List.filter (of_type t) h1
    | None => h1
    end in
  match truthy_str status_ with
  | Some st => List.filter (has_status st) h2
  | None => h2
  end.

(** [get_transaction_history] *)
Definition get_transaction_history (tm : t) (address : option string)
    (ty : option TokenType) (status_ : option string) (limit offset : Z)
  : t * outcome (list TransferRecord) :=
  handle_exceptions
    (tm, Return (py_slice (filtered_history (transaction_history tm) address ty status_)
                   offset (offset + limit))).

End TokenManagerOps.

(* ===================================================================== *)
(** ** TransactionManager: queries *)
(* ===================================================================== *)

Module TransactionQueries.

Import TransactionManager.

(** The strings of [class TransactionState]. *)
Definition state_name (st : TransactionState) : string :=
  match st with
  | PENDING => "pending"
  | PROCESSING => "processing"
  | COMPLETED => "completed"
  | FAILED => "failed"
  | REFUNDED => "refunded"
  | DISPUTED => "disputed"
  end.

(** [get_transaction] *)
Definition get_transaction (m : t) (tid user_id : string) : t * outcome Transaction :=
  handle_exceptions
    (match transactions m !! tid with
     | None => (m, Raise (CustomException "TRANS_004" "Transaction not found" None))
     | Some x =>
         if negb (String.eqb user_id (buyer_id x) || String.eqb user_id (seller_id x))
         then (m, Raise (CustomException "TRANS_005"
                           "Unauthorized transaction access" None))
         else (m, Return x)
     end).

(** The filters inside the loop of [get_user_transactions]: [true] when the
    transaction is appended, [false] when the loop [continue]s. *)
Definition role_ok (user_id : string) (role : option string) (x : Transaction) : bool :=
  match truthy_str role with
  | Some r =>
      negb ((String.eqb r "buyer" && negb (String.eqb (buyer_id x) user_id))
            || (String.eqb r "seller" && negb (String.eqb (seller_id x) user_id)))
  | None => true
  end.

Definition state_ok (state_ : option string) (x : Transaction) : bool :=
  match truthy_str state_ with
  | Some st => String.eqb (state_name (state x)) st
  | None => true
  end.

Definition time_ok (start_time end_time : option Q) (x : Transaction) : bool :=
  match truthy_num start_time with
  | Some t0 => negb (Qltb (created_at x) t0)
  | None => true
  end
  &&
  match truthy_num end_time with
  | Some t1 => negb (Qltb t1 (created_at x))
  | None => true
  end.

Definition selected (user_id : string) (role state_ : option string)
    (start_time end_time : option Q) (x : Transaction) : bool :=
  role_ok user_id role x && state_ok state_ x && time_ok start_time end_time x.

(** The loop [for tid in self.user_transactions[user_id]]: reading
    [self.transactions[tid]] raises [KeyError] for an id that is not
    stored. *)
Fixpoint collect (txs : gmap string Transaction) (keep : Transaction -> bool)
    (tids : list string) : outcome (list Transaction) :=
  match tids with
  | [] => Return []
  | tid :: rest =>
      match txs !! tid with
      | None => Raise (KeyError tid)
      | Some x =>
          match collect txs keep rest with
          | Raise e => Raise e
          | Return xs => Return (if keep x then x :: xs else xs)
          end
      end
  end.

(** [transactions.sort(key=lambda x: x['created_at'], reverse=True)]: a
    stable sort, newest first. *)
Fixpoint insert_newest (x : Transaction) (l : list Transaction) : list Transaction :=
  match l with
  | [] => [x]
  | y :: l' =>
      if Qltb (created_at y) (created_at x) then x :: y :: l'
      else y :: insert_newest x l'
  end.

Definition sort_newest_first (l : list Transaction) : list Transaction :=
  fold_left (fun acc x => insert_newest x acc) l [].

(** [get_user_transactions] *)
Definition get_user_transactions (m : t) (user_id : string)
    (role state_ : option string) (start_time end_time : option Q)
    (offset limit : Z) : t * outcome (list Transaction) :=
  handle_exceptions
    (match user_transactions m !! user_id with
     | None => (m, Return [])
     | Some tids =>
         match collect (transactions m)
                 (selected user_id role state_ start_time end_time) tids with
         | Raise e => (m, Raise e)
         | Return xs =>
             (m, Return (py_slice (sort_newest_first xs) offset (offset + limit)))
         end
     end).

End TransactionQueries.

(* ===================================================================== *)
(** ** DynamicStabilizer: set-up *)
(* ===================================================================== *)

Module StabilizerSetup.

Import DynamicStabilizer.

(** [_get_current_price]: the last recorded price, the target price when
    nothing was recorded. *)
Definition _get_current_price (s : t) : Q :=
  match last (price_history s) with
  | Some sample => snd sample
  | None => target_price s
  end.

(** [initialize]; [now] is the reading of [datetime.utcnow()]. *)
Definition initialize (s : t) (now : Q) : t * outcome bool :=
  handle_exceptions
    (match _get_total_supply s with
     | (s1, Raise e) =>
         (s1, Raise (CustomException "STAB_001" "Stabilizer initialization failed"
                       (Some (str_exn e))))
     | (s1, Return current_supply_) =>
         let current_price_ := _get_current_price s1 in
         let ms := market_state s1 in
         let s2 :=
           set_market_state s1
             {| current_price := current_price_;
                current_supply := current_supply_;
                demand_rate := demand_rate ms;
                supply_rate := supply_rate ms;
                liquidity_depth := liquidity_depth ms |} in
         (set_histories s2
            (deque_append (price_history s2) (now, current_price_))
            (volume_history s2),
          Return true)
     end).

End StabilizerSetup.

(* ===================================================================== *)
(** ** Notions used to state properties *)
(* ===================================================================== *)

(** Every character is one of [[a-fA-F0-9]]. *)
Fixpoint all_hex (s : string) : bool :=
  match s with
  | EmptyString => true
  | String c rest => Validator.is_hex_digit c && all_hex rest
  end.

(** A line feed. *)
Definition LF : string := String "010" EmptyString.

(** The record [transfer] creates before it enters [try:]. *)
Definition pending_record (from_ to_ : string) (amount_ : Dec) (ty : TokenType)
    (new_id : string) : TokenManager.TransferRecord :=
  {| TokenManager.transaction_id := new_id;
     TokenManager.from_address := from_; TokenManager.to_address := to_;
     TokenManager.amount := amount_; TokenManager.token_type := ty;
     TokenManager.status := TokenManager.pending;
     TokenManager.gas_used := None; TokenManager.block_number := None;
     TokenManager.error := None |}.

(** Newest first: every transaction is created no earlier than all the
    transactions that follow it in the list. *)
Inductive newest_first : list TransactionManager.Transaction -> Prop :=
| newest_first_nil : newest_first []
| newest_first_cons (x : TransactionManager.Transaction)
    (l : list TransactionManager.Transaction) :
    Forall (fun y => (TransactionManager.created_at y
                      <= TransactionManager.created_at x)%Q) l ->
    newest_first l -> newest_first (x :: l).

(** Tier items ordered by threshold, highest first. *)
Inductive thresholds_descending : list (Q * Q) -> Prop :=
| thresholds_descending_nil : thresholds_descending []
| thresholds_descending_cons (x : Q * Q) (l : list (Q * Q)) :
    Forall (fun y => (fst y <= fst x)%Q) l ->
    thresholds_descending l -> thresholds_descending (x :: l).

(** The price error a tick computes, and the control parameters after the
    integral was accumulated. *)
Definition tick_error (s : DynamicStabilizer.t) : Q :=
  ((DynamicStabilizer.current_price (DynamicStabilizer.market_state s)
    - DynamicStabilizer.target_price s) / DynamicStabilizer.target_price s)%Q.

Definition tick_params (s : DynamicStabilizer.t) : DynamicStabilizer.ControlParams :=
  DynamicStabilizer.set_integral_error (DynamicStabilizer.control_params s)
    (DynamicStabilizer.integral_error (DynamicStabilizer.control_params s)
     + tick_error s * inject_Z (DynamicStabilizer.adjustment_interval s))%Q.

(** The configuration of a stabilizer and its view of the market: what a
    control tick reads and never writes. *)
Definition same_setup (s s' : DynamicStabilizer.t) : Prop :=
  DynamicStabilizer.target_price s' = DynamicStabilizer.target_price s
  /\ DynamicStabilizer.price_tolerance s' = DynamicStabilizer.price_tolerance s
  /\ DynamicStabilizer.adjustment_interval s' = DynamicStabilizer.adjustment_interval s
  /\ DynamicStabilizer.max_adjustment s' = DynamicStabilizer.max_adjustment s
  /\ DynamicStabilizer.market_state s' = DynamicStabilizer.market_state s
  /\ DynamicStabilizer.price_history s' = DynamicStabilizer.price_history s
  /\ DynamicStabilizer.volume_history s' = DynamicStabilizer.volume_history s
  /\ DynamicStabilizer.kp (DynamicStabilizer.control_params s')
     = DynamicStabilizer.kp (DynamicStabilizer.control_params s)
  /\ DynamicStabilizer.ki (DynamicStabilizer.control_params s')
     = DynamicStabilizer.ki (DynamicStabilizer.control_params s)
  /\ DynamicStabilizer.kd (DynamicStabilizer.control_params s')
     = DynamicStabilizer.kd (DynamicStabilizer.control_params s)
  /\ DynamicStabilizer.damping_factor (DynamicStabilizer.control_params s')
     = DynamicStabilizer.damping_factor (DynamicStabilizer.control_params s).

(** The counters of the stabilizer add up, and the running average of the
    adjustment sizes is a size within the limit. *)
Definition metrics_consistent (s : DynamicStabilizer.t) : Prop :=
  let k := DynamicStabilizer.metrics s in
  0 <= DynamicStabilizer.successful_adjustments k
  /\ 0 <= DynamicStabilizer.failed_adjustments k
  /\ DynamicStabilizer.total_adjustments k
     = DynamicStabilizer.successful_adjustments k
       + DynamicStabilizer.failed_adjustments k
  /\ (0 <= DynamicStabilizer.average_adjustment_size k
      <= DynamicStabilizer.max_adjustment s)%Q
  /\ (0 <= DynamicStabilizer.total_supply_changes k)%Q.

(** * Properties *)
(* ===================================================================== *)

(** ** Comparisons and enumerations *)

Lemma Qltb_lt (a b : Q) : Qltb a b = true <-> (a < b)%Q.
Proof.
  unfold Qltb. rewrite negb_true_iff. split.
  - intros H. apply Qnot_le_lt. intros Hle.
    apply Qle_bool_iff in Hle. congruence.
  - intros H. destruct (Qle_bool b a) eqn:E; [|reflexivity].
    apply Qle_bool_iff in E. exfalso. apply (Qlt_not_le _ _ H E).
Qed.

Lemma Qltb_ge (a b : Q) : Qltb a b = false <-> (b <= a)%Q.
Proof.
  unfold Qltb. rewrite negb_false_iff. apply Qle_bool_iff.
Qed.

Lemma Qleb_le (a b : Q) : Qleb a b = true <-> (a <= b)%Q.
Proof. apply Qle_bool_iff. Qed.

Lemma Qleb_gt (a b : Q) : Qleb a b = false <-> (b < a)%Q.
Proof.
  unfold Qleb. split.
  - intros H. apply Qnot_le_lt. intros Hle. apply Qle_bool_iff in Hle. congruence.
  - intros H. destruct (Qle_bool a b) eqn:E; [|reflexivity].
    apply Qle_bool_iff in E. exfalso. apply (Qlt_not_le _ _ H E).
Qed.

Lemma py_max_spec (a b : Q) : (a <= py_max a b /\ b <= py_max a b)%Q.
Proof.
  unfold py_max. destruct (Qltb a b) eqn:E.
  - apply Qltb_lt in E. split; lra.
  - apply Qltb_ge in E. split; lra.
Qed.

Lemma py_max_cases (a b : Q) : py_max a b = a \/ py_max a b = b.
Proof. unfold py_max. destruct (Qltb a b); auto. Qed.

Lemma py_min_spec (a b : Q) : (py_min a b <= a /\ py_min a b <= b)%Q.
Proof.
  unfold py_min. destruct (Qltb b a) eqn:E.
  - apply Qltb_lt in E. split; lra.
  - apply Qltb_ge in E. split; lra.
Qed.

Lemma py_min_cases (a b : Q) : py_min a b = a \/ py_min a b = b.
Proof. unfold py_min. destruct (Qltb b a); auto. Qed.

Lemma TokenType_eqb_eq (a b : TokenType) : TokenType_eqb a b = true <-> a = b.
Proof. destruct a, b; simpl; split; intros H; congruence. Qed.

Lemma state_eqb_eq (a b : TransactionManager.TransactionState) :
  TransactionManager.state_eqb a b = true <-> a = b.
Proof. destruct a, b; simpl; split; intros H; congruence. Qed.

(** ** The exception wrapper *)

Lemma handle_exceptions_fst {S A : Type} (r : S * outcome A) :
  fst (handle_exceptions r) = fst r.
Proof. destruct r as [s [a|[]]]; reflexivity. Qed.

Lemma handle_exceptions_return {S A : Type} (r : S * outcome A) (a : A) :
  snd (handle_exceptions r) = Return a <-> snd r = Return a.
Proof. destruct r as [s [a'|[]]]; simpl; split; intros H; congruence. Qed.

Lemma handle_exceptions_raise {S A : Type} (r : S * outcome A) (e : exn) :
  snd (handle_exceptions r) = Raise e -> exists e', snd r = Raise e'.
Proof. destruct r as [s [a'|e']]; simpl; intros H; [destruct e; discriminate | eauto]. Qed.

Lemma handle_exceptions_structured {S A : Type} (r : S * outcome A) (e : exn) :
  snd (handle_exceptions r) = Raise e -> is_structured_error (snd (handle_exceptions r)).
Proof.
  destruct r as [s [a'|[]]]; simpl; intros H; try discriminate;
    unfold is_structured_error; eauto.
Qed.

Lemma handle_exceptions_custom {S A : Type} (s : S) (c m : string) (d : option string) :
  @handle_exceptions S A (s, Raise (CustomException c m d))
  = (s, Raise (CustomException c m d)).
Proof. reflexivity. Qed.

(** ** The executor front and the token manager *)

Section ExecutorFacts.

Import TokenManager.

(** A call sent without a key fails before anything leaves the program. *)
Lemma send_transaction_without_key (c : Executor.t) (f : Executor.call) :
  exists error_, Executor.send_transaction c f None = (c, Executor.Failed error_).
Proof. eexists. reflexivity. Qed.

(** A result is either the failure dictionary or the receipt; it is never a
    value read from the contract. *)
Lemma send_transaction_answers (c : Executor.t) (f : Executor.call) (k : option string) :
  (exists error_, snd (Executor.send_transaction c f k) = Executor.Failed error_)
  \/ snd (Executor.send_transaction c f k) = Executor.Mined (Executor.mined c).
Proof.
  unfold Executor.send_transaction. destruct k as [k|]; [| left; eauto].
  destruct (Executor.faults c) as [|[] ?]; simpl; eauto.
Qed.

Lemma set_executor_same (tm : t) : set_executor tm (smart_contract_manager tm) = tm.
Proof. destruct tm; reflexivity. Qed.

Lemma _get_token_balance_raises (tm : t) (address contract_address : string) :
  exists error_,
    _get_token_balance tm address contract_address
    = (tm, Raise (CustomException "TOKEN_006" "Balance check failed" (Some error_))).
Proof.
  unfold _get_token_balance. simpl. rewrite set_executor_same. eauto.
Qed.

Lemma get_all_balances_cases (tm : t) (address : string)
    (items : list (TokenType * string)) (acc : list (TokenType * Q)) :
  match items with
  | [] => get_all_balances tm address items acc = (tm, Return acc)
  | _ :: _ =>
      exists error_,
        get_all_balances tm address items acc
        = (tm, Raise (CustomException "TOKEN_006" "Balance check failed" (Some error_)))
  end.
Proof.
  destruct items as [|[ty ca] rest]; [reflexivity |].
  destruct (_get_token_balance_raises tm address ca) as [error_ H].
  exists error_. cbn [get_all_balances]. rewrite H. reflexivity.
Qed.

(** The text [get_balance] puts into the details of [TOKEN_005] when a token
    type is given. *)
Lemma get_balance_typed (tm : t) (address : string) (ty : TokenType) :
  get_balance tm address (Some ty)
  = (tm,
     Raise
       (if Validator.validate_ethereum_address address
        then CustomException "TOKEN_005" "Failed to fetch balance"
               (Some (match dict_get ty (token_contracts tm) with
                      | Some _ => "TOKEN_006: Balance check failed"
                      | None => TokenType_repr ty
                      end))
        else CustomException "TOKEN_004" "Invalid wallet address" None)).
Proof.
  unfold get_balance.
  destruct (Validator.validate_ethereum_address address); [| reflexivity].
  cbn [negb]. cbv iota.
  destruct (dict_get ty (token_contracts tm)) as [ca|]; [| reflexivity].
  destruct (_get_token_balance_raises tm address ca) as [error_ H].
  rewrite H. reflexivity.
Qed.

(** Every exception [float(amount)] raises is one the wrapper turns into
    [INTERNAL_ERROR]. *)
Lemma py_float_raises (a : Amount) (e : exn) :
  py_float a = Raise e ->
  (exists n, a = AInt n /\ FLOAT_OVERFLOW <= Z.abs n
             /\ e = OverflowError "int too large to convert to float")
  \/ (a = ADec (NaN true) /\ e = ValueError "cannot convert signaling NaN to float").
Proof.
  destruct a as [n|f|[q|neg|[|]]]; simpl; try discriminate.
  - destruct (FLOAT_OVERFLOW <=? Z.abs n) eqn:E; [| discriminate].
    intros [= <-]. left. exists n. apply Z.leb_le in E. auto.
  - intros [= <-]. right. auto.
Qed.

(** [transfer] never gets past the balance read. *)
Lemma transfer_eq (tm : t) (from_ to_ : string) (amount_ : Amount) (ty : TokenType)
    (private_key : option string) (new_id : string) :
  transfer tm from_ to_ amount_ ty private_key new_id
  = (tm,
     Raise
       (if negb (Validator.validate_ethereum_address from_
                 && Validator.validate_ethereum_address to_)
        then CustomException "TOKEN_004" "Invalid wallet address" None
        else
          match py_float amount_ with
          | Raise e => CustomException "INTERNAL_ERROR" (str_exn e) None
          | Return as_float =>
              if negb (Validator.validate_float as_float)
              then CustomException "TOKEN_007" "Invalid transfer amount" None
              else CustomException "TOKEN_005" "Failed to fetch balance"
                     (Some (match dict_get ty (token_contracts tm) with
                            | Some _ => "TOKEN_006: Balance check failed"
                            | None => TokenType_repr ty
                            end))
          end)).
Proof.
  unfold transfer.
  destruct (Validator.validate_ethereum_address from_) eqn:Hf; [| reflexivity].
  destruct (Validator.validate_ethereum_address to_) eqn:Ht; [| reflexivity].
  cbn [andb negb]. cbv iota.
  destruct (py_float amount_) as [as_float|e] eqn:Hfl.
  - destruct (Validator.validate_float as_float); [| reflexivity].
    cbn [negb]. cbv iota. rewrite get_balance_typed, Hf. reflexivity.
  - destruct (py_float_raises _ _ Hfl) as [(n & _ & _ & ->)|[_ ->]]; reflexivity.
Qed.

(** The stabilizer's two calls are sent without a key. *)
Lemma _mint_tokens_fails (tm : t) (amount_ : Q) :
  DynamicStabilizer._mint_tokens tm amount_ = (tm, false).
Proof.
  unfold DynamicStabilizer._mint_tokens. simpl. rewrite set_executor_same. reflexivity.
Qed.

Lemma _burn_tokens_fails (tm : t) (amount_ : Q) :
  DynamicStabilizer._burn_tokens tm amount_ = (tm, false).
Proof.
  unfold DynamicStabilizer._burn_tokens. simpl. rewrite set_executor_same. reflexivity.
Qed.

End ExecutorFacts.

(* ===================================================================== *)
(** * Token ledger: atomicity, insufficient balance *)
(* ===================================================================== *)



(** C3 (no negative balances).  The source compares the sender's balance with
    the amount and raises TOKEN_001 "Insufficient balance" when it is short,
    but the comparison is never reached: for every Transfer between
    well-formed addresses whose amount converts to a positive float,
    whatever the sender holds and whatever the executor front would answer,
    the call raises TOKEN_005 "Failed to fetch balance" and leaves the
    manager as it was.  So a Transfer that exceeds the sender's balance is
    refused without any change, but with TOKEN_005 and not with the
    insufficient-balance error. *)
Theorem insufficient_balance_never_reported
    (tm : TokenManager.t) (from_ to_ : string) (amount_ : Amount) (ty : TokenType)
    (private_key : option string) (new_id : string) (as_float : Float) :
  Validator.validate_ethereum_address from_ = true ->
  Validator.validate_ethereum_address to_ = true ->
  py_float amount_ = Return as_float ->
  Validator.validate_float as_float = true ->
  let r := TokenManager.transfer tm from_ to_ amount_ ty private_key new_id in
  fst r = tm
  /\ (exists details,
         snd r = Raise (CustomException "TOKEN_005" "Failed to fetch balance"
                          (Some details)))
  /\ error_code (snd r) <> Some "TOKEN_001".
Proof.
  intros Hf Ht Hfl Hpos. cbv zeta. rewrite transfer_eq, Hf, Ht, Hfl, Hpos.
  cbn [andb negb fst snd]. cbv iota.
  split; [reflexivity |]. split; [eauto | discriminate].
Qed.

(** Alice, who holds 1000 on the contract, sends 1500 to Bob. *)
Lemma insufficient_balance_never_reported_witness :
  let tm := Fixtures.tm0 [] in
  let r :=
    TokenManager.transfer tm Fixtures.alice Fixtures.bob (ADec (Fin 1500)) UTILITY
      (Some "alice-key") "t2" in
  fst r = tm
  /\ (exists details,
         snd r = Raise (CustomException "TOKEN_005" "Failed to fetch balance"
                          (Some details)))
  /\ error_code (snd r) <> Some "TOKEN_001".
Proof.
  apply (insufficient_balance_never_reported (Fixtures.tm0 []) Fixtures.alice
           Fixtures.bob (ADec (Fin 1500)) UTILITY (Some "alice-key") "t2"
           (FFin 1500)).
  - reflexivity.
  - reflexivity.
  - vm_compute. reflexivity.
  - reflexivity.
Defined.

(* ===================================================================== *)
(** * Transaction coordinator: fees *)
(* ===================================================================== *)

Section Fees.

Import TransactionManager.

(** The tier table of the sources, read highest threshold first. *)
Lemma fee_rate_tiers (user_volume : Q) :
  fee_rate fee_config0 user_volume
  = if Qleb 100000 user_volume then 0.01%Q
    else if Qleb 10000 user_volume then 0.015%Q
    else if Qleb 1000 user_volume then 0.02%Q
    else 0.025%Q.
Proof. reflexivity. Qed.

Lemma fee_rate_monotone (v1 v2 : Q) :
  (v1 <= v2)%Q -> (fee_rate fee_config0 v2 <= fee_rate fee_config0 v1)%Q.
Proof.
  intros Hle. rewrite !fee_rate_tiers.
  destruct (Qleb 100000 v2) eqn:A2, (Qleb 10000 v2) eqn:B2, (Qleb 1000 v2) eqn:C2,
           (Qleb 100000 v1) eqn:A1, (Qleb 10000 v1) eqn:B1, (Qleb 1000 v1) eqn:C1;
    repeat match goal with
           | H : Qleb _ _ = true |- _ => apply Qleb_le in H
           | H : Qleb _ _ = false |- _ => apply Qleb_gt in H
           end;
    lra.
Qed.

(** The source's [max(lo, min(hi, x))] is the clamp of [x] to [[lo, hi]]. *)
Lemma max_min_is_clamp (x lo hi : Q) :
  (lo <= hi)%Q -> (py_max lo (py_min hi x) == clamp x lo hi)%Q.
Proof.
  intros Hrange. unfold py_max, py_min, clamp.
  destruct (Qltb x hi) eqn:A, (Qltb x lo) eqn:B, (Qltb hi x) eqn:C;
    repeat match goal with
           | H : Qltb _ _ = true |- _ => apply Qltb_lt in H
           | H : Qltb _ _ = false |- _ => apply Qltb_ge in H
           end;
    try (exfalso; lra);
    match goal with
    | |- ((if ?c then _ else _) == _)%Q =>
        let E := fresh "E" in
        destruct c eqn:E;
        [apply Qltb_lt in E | apply Qltb_ge in E]; lra
    end.
Qed.

(** What a [create_transaction] that returns has stored. *)
Lemma create_transaction_returns
    (cb : option (TokenManager.t -> string -> Q -> TokenManager.t * outcome bool))
    (m m' : t) (buyer seller agent : string) (amount_ : Q)
    (listing : option string) (new_id tid : string) (now : Q) :
  create_transaction cb m buyer seller agent amount_ listing new_id now
  = (m', Return tid) ->
  exists buyer_volume method tm1,
    volume_of (transactions m) (default [] (user_transactions m !! buyer))
    = Return buyer_volume
    /\ cb = Some method
    /\ method (token_manager m) buyer
         (amount_ + _calculate_fee (fee_config m) amount_ buyer_volume)%Q
       = (tm1, Return true)
    /\ String.eqb buyer seller = false
    /\ Validator.validate_token_amount amount_ = true
    /\ tid = new_id
    /\ transactions m' !! tid
       = Some {| transaction_id := new_id; buyer_id := buyer;
                 seller_id := seller; agent_id := agent;
                 listing_id := listing; amount := amount_;
                 fee := _calculate_fee (fee_config m) amount_ buyer_volume;
                 total_amount :=
                   (amount_ + _calculate_fee (fee_config m) amount_ buyer_volume)%Q;
                 state := PENDING; created_at := now;
                 completed_at := None; error := None; dispute := None |}
    /\ active_transactions m' = (active_transactions m ++ [tid])%list
    /\ token_manager m' = tm1.
Proof.
  unfold create_transaction. intros H.
  destruct (String.eqb buyer seller) eqn:Hneq; [discriminate|].
  destruct (Validator.validate_token_amount amount_) eqn:Hamt; [|discriminate].
  simpl in H.
  destruct (volume_of (transactions m) (default [] (user_transactions m !! buyer)))
    as [vol|e] eqn:Hvol; [| destruct e; discriminate].
  destruct cb as [method|]; [| discriminate].
  destruct (method (token_manager m) buyer
              (amount_ + _calculate_fee (fee_config m) amount_ vol)%Q)
    as [tm1 [[|]|e]] eqn:Hcb; simpl in H; try discriminate;
    [| destruct e; discriminate].
  injection H as <- <-.
  exists vol, method, tm1. simpl. rewrite lookup_insert_eq.
  repeat split; auto.
Qed.

End Fees.

(** C6 (fee computation).  With the fee configuration of the sources: the fee
    rate does not increase when the buyer's completed volume grows; for every
    amount and volume the fee is the clamp of [amount * rate] to
    [[min_fee, max_fee]]; a transaction that [create_transaction] stores
    carries that fee and [total_amount = amount + fee]; and for volume 0 and
    amount 1000 the rate is 2.5%, the fee 25 and the total 1025. *)
Theorem fee_computation :
  (forall v1 v2 : Q,
      (v1 <= v2)%Q ->
      (TransactionManager.fee_rate TransactionManager.fee_config0 v2
       <= TransactionManager.fee_rate TransactionManager.fee_config0 v1)%Q)
  /\ (forall amount volume : Q,
         (TransactionManager._calculate_fee TransactionManager.fee_config0 amount volume
          == TransactionManager.clamp
               (amount * TransactionManager.fee_rate TransactionManager.fee_config0 volume)
               (TransactionManager.min_fee TransactionManager.fee_config0)
               (TransactionManager.max_fee TransactionManager.fee_config0))%Q)
  /\ (forall cb m m' buyer seller agent amount listing new_id tid now,
         TransactionManager.create_transaction cb m buyer seller agent amount
           listing new_id now = (m', Return tid) ->
         exists volume x,
           TransactionManager.volume_of (TransactionManager.transactions m)
             (default [] (TransactionManager.user_transactions m !! buyer))
           = Return volume
           /\ TransactionManager.transactions m' !! tid = Some x
           /\ TransactionManager.fee x
              = TransactionManager._calculate_fee (TransactionManager.fee_config m)
                  amount volume
           /\ TransactionManager.total_amount x
              = (amount + TransactionManager.fee x)%Q)
  /\ (TransactionManager.fee_rate TransactionManager.fee_config0 0 == 0.025)%Q
  /\ (TransactionManager._calculate_fee TransactionManager.fee_config0 1000 0 == 25.0)%Q
  /\ (1000 + TransactionManager._calculate_fee TransactionManager.fee_config0 1000 0
      == 1025.0)%Q.
Proof.
  split; [exact fee_rate_monotone |].
  split.
  { intros amount volume. unfold TransactionManager._calculate_fee.
    apply max_min_is_clamp. simpl. lra. }
  split.
  { intros cb m m' buyer seller agent amount listing new_id tid now H.
    apply create_transaction_returns in H.
    destruct H as (vol & method & tm1 & Hvol & _ & _ & _ & _ & _ & Hx & _).
    eexists _, _. split; [exact Hvol |]. split; [exact Hx |]. simpl. auto. }
  split; [reflexivity |].
  split; reflexivity.
Qed.

(** The rate at volume 20000 is not above the rate at volume 500, and a
    buyer without history who buys for 1000 from a token manager that answers
    [check_balance] gets a stored fee of 25 and a total of 1025. *)
Lemma fee_computation_witness :
  (TransactionManager.fee_rate TransactionManager.fee_config0 20000
   <= TransactionManager.fee_rate TransactionManager.fee_config0 500)%Q
  /\ (exists volume x,
         TransactionManager.volume_of
           (TransactionManager.transactions Fixtures.market0)
           (default [] (TransactionManager.user_transactions Fixtures.market0
                          !! Fixtures.alice))
         = Return volume
         /\ TransactionManager.transactions
              (fst (TransactionManager.create_transaction
                      (Some Fixtures.check_balance_provided) Fixtures.market0
                      Fixtures.alice Fixtures.bob "agent-7" 900 None "tx-9" 5))
            !! "tx-9" = Some x
         /\ TransactionManager.fee x
            = TransactionManager._calculate_fee
                (TransactionManager.fee_config Fixtures.market0) 900 volume
         /\ TransactionManager.total_amount x = (900 + TransactionManager.fee x)%Q).
Proof.
  split.
  - apply (proj1 fee_computation 500%Q 20000%Q). unfold Qle. simpl. lia.
  - apply (proj1 (proj2 (proj2 fee_computation))
             (Some Fixtures.check_balance_provided) Fixtures.market0
             (fst (TransactionManager.create_transaction
                     (Some Fixtures.check_balance_provided) Fixtures.market0
                     Fixtures.alice Fixtures.bob "agent-7" 900 None "tx-9" 5))
             Fixtures.alice Fixtures.bob "agent-7" 900%Q None "tx-9" "tx-9" 5%Q).
    vm_compute. reflexivity.
Defined.

(* ===================================================================== *)
(** * Transaction coordinator: creation *)
(* ===================================================================== *)

(** [check_balance] is not a name [class TokenManager] defines. *)
Lemma check_balance_not_an_attribute :
  TokenManager.has_attribute "check_balance" = false.
Proof. reflexivity. Qed.

(** With a token manager that does provide [check_balance] and answers
    [True], the rest of [create_transaction] stores a PENDING transaction,
    schedules its processing and returns the new id. *)
Lemma create_transaction_with_check_balance
    (method : TokenManager.t -> string -> Q -> TokenManager.t * outcome bool)
    (m : TransactionManager.t) (buyer seller agent : string) (amount : Q)
    (listing : option string) (new_id : string) (now volume : Q)
    (tm1 : TokenManager.t) :
  String.eqb buyer seller = false ->
  Validator.validate_token_amount amount = true ->
  TransactionManager.volume_of (TransactionManager.transactions m)
    (default [] (TransactionManager.user_transactions m !! buyer)) = Return volume ->
  method (TransactionManager.token_manager m) buyer
    (amount + TransactionManager._calculate_fee (TransactionManager.fee_config m)
                amount volume)%Q = (tm1, Return true) ->
  let r :=
    TransactionManager.create_transaction (Some method) m buyer seller agent
      amount listing new_id now in
  snd r = Return new_id
  /\ (exists x,
         TransactionManager.transactions (fst r) !! new_id = Some x
         /\ TransactionManager.state x = TransactionManager.PENDING
         /\ TransactionManager.buyer_id x = buyer
         /\ TransactionManager.seller_id x = seller
         /\ TransactionManager.amount x = amount)
  /\ TransactionManager.active_transactions (fst r)
     = (TransactionManager.active_transactions m ++ [new_id])%list.
Proof.
  intros Hneq Hamt Hvol Hcb.
  unfold TransactionManager.create_transaction.
  rewrite Hneq, Hamt. simpl. rewrite Hvol, Hcb. simpl.
  split; [reflexivity |]. split; [| reflexivity].
  eexists. rewrite lookup_insert_eq. split; [reflexivity |]. simpl. auto.
Qed.

(** C4 (CreateTransaction happy path), as the code behaves.  With the
    [TokenManager] of the sources, a call in which buyer and seller differ,
    the amount is valid and the buyer's history can be summed reaches the
    attribute lookup [self.token_manager.check_balance], which raises
    [AttributeError]; the wrapper turns it into INTERNAL_ERROR, and nothing
    is stored or scheduled: the manager is unchanged, whatever the buyer's
    balance. *)
Theorem create_transaction_attribute_error
    (m : TransactionManager.t) (buyer seller agent : string) (amount : Q)
    (listing : option string) (new_id : string) (now volume : Q) :
  String.eqb buyer seller = false ->
  Validator.validate_token_amount amount = true ->
  TransactionManager.volume_of (TransactionManager.transactions m)
    (default [] (TransactionManager.user_transactions m !! buyer)) = Return volume ->
  TransactionManager.create_transaction TokenManager.check_balance m buyer seller
    agent amount listing new_id now
  = (m, Raise (CustomException "INTERNAL_ERROR"
                 "object has no attribute 'check_balance'" None)).
Proof.
  intros Hneq Hamt Hvol.
  unfold TransactionManager.create_transaction, TokenManager.check_balance.
  rewrite Hneq, Hamt. simpl. rewrite Hvol. reflexivity.
Qed.

(** Alice, who holds 1000, buys agent-7 from Bob for 900 (fee 22.5). *)
Lemma create_transaction_attribute_error_witness :
  TransactionManager.create_transaction TokenManager.check_balance Fixtures.market0
    Fixtures.alice Fixtures.bob "agent-7" 900 None "tx-9" 5
  = (Fixtures.market0,
     Raise (CustomException "INTERNAL_ERROR"
              "object has no attribute 'check_balance'" None)).
Proof.
  apply (create_transaction_attribute_error Fixtures.market0 Fixtures.alice
           Fixtures.bob "agent-7" 900 None "tx-9" 5 0).
  - reflexivity.
  - reflexivity.
  - reflexivity.
Defined.

(* ===================================================================== *)
(** * Transaction coordinator: disputes *)
(* ===================================================================== *)

Section Disputes.

Import TransactionManager.

Variable update_agent_ownership : string -> string -> string -> outcome unit.

Lemma participant_eqb (user_id : string) (x : Transaction) :
  (String.eqb user_id (buyer_id x) || String.eqb user_id (seller_id x)) = true
  <-> user_id = buyer_id x \/ user_id = seller_id x.
Proof.
  rewrite orb_true_iff, !String.eqb_eq. reflexivity.
Qed.

Lemma disputable_eqb (st : TransactionState) :
  (state_eqb st COMPLETED || state_eqb st FAILED) = true
  <-> st = COMPLETED \/ st = FAILED.
Proof.
  rewrite orb_true_iff, !state_eqb_eq. reflexivity.
Qed.

(** A [dispute_transaction] that returns: the guards it has passed and what it
    has written. *)
Lemma dispute_transaction_returns (m m' : t) (tid user_id reason_ : string)
    (now : Q) (b : bool) :
  dispute_transaction m tid user_id reason_ now = (m', Return b) ->
  exists x x',
    transactions m !! tid = Some x
    /\ (state x = COMPLETED \/ state x = FAILED)
    /\ (user_id = buyer_id x \/ user_id = seller_id x)
    /\ transactions m' !! tid = Some x'
    /\ state x' = DISPUTED
    /\ dispute x' = Some {| opened_by := user_id; reason := reason_;
                            opened_at := now; resolution := None |}.
Proof.
  unfold dispute_transaction. intros H.
  destruct (transactions m !! tid) as [x|] eqn:Hx; [| discriminate].
  destruct (String.eqb user_id (buyer_id x) || String.eqb user_id (seller_id x))
    eqn:Hp; [| discriminate].
  destruct (state_eqb (state x) COMPLETED || state_eqb (state x) FAILED)
    eqn:Hs; [| discriminate].
  simpl in H. apply participant_eqb in Hp. apply disputable_eqb in Hs.
  eexists x, _. split; [reflexivity |]. split; [exact Hs |]. split; [exact Hp |].
  destruct (0 <? _) in H; injection H as <- <-; simpl;
    rewrite lookup_insert_eq; auto.
Qed.

Lemma dispute_transaction_unauthorized (m : t) (tid user_id reason_ : string)
    (now : Q) (x : Transaction) :
  transactions m !! tid = Some x ->
  user_id <> buyer_id x -> user_id <> seller_id x ->
  dispute_transaction m tid user_id reason_ now
  = (m, Raise (CustomException "TRANS_005" "Unauthorized transaction access" None)).
Proof.
  intros Hx Hb Hs. unfold dispute_transaction. rewrite Hx.
  apply String.eqb_neq in Hb, Hs. rewrite Hb, Hs. reflexivity.
Qed.

Lemma dispute_transaction_invalid_state (m : t) (tid user_id reason_ : string)
    (now : Q) (x : Transaction) :
  transactions m !! tid = Some x ->
  user_id = buyer_id x \/ user_id = seller_id x ->
  state x <> COMPLETED -> state x <> FAILED ->
  dispute_transaction m tid user_id reason_ now
  = (m, Raise (CustomException "TRANS_006"
                 "Transaction cannot be disputed in current state" None)).
Proof.
  intros Hx Hp Hc Hf. unfold dispute_transaction. rewrite Hx.
  apply participant_eqb in Hp. rewrite Hp. simpl.
  destruct (state_eqb (state x) COMPLETED || state_eqb (state x) FAILED) eqn:Hs.
  - apply disputable_eqb in Hs. destruct Hs; contradiction.
  - reflexivity.
Qed.

Lemma resolve_dispute_returns (m m' : t) (tid resolution_ : string) (refund b : bool)
    (id1 id2 : string) (now : Q) :
  resolve_dispute update_agent_ownership m tid resolution_ refund id1 id2 now
  = (m', Return b) ->
  exists x, transactions m !! tid = Some x /\ state x = DISPUTED.
Proof.
  unfold resolve_dispute. intros H.
  destruct (transactions m !! tid) as [x|] eqn:Hx; [| discriminate].
  destruct (state_eqb (state x) DISPUTED) eqn:Hs; [| discriminate].
  apply state_eqb_eq in Hs. eauto.
Qed.

Lemma resolve_dispute_not_disputed (m : t) (tid resolution_ : string) (refund : bool)
    (id1 id2 : string) (now : Q) (x : Transaction) :
  transactions m !! tid = Some x ->
  state x <> DISPUTED ->
  resolve_dispute update_agent_ownership m tid resolution_ refund id1 id2 now
  = (m, Raise (CustomException "TRANS_007" "Transaction is not disputed" None)).
Proof.
  intros Hx Hs. unfold resolve_dispute. rewrite Hx.
  destruct (state_eqb (state x) DISPUTED) eqn:E.
  - apply state_eqb_eq in E. contradiction.
  - reflexivity.
Qed.

End Disputes.

(** C9 (dispute state-machine legality).  A [dispute_transaction] that
    succeeds was called on a transaction in state COMPLETED or FAILED by its
    buyer or its seller (and leaves it DISPUTED).  On an existing transaction,
    a caller who is neither buyer nor seller gets TRANS_005 "Unauthorized
    transaction access"; a buyer or seller who disputes a transaction in any
    other state gets TRANS_006 "Transaction cannot be disputed in current
    state"; in both cases the manager, and so the transaction, is unchanged.
    A [resolve_dispute] that succeeds was called on a transaction in state
    DISPUTED; on any other state it raises TRANS_007 and changes nothing. *)
Theorem dispute_state_machine_legality :
  (forall (m m' : TransactionManager.t) (tid user_id reason : string) (now : Q) (b : bool),
      TransactionManager.dispute_transaction m tid user_id reason now = (m', Return b) ->
      exists x x',
        TransactionManager.transactions m !! tid = Some x
        /\ (TransactionManager.state x = TransactionManager.COMPLETED
            \/ TransactionManager.state x = TransactionManager.FAILED)
        /\ (user_id = TransactionManager.buyer_id x
            \/ user_id = TransactionManager.seller_id x)
        /\ TransactionManager.transactions m' !! tid = Some x'
        /\ TransactionManager.state x' = TransactionManager.DISPUTED)
  /\ (forall (m : TransactionManager.t) (tid user_id reason : string) (now : Q)
        (x : TransactionManager.Transaction),
         TransactionManager.transactions m !! tid = Some x ->
         user_id <> TransactionManager.buyer_id x ->
         user_id <> TransactionManager.seller_id x ->
         TransactionManager.dispute_transaction m tid user_id reason now
         = (m, Raise (CustomException "TRANS_005"
                        "Unauthorized transaction access" None)))
  /\ (forall (m : TransactionManager.t) (tid user_id reason : string) (now : Q)
        (x : TransactionManager.Transaction),
         TransactionManager.transactions m !! tid = Some x ->
         user_id = TransactionManager.buyer_id x
         \/ user_id = TransactionManager.seller_id x ->
         TransactionManager.state x <> TransactionManager.COMPLETED ->
         TransactionManager.state x <> TransactionManager.FAILED ->
         TransactionManager.dispute_transaction m tid user_id reason now
         = (m, Raise (CustomException "TRANS_006"
                        "Transaction cannot be disputed in current state" None)))
  /\ (forall (ownership : string -> string -> string -> outcome unit)
        (m m' : TransactionManager.t) (tid resolution : string) (refund b : bool)
        (id1 id2 : string) (now : Q),
         TransactionManager.resolve_dispute ownership m tid resolution refund
           id1 id2 now = (m', Return b) ->
         exists x,
           TransactionManager.transactions m !! tid = Some x
           /\ TransactionManager.state x = TransactionManager.DISPUTED)
  /\ (forall (ownership : string -> string -> string -> outcome unit)
        (m : TransactionManager.t) (tid resolution : string) (refund : bool)
        (id1 id2 : string) (now : Q) (x : TransactionManager.Transaction),
         TransactionManager.transactions m !! tid = Some x ->
         TransactionManager.state x <> TransactionManager.DISPUTED ->
         TransactionManager.resolve_dispute ownership m tid resolution refund
           id1 id2 now
         = (m, Raise (CustomException "TRANS_007" "Transaction is not disputed" None))).
Proof.
  split.
  { intros m m' tid user_id reason now b H.
    apply dispute_transaction_returns in H.
    destruct H as (x & x' & H1 & H2 & H3 & H4 & H5 & _). eauto 10. }
  split; [exact dispute_transaction_unauthorized |].
  split; [exact dispute_transaction_invalid_state |].
  split; [exact resolve_dispute_returns | exact resolve_dispute_not_disputed].
Qed.

(** On the example purchase: Alice's dispute of the completed purchase is
    accepted; the vault's is unauthorized; Alice cannot dispute it while it is
    pending; and it cannot be resolved while it is merely completed. *)
Lemma dispute_state_machine_legality_witness :
  (exists x x',
      TransactionManager.transactions
        (Fixtures.market1 TransactionManager.COMPLETED None) !! "tx-1" = Some x
      /\ (TransactionManager.state x = TransactionManager.COMPLETED
          \/ TransactionManager.state x = TransactionManager.FAILED)
      /\ (Fixtures.alice = TransactionManager.buyer_id x
          \/ Fixtures.alice = TransactionManager.seller_id x)
      /\ TransactionManager.transactions
           (fst (TransactionManager.dispute_transaction
                   (Fixtures.market1 TransactionManager.COMPLETED None)
                   "tx-1" Fixtures.alice "not as described" 2))
         !! "tx-1" = Some x'
      /\ TransactionManager.state x' = TransactionManager.DISPUTED)
  /\ TransactionManager.dispute_transaction
       (Fixtures.market1 TransactionManager.COMPLETED None)
       "tx-1" Fixtures.vault "not as described" 2
     = (Fixtures.market1 TransactionManager.COMPLETED None,
        Raise (CustomException "TRANS_005" "Unauthorized transaction access" None))
  /\ TransactionManager.dispute_transaction
       (Fixtures.market1 TransactionManager.PENDING None)
       "tx-1" Fixtures.alice "not as described" 2
     = (Fixtures.market1 TransactionManager.PENDING None,
        Raise (CustomException "TRANS_006"
                 "Transaction cannot be disputed in current state" None))
  /\ TransactionManager.resolve_dispute Fixtures.ownership_ok
       (Fixtures.market1 TransactionManager.COMPLETED None)
       "tx-1" "rejected" false "t1" "t2" 3
     = (Fixtures.market1 TransactionManager.COMPLETED None,
        Raise (CustomException "TRANS_007" "Transaction is not disputed" None)).
Proof.
  destruct dispute_state_machine_legality as (H1 & H2 & H3 & _ & H5).
  split; [| split; [| split]].
  - apply (H1 (Fixtures.market1 TransactionManager.COMPLETED None)
              (fst (TransactionManager.dispute_transaction
                      (Fixtures.market1 TransactionManager.COMPLETED None)
                      "tx-1" Fixtures.alice "not as described" 2))
              "tx-1" Fixtures.alice "not as described" 2%Q true).
    vm_compute. reflexivity.
  - apply (H2 _ _ _ _ _ (Fixtures.purchase TransactionManager.COMPLETED None)).
    + reflexivity.
    + simpl. unfold Fixtures.vault, Fixtures.alice. discriminate.
    + simpl. unfold Fixtures.vault, Fixtures.bob. discriminate.
  - apply (H3 _ _ _ _ _ (Fixtures.purchase TransactionManager.PENDING None)).
    + reflexivity.
    + left. reflexivity.
    + simpl. discriminate.
    + simpl. discriminate.
  - apply (H5 _ _ _ _ _ _ _ _ (Fixtures.purchase TransactionManager.COMPLETED None)).
    + reflexivity.
    + simpl. discriminate.
Defined.

(** C5 (dispute resolution without refund), as the code behaves.  For a
    transaction in state DISPUTED, [resolve_dispute] with [refund = False]
    returns [True] and records the resolution (outcome, refunded flag,
    resolution time) in the dispute record, but it assigns no state: the
    transaction is still DISPUTED afterwards, not COMPLETED.  No ledger call
    is made. *)
Theorem resolve_dispute_without_refund_keeps_state
    (ownership : string -> string -> string -> outcome unit)
    (m : TransactionManager.t) (tid resolution id1 id2 : string) (now : Q)
    (x : TransactionManager.Transaction) (d : TransactionManager.Dispute) :
  TransactionManager.transactions m !! tid = Some x ->
  TransactionManager.state x = TransactionManager.DISPUTED ->
  TransactionManager.dispute x = Some d ->
  let r :=
    TransactionManager.resolve_dispute ownership m tid resolution false id1 id2 now in
  snd r = Return true
  /\ TransactionManager.token_manager (fst r) = TransactionManager.token_manager m
  /\ exists x',
      TransactionManager.transactions (fst r) !! tid = Some x'
      /\ TransactionManager.state x' = TransactionManager.DISPUTED
      /\ TransactionManager.state x' <> TransactionManager.COMPLETED
      /\ TransactionManager.dispute x'
         = Some {| TransactionManager.opened_by := TransactionManager.opened_by d;
                   TransactionManager.reason := TransactionManager.reason d;
                   TransactionManager.opened_at := TransactionManager.opened_at d;
                   TransactionManager.resolution :=
                     Some {| TransactionManager.outcome_text := resolution;
                             TransactionManager.refunded := false;
                             TransactionManager.resolved_at := now |} |}.
Proof.
  intros Hx Hs Hd.
  unfold TransactionManager.resolve_dispute. rewrite Hx, Hs. simpl.
  unfold TransactionManager.record_resolution. rewrite Hd. simpl.
  split; [reflexivity |]. split; [reflexivity |].
  eexists. rewrite lookup_insert_eq. split; [reflexivity |]. simpl.
  rewrite Hs. split; [reflexivity |]. split; [discriminate | reflexivity].
Qed.

(** The disputed example purchase, resolved as rejected without refund. *)
Lemma resolve_dispute_without_refund_keeps_state_witness :
  let r :=
    TransactionManager.resolve_dispute Fixtures.ownership_ok
      (Fixtures.market1 TransactionManager.DISPUTED (Some Fixtures.dispute1))
      "tx-1" "rejected" false "t1" "t2" 3 in
  snd r = Return true
  /\ exists x',
      TransactionManager.transactions (fst r) !! "tx-1" = Some x'
      /\ TransactionManager.state x' = TransactionManager.DISPUTED
      /\ TransactionManager.state x' <> TransactionManager.COMPLETED.
Proof.
  destruct (resolve_dispute_without_refund_keeps_state Fixtures.ownership_ok
              (Fixtures.market1 TransactionManager.DISPUTED (Some Fixtures.dispute1))
              "tx-1" "rejected" "t1" "t2" 3
              (Fixtures.purchase TransactionManager.DISPUTED (Some Fixtures.dispute1))
              Fixtures.dispute1)
    as (H1 & _ & x' & H2 & H3 & H4 & _).
  - reflexivity.
  - reflexivity.
  - reflexivity.
  - split; [exact H1 |]. exists x'. auto.
Defined.

(* ===================================================================== *)
(** * Supply stabilizer *)
(* ===================================================================== *)

Section StabilizerFacts.

Import DynamicStabilizer.

(** The limiting step [max(min(x, M), -M)]. *)
Lemma limit_bounds (x M : Q) :
  (0 <= M)%Q -> (- M <= py_max (py_min x M) (- M) <= M)%Q.
Proof.
  intros HM.
  pose proof (py_max_spec (py_min x M) (- M)) as [_ Hlow].
  pose proof (py_min_spec x M) as [_ Hmin].
  split; [exact Hlow |].
  destruct (py_max_cases (py_min x M) (- M)) as [-> | ->]; lra.
Qed.

Lemma pid_adjustment_bounds (cp : ControlParams) (interval : Z) (M err : Q) :
  (0 <= M)%Q -> (- M <= pid_adjustment cp interval M err <= M)%Q.
Proof. intros HM. unfold pid_adjustment. apply limit_bounds. exact HM. Qed.

(** A tick that reached the adjusting phase: what it computed. *)
Lemma traced_adjusting (s s' : t) (now err adj sc : Q) (minted ok : bool)
    (r : outcome (option Report)) :
  check_and_adjust_traced s now = (s', Adjusting err adj sc minted ok, r) ->
  err = ((current_price (market_state s) - target_price s) / target_price s)%Q
  /\ adj = pid_adjustment
             (set_integral_error (control_params s)
                (integral_error (control_params s)
                 + err * inject_Z (adjustment_interval s))%Q)
             (adjustment_interval s) (max_adjustment s) err
  /\ sc = (current_supply (market_state s) * adj)%Q
  /\ minted = Qltb 0 sc
  /\ ok = snd (if minted then _mint_tokens (token_manager s) sc
               else _burn_tokens (token_manager s) (- sc)%Q).
Proof.
  unfold check_and_adjust_traced, check_and_adjust_body. intros H.
  destruct (Qltb (now - last_adjustment_time s) (inject_Z (adjustment_interval s)));
    [discriminate |].
  destruct (Qeq_bool (target_price s) 0); [discriminate |].
  destruct (Qleb _ (price_tolerance s)); [discriminate |].
  destruct (adjustment_interval s =? 0); [discriminate |].
  simpl in H.
  match type of H with
  | context [if ?c then _mint_tokens ?tm ?a else _burn_tokens ?tm' ?b] =>
      destruct (if c then _mint_tokens tm a else _burn_tokens tm' b)
        as [tm1 ok1] eqn:Hact
  end.
  simpl in H.
  match type of H with
  | context [adjusted_metrics ?k ?o ?a ?b] =>
      destruct (adjusted_metrics k o a b) as [k1 [[]|e]]
  end; simpl in H; injection H as <- <- <- <- <- <- <-;
    repeat split; try reflexivity; simpl in Hact; rewrite Hact; reflexivity.
Qed.

(** A tick that returned a report reached the adjusting phase with the
    reported values. *)
Lemma traced_report (s s' : t) (now : Q) (ph : Phase) (rep : Report) :
  check_and_adjust_traced s now = (s', ph, Return (Some rep)) ->
  exists minted,
    ph = Adjusting (price_error rep) (adjustment rep) (supply_change rep)
           minted (success rep).
Proof.
  unfold check_and_adjust_traced, check_and_adjust_body. intros H.
  destruct (Qltb (now - last_adjustment_time s) (inject_Z (adjustment_interval s)));
    [discriminate |].
  destruct (Qeq_bool (target_price s) 0); [discriminate |].
  destruct (Qleb _ (price_tolerance s)); [discriminate |].
  destruct (adjustment_interval s =? 0); [discriminate |].
  simpl in H.
  match type of H with
  | context [if ?c then _mint_tokens ?tm ?a else _burn_tokens ?tm' ?b] =>
      destruct (if c then _mint_tokens tm a else _burn_tokens tm' b)
        as [tm1 ok1]
  end.
  simpl in H.
  match type of H with
  | context [adjusted_metrics ?k ?o ?a ?b] =>
      destruct (adjusted_metrics k o a b) as [k1 [[]|e]]
  end; simpl in H; [| discriminate].
  injection H as <- <- <-. simpl. eauto.
Qed.

(** A tick whose mint or burn failed: the state it leaves. *)
Lemma traced_failed (s s' : t) (now err adj sc : Q) (minted : bool)
    (r : outcome (option Report)) :
  check_and_adjust_traced s now = (s', Adjusting err adj sc minted false, r) ->
  metrics s'
  = {| total_adjustments := total_adjustments (metrics s) + 1;
       successful_adjustments := successful_adjustments (metrics s);
       failed_adjustments := failed_adjustments (metrics s) + 1;
       total_supply_changes := total_supply_changes (metrics s);
       max_price_deviation := max_price_deviation (metrics s);
       average_adjustment_size := average_adjustment_size (metrics s);
       price_volatility := price_volatility (metrics s) |}
  /\ control_params s'
     = set_last_error
         (set_integral_error (control_params s)
            (integral_error (control_params s)
             + err * inject_Z (adjustment_interval s))%Q) err
  /\ last_adjustment_time s' = now
  /\ r = Return (Some {| timestamp := now; price_error := err;
                         adjustment := adj; supply_change := sc;
                         success := false |}).
Proof.
  unfold check_and_adjust_traced, check_and_adjust_body. intros H.
  destruct (Qltb (now - last_adjustment_time s) (inject_Z (adjustment_interval s)));
    [discriminate |].
  destruct (Qeq_bool (target_price s) 0); [discriminate |].
  destruct (Qleb _ (price_tolerance s)); [discriminate |].
  destruct (adjustment_interval s =? 0); [discriminate |].
  simpl in H.
  match type of H with
  | context [if ?c then _mint_tokens ?tm ?a else _burn_tokens ?tm' ?b] =>
      destruct (if c then _mint_tokens tm a else _burn_tokens tm' b)
        as [tm1 [|]]
  end; simpl in H.
  - match type of H with
    | context [if ?c then _ else _] => destruct c
    end; simpl in H; discriminate.
  - injection H as <- <- <- <- <- <-. simpl. auto.
Qed.


(** The comprehension over a non-empty history raises at its first sample. *)
Lemma comprehension_recent_nonempty (history : list (Q * Q)) :
  history <> [] -> comprehension recent_cond history = Raise (NameError "timestamp").
Proof. destruct history; [congruence | reflexivity]. Qed.

Lemma _get_total_supply_frame (s : t) :
  let r := _get_total_supply s in
  price_history (fst r) = price_history s
  /\ volume_history (fst r) = volume_history s
  /\ market_state (fst r) = market_state s
  /\ target_price (fst r) = target_price s.
Proof.
  unfold _get_total_supply.
  destruct (dict_get UTILITY _); simpl; [| auto].
  destruct (Executor.send_transaction
              (TokenManager.smart_contract_manager (token_manager s))
              Executor.totalSupply None) as [c [rcpt|error_]];
    simpl; auto.
Qed.

End StabilizerFacts.

(** C7 (stabilizer boundedness).  With a non-negative [max_adjustment]: on
    every tick that reaches the adjusting phase the computed adjustment lies
    in [[-max_adjustment, +max_adjustment]]; so does the adjustment of every
    report [check_and_adjust] returns; and so does the limited PID output for
    any price error and any control state (gains, integral error, last
    error). *)
Theorem adjustment_bounded (s : DynamicStabilizer.t) (now : Q) :
  (0 <= DynamicStabilizer.max_adjustment s)%Q ->
  (forall s' err adj sc minted ok r,
      DynamicStabilizer.check_and_adjust_traced s now
      = (s', DynamicStabilizer.Adjusting err adj sc minted ok, r) ->
      (- DynamicStabilizer.max_adjustment s <= adj
       <= DynamicStabilizer.max_adjustment s)%Q)
  /\ (forall s' rep,
         DynamicStabilizer.check_and_adjust s now = (s', Return (Some rep)) ->
         (- DynamicStabilizer.max_adjustment s <= DynamicStabilizer.adjustment rep
          <= DynamicStabilizer.max_adjustment s)%Q)
  /\ (forall cp err,
         (- DynamicStabilizer.max_adjustment s
          <= DynamicStabilizer.pid_adjustment cp
               (DynamicStabilizer.adjustment_interval s)
               (DynamicStabilizer.max_adjustment s) err
          <= DynamicStabilizer.max_adjustment s)%Q).
Proof.
  intros HM.
  assert (Hadj : forall s' err adj sc minted ok r,
             DynamicStabilizer.check_and_adjust_traced s now
             = (s', DynamicStabilizer.Adjusting err adj sc minted ok, r) ->
             (- DynamicStabilizer.max_adjustment s <= adj
              <= DynamicStabilizer.max_adjustment s)%Q).
  { intros s' err adj sc minted ok r H.
    apply traced_adjusting in H. destruct H as (_ & -> & _).
    apply pid_adjustment_bounds. exact HM. }
  split; [exact Hadj |]. split.
  - intros s' rep H. unfold DynamicStabilizer.check_and_adjust in H.
    destruct (DynamicStabilizer.check_and_adjust_traced s now) as [[s1 ph] r] eqn:Ht.
    assert (Hr : r = Return (Some rep)).
    { destruct r as [v|[]]; simpl in H; try discriminate. congruence. }
    subst r. destruct (traced_report _ _ _ _ _ Ht) as [minted ->].
    eapply Hadj. reflexivity.
  - intros cp err. apply pid_adjustment_bounds. exact HM.
Qed.

(** The default stabilizer at price 1.05 and supply 3500, one interval after
    it was built: the adjustment is clamped to -0.05. *)
Lemma adjustment_bounded_witness :
  (- DynamicStabilizer.max_adjustment (Fixtures.stabilizer [] 1.05 3500)
   <= -0.05
   <= DynamicStabilizer.max_adjustment (Fixtures.stabilizer [] 1.05 3500))%Q.
Proof.
  apply (proj1 (adjustment_bounded (Fixtures.stabilizer [] 1.05 3500) 3600
                  ltac:(vm_compute; discriminate))
           (fst (fst (DynamicStabilizer.check_and_adjust_traced
                        (Fixtures.stabilizer [] 1.05 3500) 3600)))
           0.0500%Q (-0.05)%Q (-175.00)%Q false false
           (snd (DynamicStabilizer.check_and_adjust_traced
                   (Fixtures.stabilizer [] 1.05 3500) 3600))).
  vm_compute. reflexivity.
Defined.

(** C8, counterexample.  The default stabilizer at price 1.05 and supply 3500
    ticks one interval after it was built while the executor is unavailable:
    the burn it issues fails, the failure counter goes from 0 to 1, and yet
    the integral error has gone from 0 to 180 and the last error from 0 to
    0.05. *)
Lemma failed_tick_changes_pid_memory :
  let s := Fixtures.stabilizer [true] 1.05 3500 in
  let r := DynamicStabilizer.check_and_adjust_traced s 3600 in
  let s' := fst (fst r) in
  snd (fst r) = DynamicStabilizer.Adjusting 0.0500 (-0.05) (-175.00) false false
  /\ DynamicStabilizer.failed_adjustments (DynamicStabilizer.metrics s')
     = DynamicStabilizer.failed_adjustments (DynamicStabilizer.metrics s) + 1
  /\ (DynamicStabilizer.integral_error (DynamicStabilizer.control_params s) == 0)%Q
  /\ (DynamicStabilizer.integral_error (DynamicStabilizer.control_params s') == 180)%Q
  /\ ~ (DynamicStabilizer.integral_error (DynamicStabilizer.control_params s')
        == DynamicStabilizer.integral_error (DynamicStabilizer.control_params s))%Q
  /\ ~ (DynamicStabilizer.last_error (DynamicStabilizer.control_params s')
        == DynamicStabilizer.last_error (DynamicStabilizer.control_params s))%Q.
Proof.
  vm_compute. repeat split; try reflexivity; discriminate.
Qed.

(** C8, amended (stabilizer failure semantics).  Whenever the mint or burn
    issued by a control tick fails, the failure counter and the total counter
    are incremented and the success counter and the cumulative supply change
    are left as they were; the tick still updates the controller's memory as
    a successful tick does: [integral_error] has grown by
    [price_error * adjustment_interval] (it is accumulated before the mint or
    burn is issued), [last_error] is the error of this tick, and
    [last_adjustment_time] is the time of this tick.  The tick returns its
    report with [success = False]. *)
Theorem failed_adjustment_semantics
    (s s' : DynamicStabilizer.t) (now err adj sc : Q) (minted : bool)
    (r : outcome (option DynamicStabilizer.Report)) :
  DynamicStabilizer.check_and_adjust_traced s now
  = (s', DynamicStabilizer.Adjusting err adj sc minted false, r) ->
  DynamicStabilizer.failed_adjustments (DynamicStabilizer.metrics s')
  = DynamicStabilizer.failed_adjustments (DynamicStabilizer.metrics s) + 1
  /\ DynamicStabilizer.total_adjustments (DynamicStabilizer.metrics s')
     = DynamicStabilizer.total_adjustments (DynamicStabilizer.metrics s) + 1
  /\ DynamicStabilizer.successful_adjustments (DynamicStabilizer.metrics s')
     = DynamicStabilizer.successful_adjustments (DynamicStabilizer.metrics s)
  /\ DynamicStabilizer.total_supply_changes (DynamicStabilizer.metrics s')
     = DynamicStabilizer.total_supply_changes (DynamicStabilizer.metrics s)
  /\ DynamicStabilizer.integral_error (DynamicStabilizer.control_params s')
     = (DynamicStabilizer.integral_error (DynamicStabilizer.control_params s)
        + err * inject_Z (DynamicStabilizer.adjustment_interval s))%Q
  /\ DynamicStabilizer.last_error (DynamicStabilizer.control_params s') = err
  /\ DynamicStabilizer.last_adjustment_time s' = now
  /\ r = Return (Some {| DynamicStabilizer.timestamp := now;
                         DynamicStabilizer.price_error := err;
                         DynamicStabilizer.adjustment := adj;
                         DynamicStabilizer.supply_change := sc;
                         DynamicStabilizer.success := false |}).
Proof.
  intros H. apply traced_failed in H. destruct H as (Hm & Hc & Ht & Hr).
  rewrite Hm, Hc. simpl. auto 10.
Qed.

(** The failing tick of the counterexample. *)
Lemma failed_adjustment_semantics_witness :
  let s := Fixtures.stabilizer [true] 1.05 3500 in
  let s' := fst (fst (DynamicStabilizer.check_and_adjust_traced s 3600)) in
  DynamicStabilizer.failed_adjustments (DynamicStabilizer.metrics s')
  = DynamicStabilizer.failed_adjustments (DynamicStabilizer.metrics s) + 1
  /\ DynamicStabilizer.integral_error (DynamicStabilizer.control_params s')
     = (DynamicStabilizer.integral_error (DynamicStabilizer.control_params s)
        + 0.0500 * inject_Z (DynamicStabilizer.adjustment_interval s))%Q
  /\ DynamicStabilizer.last_error (DynamicStabilizer.control_params s') = 0.0500%Q.
Proof.
  intros s s'.
  destruct (failed_adjustment_semantics s s' 3600 0.0500 (-0.05) (-175.00) false
              (snd (DynamicStabilizer.check_and_adjust_traced s 3600)))
    as (H1 & _ & _ & _ & H5 & H6 & _).
  - vm_compute. reflexivity.
  - auto.
Defined.



(* ===================================================================== *)
(** * Further properties: the exception wrapper and the validator *)
(* ===================================================================== *)

(** Whatever a wrapped method does, what leaves [handle_exceptions] is
    either its returned value or a [CustomException]: a [CustomException]
    passes unchanged, any other exception comes out as INTERNAL_ERROR with
    the text of the original; the state reached is kept in every case. *)
Lemma handle_exceptions_boundary {S A : Type} (s : S) (o : outcome A) :
  fst (handle_exceptions (s, o)) = s
  /\ match o with
     | Return a => snd (handle_exceptions (s, o)) = Return a
     | Raise (CustomException c m d) =>
         snd (handle_exceptions (s, o)) = Raise (CustomException c m d)
     | Raise e =>
         snd (handle_exceptions (s, o))
         = Raise (CustomException "INTERNAL_ERROR" (str_exn e) None)
     end
  /\ (forall e, snd (handle_exceptions (s, o)) = Raise e ->
                exists c m d, e = CustomException c m d).
Proof.
  split; [apply handle_exceptions_fst |]. split.
  - destruct o as [a|[]]; reflexivity.
  - intros e H. destruct o as [a|[]]; simpl in H; try discriminate;
      injection H as <-; eauto.
Qed.

Section ValidatorFacts.

Import Validator.

Lemma take_hex_split (n : nat) : forall s rest,
  take_hex n s = Some rest ->
  exists h, s = (h ++ rest)%string /\ String.length h = n /\ all_hex h = true.
Proof.
  induction n as [|n IH]; intros s rest H; simpl in H.
  - injection H as <-. exists EmptyString. auto.
  - destruct s as [|c s']; [discriminate |].
    destruct (is_hex_digit c) eqn:Hc; [| discriminate].
    destruct (IH _ _ H) as (h & -> & Hl & Hh).
    exists (String c h). simpl. rewrite Hc, Hl, Hh. auto.
Qed.

Lemma take_hex_app (h : string) : forall rest,
  all_hex h = true -> take_hex (String.length h) (h ++ rest)%string = Some rest.
Proof.
  induction h as [|c h IH]; intros rest H; simpl in *; [reflexivity |].
  apply andb_true_iff in H. destruct H as [Hc Hh]. rewrite Hc. auto.
Qed.

Lemma string_app_nil (h : string) : (h ++ "")%string = h.
Proof.
  induction h as [|c h IH]; [reflexivity |].
  change (String c (h ++ "")%string = String c h). rewrite IH. reflexivity.
Qed.

End ValidatorFacts.

(** X1.  [validate_ethereum_address] accepts exactly the strings made of
    [0x] followed by 40 hexadecimal digits, and those strings followed by one
    line feed (which the pattern's [$] lets through). *)
Theorem validate_ethereum_address_spec (address : string) :
  Validator.validate_ethereum_address address = true
  <-> exists h,
        String.length h = 40%nat /\ all_hex h = true
        /\ (address = ("0x" ++ h)%string \/ address = ("0x" ++ h ++ LF)%string).
Proof.
  unfold Validator.validate_ethereum_address. split.
  - intros H.
    destruct address as [|c0 [|c1 rest]]; try discriminate.
    + destruct c0 as [[] [] [] [] [] [] [] []]; discriminate.
    + destruct (ascii_dec c0 "0") as [-> | Hn0].
      2:{ destruct c0 as [[] [] [] [] [] [] [] []]; try discriminate.
          exfalso. apply Hn0. reflexivity. }
      destruct (ascii_dec c1 "x") as [-> | Hn1].
      2:{ destruct c1 as [[] [] [] [] [] [] [] []]; try discriminate.
          exfalso. apply Hn1. reflexivity. }
      destruct (Validator.take_hex 40 rest) as [tail_|] eqn:Ht; [| discriminate].
      destruct (take_hex_split _ _ _ Ht) as (h & -> & Hl & Hh).
      exists h. split; [exact Hl |]. split; [exact Hh |].
      destruct tail_ as [|c [|c' t]].
      * left. rewrite string_app_nil. reflexivity.
      * destruct (ascii_dec c "010") as [-> | Hc].
        -- right. reflexivity.
        -- destruct c as [[] [] [] [] [] [] [] []]; try discriminate.
           exfalso. apply Hc. reflexivity.
      * destruct c as [[] [] [] [] [] [] [] []]; discriminate.
  - intros (h & Hl & Hh & [-> | ->]).
    + change ("0x" ++ h)%string with (String "0" (String "x" h)).
      rewrite <- (string_app_nil h) at 1.
      rewrite <- Hl, (take_hex_app h "" Hh). reflexivity.
    + change ("0x" ++ h ++ LF)%string with (String "0" (String "x" (h ++ LF)%string)).
      rewrite <- Hl, (take_hex_app h LF Hh). reflexivity.
Qed.

(** ** Slices and filters *)

Section Slices.

Context {A : Type}.

Implicit Types (l : list A) (start stop : Z).

Lemma py_slice_sublist l start stop : py_slice l start stop `sublist_of` l.
Proof.
  unfold py_slice. etransitivity; [apply sublist_take | apply sublist_drop].
Qed.

Lemma py_slice_length l start stop :
  0 <= start -> start <= stop ->
  (length (py_slice l start stop) <= Z.to_nat (stop - start))%nat.
Proof.
  intros H0 Hle. unfold py_slice. rewrite length_take.
  destruct (start <? 0) eqn:E1; [apply Z.ltb_lt in E1; lia |].
  destruct (stop <? 0) eqn:E2; [apply Z.ltb_lt in E2; lia |].
  lia.
Qed.

Lemma py_slice_all l stop :
  Z.of_nat (length l) <= stop -> py_slice l 0 stop = l.
Proof.
  intros H. unfold py_slice.
  destruct (stop <? 0) eqn:E2; [apply Z.ltb_lt in E2; lia |].
  simpl. replace (Z.min 0 (Z.of_nat (length l))) with 0 by lia.
  rewrite Z.sub_0_r, Z.min_r by lia. simpl.
  rewrite Nat2Z.id. apply firstn_all.
Qed.

Lemma filter_sublist (f : A -> bool) l : List.filter f l `sublist_of` l.
Proof.
  induction l as [|x l IH]; simpl; [constructor |].
  destruct (f x); [apply sublist_skip | apply sublist_cons]; exact IH.
Qed.

Lemma filter_Forall (f : A -> bool) l : Forall (fun x => f x = true) (List.filter f l).
Proof.
  induction l as [|x l IH]; simpl; [constructor |].
  destruct (f x) eqn:E; [constructor |]; auto.
Qed.

Lemma Forall_sublist (P : A -> Prop) l1 l2 :
  l1 `sublist_of` l2 -> Forall P l2 -> Forall P l1.
Proof.
  intros Hs Hf. apply Forall_forall. intros x Hx.
  rewrite Forall_forall in Hf. apply Hf. eapply elem_of_sublist; eauto.
Qed.

End Slices.

(* ===================================================================== *)
(** * Further properties: transfers, balance reads, set-up, history *)
(* ===================================================================== *)

(** X3.  What a [transfer] raises, case by case.  With a malformed address
    it raises TOKEN_004.  Otherwise the amount is converted with [float]:
    when the conversion raises (an [int] beyond the range of a float, a
    signaling NaN) the caller gets the unexpected INTERNAL_ERROR with the text
    of the exception; when the float is not positive (zero, negative, a NaN,
    or a positive [Decimal] too small for a float) it is TOKEN_007; in every
    other case it is TOKEN_005.  In every case the history and the
    performance metrics are as they were, so a failed transfer is neither
    recorded nor counted (not in the total and not as a failure). *)
Theorem transfer_failure_bookkeeping
    (tm : TokenManager.t) (from_ to_ : string) (amount : Amount) (ty : TokenType)
    (private_key : option string) (new_id : string) :
  let r := TokenManager.transfer tm from_ to_ amount ty private_key new_id in
  let well_formed :=
    Validator.validate_ethereum_address from_
    && Validator.validate_ethereum_address to_ in
  TokenManager.transaction_history (fst r) = TokenManager.transaction_history tm
  /\ TokenManager.performance_metrics (fst r) = TokenManager.performance_metrics tm
  /\ (well_formed = false ->
      snd r = Raise (CustomException "TOKEN_004" "Invalid wallet address" None))
  /\ (well_formed = true ->
      forall e, py_float amount = Raise e ->
        snd r = Raise (CustomException "INTERNAL_ERROR" (str_exn e) None))
  /\ (well_formed = true ->
      forall as_float, py_float amount = Return as_float ->
        Validator.validate_float as_float = false ->
        snd r = Raise (CustomException "TOKEN_007" "Invalid transfer amount" None))
  /\ (well_formed = true ->
      forall as_float, py_float amount = Return as_float ->
        Validator.validate_float as_float = true ->
        exists details,
          snd r = Raise (CustomException "TOKEN_005" "Failed to fetch balance"
                           (Some details))).
Proof.
  cbv zeta. rewrite transfer_eq. cbn [fst snd].
  split; [reflexivity |]. split; [reflexivity |].
  destruct (Validator.validate_ethereum_address from_
            && Validator.validate_ethereum_address to_); cbn [negb]; cbv iota.
  - split; [discriminate |].
    split; [intros _ e -> ; reflexivity |].
    split; [intros _ f -> -> ; reflexivity |].
    intros _ f -> ->. cbn [negb]. eauto.
  - split; [reflexivity |]. repeat split; discriminate.
Qed.

(** Alice sends Bob an integer amount beyond the range of a float, a
    signaling NaN, and a positive amount too small for a float. *)
Lemma transfer_failure_bookkeeping_witness :
  let send (amount : Amount) :=
    snd (TokenManager.transfer (Fixtures.tm0 []) Fixtures.alice Fixtures.bob amount
           UTILITY (Some "alice-key") "t2") in
  send (AInt (10 ^ 400))
  = Raise (CustomException "INTERNAL_ERROR" "int too large to convert to float" None)
  /\ send (ADec (NaN true))
     = Raise (CustomException "INTERNAL_ERROR"
                "cannot convert signaling NaN to float" None)
  /\ send (ADec (Fin (Qmake 1 (Pos.pow 10 400))))
     = Raise (CustomException "TOKEN_007" "Invalid transfer amount" None).
Proof.
  cbv zeta. split; [| split].
  - apply (proj1 (proj2 (proj2 (proj2
             (transfer_failure_bookkeeping (Fixtures.tm0 []) Fixtures.alice
                Fixtures.bob (AInt (10 ^ 400)) UTILITY (Some "alice-key") "t2"))))
             eq_refl (OverflowError "int too large to convert to float")).
    vm_compute. reflexivity.
  - apply (proj1 (proj2 (proj2 (proj2
             (transfer_failure_bookkeeping (Fixtures.tm0 []) Fixtures.alice
                Fixtures.bob (ADec (NaN true)) UTILITY (Some "alice-key") "t2"))))
             eq_refl (ValueError "cannot convert signaling NaN to float")).
    reflexivity.
  - apply (proj1 (proj2 (proj2 (proj2 (proj2
             (transfer_failure_bookkeeping (Fixtures.tm0 []) Fixtures.alice
                Fixtures.bob (ADec (Fin (Qmake 1 (Pos.pow 10 400)))) UTILITY
                (Some "alice-key") "t2")))))
             eq_refl (FFin 0)).
    + vm_compute. reflexivity.
    + reflexivity.
Defined.

(** X4.  A balance read never returns a balance.  For one token type it
    raises TOKEN_004 for a malformed address and TOKEN_005 otherwise,
    whatever the executor front would answer, and it leaves the manager, the
    cache included, exactly as it was.  Without a token type it does the same
    as long as a contract is configured; when none is, the loop over the
    contracts is empty, and the read returns the empty dictionary and caches
    it for the address in place of what was cached. *)
Theorem get_balance_cache_policy
    (tm : TokenManager.t) (address : string) (ty : TokenType) :
  let r := TokenManager.get_balance tm address (Some ty) in
  let r_all := TokenManager.get_balance tm address None in
  fst r = tm
  /\ (forall v, snd r <> Return v)
  /\ (Validator.validate_ethereum_address address = false ->
      snd r = Raise (CustomException "TOKEN_004" "Invalid wallet address" None)
      /\ r_all = (tm, Raise (CustomException "TOKEN_004" "Invalid wallet address" None)))
  /\ (Validator.validate_ethereum_address address = true ->
      exists details,
        snd r = Raise (CustomException "TOKEN_005" "Failed to fetch balance"
                         (Some details)))
  /\ (Validator.validate_ethereum_address address = true ->
      TokenManager.token_contracts tm <> [] ->
      r_all = (tm, Raise (CustomException "TOKEN_005" "Failed to fetch balance"
                            (Some "TOKEN_006: Balance check failed"))))
  /\ (Validator.validate_ethereum_address address = true ->
      TokenManager.token_contracts tm = [] ->
      r_all = (TokenManager.set_cache tm
                 (<[address := []]> (TokenManager.balance_cache tm)),
               Return (TokenManager.PerType []))).
Proof.
  cbv zeta. rewrite get_balance_typed. cbn [fst snd].
  split; [reflexivity |]. split; [discriminate |].
  unfold TokenManager.get_balance.
  destruct (Validator.validate_ethereum_address address); cbn [negb]; cbv iota.
  - split; [discriminate |]. split; [eauto |]. split.
    + intros _ Hne.
      pose proof (get_all_balances_cases tm address (TokenManager.token_contracts tm) [])
        as H.
      destruct (TokenManager.token_contracts tm) as [|item rest]; [congruence |].
      destruct H as [error_ ->]. reflexivity.
    + intros _ ->. reflexivity.
  - split; [auto |]. repeat split; discriminate.
Qed.

(** Alice's utility balance, which the contract holds, cannot be read; a
    manager without contracts answers the read of all balances with the empty
    dictionary. *)
Lemma get_balance_cache_policy_witness :
  TokenManager.get_balance (Fixtures.tm0 []) Fixtures.alice (Some UTILITY)
  = (Fixtures.tm0 [],
     Raise (CustomException "TOKEN_005" "Failed to fetch balance"
              (Some "TOKEN_006: Balance check failed")))
  /\ snd (TokenManager.get_balance
            (TokenManagerOps.set_contracts (Fixtures.tm0 []) [])
            Fixtures.alice None)
     = Return (TokenManager.PerType []).
Proof.
  destruct (get_balance_cache_policy (Fixtures.tm0 []) Fixtures.alice UTILITY)
    as (H1 & _ & _ & H2 & _).
  destruct (get_balance_cache_policy
              (TokenManagerOps.set_contracts (Fixtures.tm0 []) [])
              Fixtures.alice UTILITY) as (_ & _ & _ & _ & _ & H3).
  split.
  - vm_compute. reflexivity.
  - rewrite (H3 eq_refl eq_refl). reflexivity.
Defined.

(** X5.  [initialize_token_contracts] with three well-formed addresses
    returns [True] and installs them, so that every token type resolves to
    its contract afterwards, and touches nothing else (executor front,
    history, cache and performance metrics are as they were); with any
    malformed address it raises TOKEN_003 and changes nothing.  On a manager
    whose contract table is still empty, as [__init__] leaves it, a
    [transfer] between well-formed addresses of an amount that converts to a
    positive float raises TOKEN_005, carrying the missing key, and nothing
    is recorded. *)
Theorem initialize_token_contracts_effect
    (tm : TokenManager.t) (main_ utility_ governance_ : string) :
  let r := TokenManagerOps.initialize_token_contracts tm main_ utility_ governance_ in
  (Validator.validate_ethereum_address main_ = true ->
   Validator.validate_ethereum_address utility_ = true ->
   Validator.validate_ethereum_address governance_ = true ->
   snd r = Return true
   /\ dict_get MAIN (TokenManager.token_contracts (fst r)) = Some main_
   /\ dict_get UTILITY (TokenManager.token_contracts (fst r)) = Some utility_
   /\ dict_get GOVERNANCE (TokenManager.token_contracts (fst r)) = Some governance_
   /\ TokenManager.smart_contract_manager (fst r) = TokenManager.smart_contract_manager tm
   /\ TokenManager.transaction_history (fst r) = TokenManager.transaction_history tm
   /\ TokenManager.balance_cache (fst r) = TokenManager.balance_cache tm
   /\ TokenManager.performance_metrics (fst r) = TokenManager.performance_metrics tm)
  /\ (Validator.validate_ethereum_address main_ = false
      \/ Validator.validate_ethereum_address utility_ = false
      \/ Validator.validate_ethereum_address governance_ = false ->
      r = (tm, Raise (CustomException "TOKEN_003" "Invalid contract address format" None)))
  /\ (TokenManager.token_contracts tm = [] ->
      forall from_ to_ amount as_float ty private_key new_id,
        Validator.validate_ethereum_address from_ = true ->
        Validator.validate_ethereum_address to_ = true ->
        py_float amount = Return as_float ->
        Validator.validate_float as_float = true ->
        TokenManager.transfer tm from_ to_ amount ty private_key new_id
        = (tm, Raise (CustomException "TOKEN_005" "Failed to fetch balance"
                        (Some (TokenType_repr ty))))).
Proof.
  cbv zeta. unfold TokenManagerOps.initialize_token_contracts. simpl.
  split; [| split].
  - intros -> -> ->. simpl. auto 10.
  - intros [-> | [-> | ->]]; simpl; rewrite ?andb_false_r; reflexivity.
  - intros Hempty from_ to_ amount as_float ty key new_id Hf Ht Hfl Hpos.
    rewrite transfer_eq, Hf, Ht, Hfl, Hpos, Hempty. reflexivity.
Qed.

(** The three contracts of the example manager, installed on a manager built
    without them; before that, Alice's transfer fails on the missing key. *)
Lemma initialize_token_contracts_effect_witness :
  let tm := TokenManagerOps.set_contracts (Fixtures.tm0 []) [] in
  dict_get UTILITY
    (TokenManager.token_contracts
       (fst (TokenManagerOps.initialize_token_contracts tm
               "0x1111111111111111111111111111111111111111"
               "0x2222222222222222222222222222222222222222"
               "0x3333333333333333333333333333333333333333")))
  = Some "0x2222222222222222222222222222222222222222"
  /\ TokenManagerOps.initialize_token_contracts tm "0x1" "0x2" "0x3"
     = (tm, Raise (CustomException "TOKEN_003" "Invalid contract address format" None))
  /\ TokenManager.transfer tm Fixtures.alice Fixtures.bob (AInt 100) UTILITY
       (Some "alice-key") "t1"
     = (tm, Raise (CustomException "TOKEN_005" "Failed to fetch balance"
                     (Some "<TokenType.UTILITY: 'utility'>"))).
Proof.
  intros tm.
  destruct (initialize_token_contracts_effect tm
              "0x1111111111111111111111111111111111111111"
              "0x2222222222222222222222222222222222222222"
              "0x3333333333333333333333333333333333333333") as (H1 & _ & H3).
  destruct (initialize_token_contracts_effect tm "0x1" "0x2" "0x3") as (_ & H2 & _).
  split; [| split].
  - destruct H1 as (_ & _ & Hu & _); [reflexivity | reflexivity | reflexivity |].
    exact Hu.
  - apply H2. left. reflexivity.
  - apply (H3 eq_refl Fixtures.alice Fixtures.bob (AInt 100) (FFin 100));
      reflexivity.
Defined.

(** X6.  [get_transaction_history] never raises and never changes the
    manager.  What it returns is a sub-sequence of the history, in history
    order; every returned record satisfies each filter that was given (a
    filter given as [None] or as the empty string is not applied); with a
    non-negative offset and limit it holds at most [limit] records; and
    without filters, from offset 0 and with a limit of at least the length of
    the history, it is the whole history. *)
Theorem get_transaction_history_spec
    (tm : TokenManager.t) (address : option string) (ty : option TokenType)
    (status_ : option string) (limit offset : Z) :
  exists result,
    TokenManagerOps.get_transaction_history tm address ty status_ limit offset
    = (tm, Return result)
    /\ result `sublist_of` TokenManager.transaction_history tm
    /\ (forall a, truthy_str address = Some a ->
          Forall (fun r => TokenManager.from_address r = a
                           \/ TokenManager.to_address r = a) result)
    /\ (forall t, ty = Some t ->
          Forall (fun r => TokenManager.token_type r = t) result)
    /\ (forall st, truthy_str status_ = Some st ->
          Forall (fun r => TokenManagerOps.status_name (TokenManager.status r) = st)
            result)
    /\ (0 <= offset -> 0 <= limit -> Z.of_nat (length result) <= limit)
    /\ (truthy_str address = None -> ty = None -> truthy_str status_ = None ->
        offset = 0 ->
        Z.of_nat (length (TokenManager.transaction_history tm)) <= limit ->
        result = TokenManager.transaction_history tm).
Proof.
  unfold TokenManagerOps.get_transaction_history. simpl.
  eexists. split; [reflexivity |].
  set (h := TokenManager.transaction_history tm).
  set (fh := TokenManagerOps.filtered_history h address ty status_).
  assert (Hsl : py_slice fh offset (offset + limit) `sublist_of` fh)
    by apply py_slice_sublist.
  assert (Hsub : fh `sublist_of` h).
  { subst fh. unfold TokenManagerOps.filtered_history.
    destruct (truthy_str address), ty, (truthy_str status_);
      repeat (etransitivity; [apply filter_sublist |]); reflexivity. }
  split; [etransitivity; eauto |].
  split; [| split; [| split; [| split]]].
  - intros a Ha. eapply Forall_sublist; [exact Hsl |].
    subst fh. unfold TokenManagerOps.filtered_history. rewrite Ha.
    assert (Hbase : Forall (fun r => TokenManager.from_address r = a
                                     \/ TokenManager.to_address r = a)
                      (List.filter (TokenManagerOps.involves a) h)).
    { eapply Forall_impl; [apply filter_Forall |]. intros r Hr. simpl in Hr.
      unfold TokenManagerOps.involves in Hr.
      apply orb_true_iff in Hr. rewrite !String.eqb_eq in Hr. exact Hr. }
    destruct ty, (truthy_str status_);
      repeat first [exact Hbase | eapply Forall_sublist; [apply filter_sublist |]].
  - intros t ->. eapply Forall_sublist; [exact Hsl |].
    subst fh. unfold TokenManagerOps.filtered_history.
    match goal with
    | |- context [List.filter (TokenManagerOps.of_type t) ?l] =>
        assert (Hbase : Forall (fun r => TokenManager.token_type r = t)
                          (List.filter (TokenManagerOps.of_type t) l))
    end.
    { eapply Forall_impl; [apply filter_Forall |]. intros r Hr. simpl in Hr.
      apply TokenType_eqb_eq in Hr. exact Hr. }
    destruct (truthy_str status_);
      repeat first [exact Hbase | eapply Forall_sublist; [apply filter_sublist |]].
  - intros st Hst. eapply Forall_sublist; [exact Hsl |].
    subst fh. unfold TokenManagerOps.filtered_history. rewrite Hst.
    eapply Forall_impl; [apply filter_Forall |]. intros r Hr. simpl in Hr.
    apply String.eqb_eq in Hr. exact Hr.
  - intros Ho Hl.
    pose proof (py_slice_length fh offset (offset + limit) Ho ltac:(lia)) as Hlen.
    replace (offset + limit - offset) with limit in Hlen by lia. lia.
  - intros Ha -> Hs -> Hl.
    subst fh. unfold TokenManagerOps.filtered_history. rewrite Ha, Hs.
    apply py_slice_all. simpl. exact Hl.
Qed.

(** In a history that holds one completed transfer from Alice to Bob, the
    completed transfers that involve Bob are within the limit and all involve
    him. *)
Lemma get_transaction_history_spec_witness :
  let tm :=
    TokenManager.append_history (Fixtures.tm0 [])
      (TokenManager.with_status
         (pending_record Fixtures.alice Fixtures.bob (Fin 100) UTILITY "t1")
         TokenManager.completed (Some 21000) (Some 1) None) in
  exists result,
    TokenManagerOps.get_transaction_history tm (Some Fixtures.bob) None
      (Some "completed") 100 0 = (tm, Return result)
    /\ Forall (fun r => TokenManager.from_address r = Fixtures.bob
                        \/ TokenManager.to_address r = Fixtures.bob) result
    /\ Z.of_nat (length result) <= 100.
Proof.
  intros tm.
  destruct (get_transaction_history_spec tm (Some Fixtures.bob) None
              (Some "completed") 100 0)
    as (result & Hr & _ & Ha & _ & _ & Hl & _).
  exists result. split; [exact Hr |]. split.
  - apply Ha. reflexivity.
  - apply Hl; lia.
Defined.

(* ===================================================================== *)
(** * Further properties: settlement, refunds, disputes *)
(* ===================================================================== *)

Section SettlementFacts.

Import TransactionManager.

Variable update_agent_ownership : string -> string -> string -> outcome unit.

(** The treasury account the settlement names is not a well-formed
    address. *)
Lemma treasury_name_rejected :
  Validator.validate_ethereum_address "marketplace_treasury" = false.
Proof. reflexivity. Qed.

Lemma transfer_to_treasury_name (tm : TokenManager.t) (from_ : string) (amount_ : Amount)
    (ty : TokenType) (key : option string) (new_id : string) :
  TokenManager.transfer tm from_ "marketplace_treasury" amount_ ty key new_id
  = (tm, Raise (CustomException "TOKEN_004" "Invalid wallet address" None)).
Proof.
  unfold TokenManager.transfer. rewrite treasury_name_rejected, andb_false_r.
  reflexivity.
Qed.

Lemma transfer_from_treasury_name (tm : TokenManager.t) (to_ : string) (amount_ : Amount)
    (ty : TokenType) (key : option string) (new_id : string) :
  TokenManager.transfer tm "marketplace_treasury" to_ amount_ ty key new_id
  = (tm, Raise (CustomException "TOKEN_004" "Invalid wallet address" None)).
Proof.
  unfold TokenManager.transfer. rewrite treasury_name_rejected. reflexivity.
Qed.

Lemma refund_steps_raise (m : t) (x : Transaction) (id1 id2 : string) :
  exists m1 e,
    refund_steps update_agent_ownership m x id1 id2 = (m1, Raise e)
    /\ transactions m1 = transactions m
    /\ metrics m1 = metrics m
    /\ user_transactions m1 = user_transactions m
    /\ token_manager m1 = token_manager m.
Proof.
  unfold refund_steps. rewrite transfer_eq. cbv beta iota.
  eexists _, _. split; [reflexivity |]. simpl. auto.
Qed.

Lemma dispute_transaction_returns_exact (m m' : t) (tid user_id reason_ : string)
    (now : Q) (b : bool) :
  dispute_transaction m tid user_id reason_ now = (m', Return b) ->
  exists x,
    transactions m !! tid = Some x
    /\ transactions m'
       = <[tid := set_dispute (set_state x DISPUTED)
                    {| opened_by := user_id; reason := reason_;
                       opened_at := now; resolution := None |}]> (transactions m)
    /\ token_manager m' = token_manager m
    /\ user_transactions m' = user_transactions m.
Proof.
  unfold dispute_transaction. intros H.
  destruct (transactions m !! tid) as [x|] eqn:Hx; [| discriminate].
  destruct (String.eqb user_id (buyer_id x) || String.eqb user_id (seller_id x));
    [| discriminate].
  destruct (state_eqb (state x) COMPLETED || state_eqb (state x) FAILED);
    [| discriminate].
  simpl in H. exists x. split; [reflexivity |].
  destruct (0 <? _) in H; injection H as <- <-; simpl; auto.
Qed.

End SettlementFacts.

(** X7.  The settlement sequence can never complete.  For every stored
    transaction, [_process_transaction] sets it to PROCESSING and then asks
    the ledger to move the fee to the account called "marketplace_treasury",
    which the ledger refuses as a malformed address (TOKEN_004).  So the
    transaction always ends FAILED with that error recorded, the failure
    counter is incremented and the success counter is not, the token manager
    (ledger, history, metrics) is untouched, the ownership collaborator is
    not consulted, and the transaction is no longer listed as active. *)
Theorem process_transaction_always_fails
    (ownership : string -> string -> string -> outcome unit)
    (m : TransactionManager.t) (tid id1 id2 : string) (now : Q)
    (x : TransactionManager.Transaction) :
  TransactionManager.transactions m !! tid = Some x ->
  let r := TransactionManager._process_transaction ownership m tid id1 id2 now in
  snd r = Return tt
  /\ TransactionManager.transactions (fst r)
     = <[tid := TransactionManager.set_error
                  (TransactionManager.set_state x TransactionManager.FAILED)
                  "TOKEN_004: Invalid wallet address"]>
         (TransactionManager.transactions m)
  /\ TransactionManager.failed_transactions (TransactionManager.metrics (fst r))
     = TransactionManager.failed_transactions (TransactionManager.metrics m) + 1
  /\ TransactionManager.successful_transactions (TransactionManager.metrics (fst r))
     = TransactionManager.successful_transactions (TransactionManager.metrics m)
  /\ TransactionManager.token_manager (fst r) = TransactionManager.token_manager m
  /\ tid ∉ TransactionManager.active_transactions (fst r).
Proof.
  intros Hx. unfold TransactionManager._process_transaction. rewrite Hx.
  unfold TransactionManager.settlement_steps. cbv zeta.
  change (TransactionManager.token_manager
            (TransactionManager.set_transaction m tid
               (TransactionManager.set_state x TransactionManager.PROCESSING)))
    with (TransactionManager.token_manager m).
  change (TransactionManager.fee
            (TransactionManager.set_state x TransactionManager.PROCESSING))
    with (TransactionManager.fee x).
  change (TransactionManager.buyer_id
            (TransactionManager.set_state x TransactionManager.PROCESSING))
    with (TransactionManager.buyer_id x).
  rewrite transfer_to_treasury_name. simpl.
  split; [reflexivity |]. split; [apply insert_insert_eq |].
  split; [reflexivity |]. split; [reflexivity |]. split; [reflexivity |].
  rewrite list_elem_of_filter. intros [Hne _]. apply Hne. reflexivity.
Qed.

(** The pending example purchase, scheduled and then processed. *)
Lemma process_transaction_always_fails_witness :
  let m :=
    TransactionManager.set_active
      (Fixtures.market1 TransactionManager.PENDING None) ["tx-1"] in
  let r :=
    TransactionManager._process_transaction Fixtures.ownership_ok m "tx-1" "t1" "t2" 9 in
  (TransactionManager.state <$> (TransactionManager.transactions (fst r) !! "tx-1"))
  = Some TransactionManager.FAILED
  /\ TransactionManager.active_transactions (fst r) = [].
Proof.
  intros m r.
  destruct (process_transaction_always_fails Fixtures.ownership_ok m "tx-1" "t1" "t2" 9
              (Fixtures.purchase TransactionManager.PENDING None))
    as (_ & H2 & _).
  - reflexivity.
  - split.
    + fold r in H2. rewrite H2, lookup_insert_eq. reflexivity.
    + vm_compute. reflexivity.
Defined.

(** X8.  A refund can never be carried out.  For a transaction in state
    DISPUTED, [resolve_dispute] with [refund = True] always raises TRANS_008
    "Refund failed": the transfer of the principal back to the buyer raises
    (and the transfer of the fee out of the account called
    "marketplace_treasury", were it reached, would be refused as a malformed
    address).  The stored transactions are exactly as before (the transaction
    stays DISPUTED and no resolution is recorded), the metrics are unchanged,
    and the token manager is exactly as it was, so nothing was moved. *)
Theorem refund_always_fails
    (ownership : string -> string -> string -> outcome unit)
    (m : TransactionManager.t) (tid resolution id1 id2 : string) (now : Q)
    (x : TransactionManager.Transaction) :
  TransactionManager.transactions m !! tid = Some x ->
  TransactionManager.state x = TransactionManager.DISPUTED ->
  let r :=
    TransactionManager.resolve_dispute ownership m tid resolution true id1 id2 now in
  (exists details,
      snd r = Raise (CustomException "TRANS_008" "Refund failed" details))
  /\ TransactionManager.transactions (fst r) = TransactionManager.transactions m
  /\ TransactionManager.metrics (fst r) = TransactionManager.metrics m
  /\ TransactionManager.token_manager (fst r) = TransactionManager.token_manager m.
Proof.
  intros Hx Hs. unfold TransactionManager.resolve_dispute. rewrite Hx, Hs. simpl.
  destruct (refund_steps_raise ownership m x id1 id2)
    as (m1 & e & -> & Ht & Hm & _ & Hsum).
  simpl. eauto 6.
Qed.

(** The disputed example purchase, to be refunded. *)
Lemma refund_always_fails_witness :
  let m := Fixtures.market1 TransactionManager.DISPUTED (Some Fixtures.dispute1) in
  let r :=
    TransactionManager.resolve_dispute Fixtures.ownership_ok m "tx-1" "refund"
      true "t1" "t2" 9 in
  (exists details,
      snd r = Raise (CustomException "TRANS_008" "Refund failed" details))
  /\ TransactionManager.transactions (fst r) = TransactionManager.transactions m.
Proof.
  intros m r.
  destruct (refund_always_fails Fixtures.ownership_ok m "tx-1" "refund" "t1" "t2" 9
              (Fixtures.purchase TransactionManager.DISPUTED (Some Fixtures.dispute1)))
    as (H1 & H2 & _).
  - reflexivity.
  - reflexivity.
  - auto.
Defined.

(** X9.  After a dispute has been opened, the transaction carries the
    opener, the reason and the opening time and no resolution, and keeps its
    parties, amount and fee; a second [dispute_transaction] by the buyer or
    the seller raises TRANS_006 and changes nothing; and [resolve_dispute]
    without refund on it returns [True]. *)
Theorem dispute_then_dispute_or_resolve
    (ownership : string -> string -> string -> outcome unit)
    (m m' : TransactionManager.t) (tid user_id reason : string) (now : Q) (b : bool) :
  TransactionManager.dispute_transaction m tid user_id reason now = (m', Return b) ->
  exists x x',
    TransactionManager.transactions m !! tid = Some x
    /\ TransactionManager.transactions m' !! tid = Some x'
    /\ TransactionManager.dispute x'
       = Some {| TransactionManager.opened_by := user_id;
                 TransactionManager.reason := reason;
                 TransactionManager.opened_at := now;
                 TransactionManager.resolution := None |}
    /\ TransactionManager.buyer_id x' = TransactionManager.buyer_id x
    /\ TransactionManager.seller_id x' = TransactionManager.seller_id x
    /\ TransactionManager.amount x' = TransactionManager.amount x
    /\ TransactionManager.fee x' = TransactionManager.fee x
    /\ (forall user2 reason2 now2,
           user2 = TransactionManager.buyer_id x
           \/ user2 = TransactionManager.seller_id x ->
           TransactionManager.dispute_transaction m' tid user2 reason2 now2
           = (m', Raise (CustomException "TRANS_006"
                           "Transaction cannot be disputed in current state" None)))
    /\ (forall resolution id1 id2 now2,
           snd (TransactionManager.resolve_dispute ownership m' tid resolution
                  false id1 id2 now2) = Return true).
Proof.
  intros H. apply dispute_transaction_returns_exact in H.
  destruct H as (x & Hx & Ht & _).
  eexists x, _. split; [exact Hx |].
  split; [rewrite Ht; apply lookup_insert_eq |]. simpl.
  repeat split; auto.
  - intros user2 reason2 now2 Hp.
    apply (dispute_transaction_invalid_state m' tid user2 reason2 now2
             (TransactionManager.set_dispute
                (TransactionManager.set_state x TransactionManager.DISPUTED)
                {| TransactionManager.opened_by := user_id;
                   TransactionManager.reason := reason;
                   TransactionManager.opened_at := now;
                   TransactionManager.resolution := None |})).
    + rewrite Ht. apply lookup_insert_eq.
    + exact Hp.
    + simpl. discriminate.
    + simpl. discriminate.
  - intros resolution id1 id2 now2.
    unfold TransactionManager.resolve_dispute. rewrite Ht, lookup_insert_eq.
    reflexivity.
Qed.

(** Alice disputes the completed example purchase; Bob then cannot dispute
    it as well. *)
Lemma dispute_then_dispute_or_resolve_witness :
  let m := Fixtures.market1 TransactionManager.COMPLETED None in
  let m' :=
    fst (TransactionManager.dispute_transaction m "tx-1" Fixtures.alice
           "not as described" 2) in
  TransactionManager.dispute_transaction m' "tx-1" Fixtures.bob "me too" 3
  = (m', Raise (CustomException "TRANS_006"
                  "Transaction cannot be disputed in current state" None)).
Proof.
  intros m m'.
  destruct (dispute_then_dispute_or_resolve Fixtures.ownership_ok m m' "tx-1"
              Fixtures.alice "not as described" 2 true)
    as (x & x' & Hx & _ & _ & _ & _ & _ & _ & Hagain & _).
  - vm_compute. reflexivity.
  - apply Hagain. right.
    assert (Some x = Some (Fixtures.purchase TransactionManager.COMPLETED None))
      as [= ->] by (rewrite <- Hx; reflexivity).
    reflexivity.
Defined.

(* ===================================================================== *)
(** * Further properties: transaction queries *)
(* ===================================================================== *)

Section QueryFacts.

Import TransactionManager TransactionQueries.

Implicit Types (x y : Transaction) (l acc : list Transaction).

Lemma collect_sound (txs : gmap string Transaction) (keep : Transaction -> bool)
    (tids : list string) : forall xs,
  collect txs keep tids = Return xs ->
  Forall (fun x => keep x = true /\ exists tid, tid ∈ tids /\ txs !! tid = Some x) xs.
Proof.
  induction tids as [|tid rest IH]; intros xs H; simpl in H.
  - injection H as <-. constructor.
  - destruct (txs !! tid) as [x|] eqn:Hx; [| discriminate].
    destruct (collect txs keep rest) as [ys|e]; [| discriminate].
    injection H as <-.
    assert (Hys : Forall (fun x => keep x = true
                                   /\ exists t, t ∈ tid :: rest /\ txs !! t = Some x) ys).
    { eapply Forall_impl; [apply IH; reflexivity |].
      intros y (Hk & t & Ht & Hy). split; [exact Hk |].
      exists t. split; [right; exact Ht | exact Hy]. }
    destruct (keep x) eqn:Hk; [| exact Hys].
    constructor; [| exact Hys]. split; [exact Hk |].
    exists tid. split; [left | exact Hx].
Qed.

Lemma collect_complete (txs : gmap string Transaction) (keep : Transaction -> bool)
    (tids : list string) : forall xs tid x,
  collect txs keep tids = Return xs ->
  tid ∈ tids -> txs !! tid = Some x -> keep x = true -> x ∈ xs.
Proof.
  induction tids as [|t rest IH]; intros xs tid x H Hin Hx Hk; simpl in H.
  - inversion Hin.
  - destruct (txs !! t) as [y|] eqn:Hy; [| discriminate].
    destruct (collect txs keep rest) as [ys|e] eqn:Hc; [| discriminate].
    injection H as <-.
    apply elem_of_cons in Hin. destruct Hin as [-> | Hin].
    + rewrite Hy in Hx. injection Hx as ->. rewrite Hk. left.
    + specialize (IH ys tid x eq_refl Hin Hx Hk).
      destruct (keep y); [right |]; exact IH.
Qed.

Lemma collect_length (txs : gmap string Transaction) (keep : Transaction -> bool)
    (tids : list string) : forall xs,
  collect txs keep tids = Return xs -> (length xs <= length tids)%nat.
Proof.
  induction tids as [|t rest IH]; intros xs H; simpl in H.
  - injection H as <-. reflexivity.
  - destruct (txs !! t) as [y|]; [| discriminate].
    destruct (collect txs keep rest) as [ys|e]; [| discriminate].
    injection H as <-. specialize (IH ys eq_refl).
    destruct (keep y); simpl; lia.
Qed.

Lemma insert_newest_perm x l : insert_newest x l ≡ₚ x :: l.
Proof.
  induction l as [|y l IH]; simpl; [reflexivity |].
  destruct (Qltb (created_at y) (created_at x)); [reflexivity |].
  rewrite IH. apply Permutation_swap.
Qed.

Lemma insert_newest_sorted x l : newest_first l -> newest_first (insert_newest x l).
Proof.
  induction 1 as [|y l Hall Hl IH]; simpl.
  - constructor; constructor.
  - destruct (Qltb (created_at y) (created_at x)) eqn:E.
    + apply Qltb_lt in E. constructor; [| constructor; assumption].
      constructor; [lra |].
      eapply Forall_impl; [exact Hall |]. intros z Hz. simpl in Hz. lra.
    + apply Qltb_ge in E. constructor; [| exact IH].
      rewrite insert_newest_perm. constructor; assumption.
Qed.

Lemma sort_fold_perm l : forall acc,
  fold_left (fun a x => insert_newest x a) l acc ≡ₚ (l ++ acc)%list.
Proof.
  induction l as [|x l IH]; intros acc; simpl; [reflexivity |].
  rewrite IH, insert_newest_perm. symmetry. apply Permutation_middle.
Qed.

Lemma sort_fold_sorted l : forall acc,
  newest_first acc -> newest_first (fold_left (fun a x => insert_newest x a) l acc).
Proof.
  induction l as [|x l IH]; intros acc Hacc; simpl; [exact Hacc |].
  apply IH. apply insert_newest_sorted. exact Hacc.
Qed.

Lemma sort_newest_first_perm l : sort_newest_first l ≡ₚ l.
Proof.
  unfold sort_newest_first. rewrite sort_fold_perm, app_nil_r. reflexivity.
Qed.

Lemma sort_newest_first_sorted l : newest_first (sort_newest_first l).
Proof. apply sort_fold_sorted. constructor. Qed.

Lemma newest_first_sublist l1 l2 :
  l1 `sublist_of` l2 -> newest_first l2 -> newest_first l1.
Proof.
  induction 1 as [|x l1 l2 Hs IH|x l1 l2 Hs IH]; intros H2.
  - constructor.
  - inversion H2 as [|? ? Hall Hl]; subst.
    constructor; [eapply Forall_sublist; eauto | auto].
  - inversion H2; subst. auto.
Qed.

End QueryFacts.

(** X10.  [get_transaction] hands a transaction only to its buyer or its
    seller: when it returns, the value is the transaction stored under the
    id and the caller is one of its two parties; an unknown id raises
    TRANS_004; a caller who is neither party raises TRANS_005.  The manager
    is never changed. *)
Theorem get_transaction_access
    (m : TransactionManager.t) (tid user_id : string) :
  let r := TransactionQueries.get_transaction m tid user_id in
  fst r = m
  /\ (forall x, snd r = Return x ->
        TransactionManager.transactions m !! tid = Some x
        /\ (user_id = TransactionManager.buyer_id x
            \/ user_id = TransactionManager.seller_id x))
  /\ (TransactionManager.transactions m !! tid = None ->
      snd r = Raise (CustomException "TRANS_004" "Transaction not found" None))
  /\ (forall x, TransactionManager.transactions m !! tid = Some x ->
        user_id <> TransactionManager.buyer_id x ->
        user_id <> TransactionManager.seller_id x ->
        snd r = Raise (CustomException "TRANS_005"
                         "Unauthorized transaction access" None)).
Proof.
  cbv zeta. unfold TransactionQueries.get_transaction.
  destruct (TransactionManager.transactions m !! tid) as [x|] eqn:Hx; simpl.
  - destruct (String.eqb user_id (TransactionManager.buyer_id x)
              || String.eqb user_id (TransactionManager.seller_id x)) eqn:Hp; simpl.
    + apply participant_eqb in Hp.
      split; [reflexivity |]. split; [intros y [= <-]; auto |].
      split; [discriminate |].
      intros y [= <-] Hb Hs. destruct Hp; contradiction.
    + split; [reflexivity |]. split; [intros y [=] |].
      split; [discriminate |]. reflexivity.
  - split; [reflexivity |]. split; [intros y [=] |].
    split; [reflexivity |]. intros y [=].
Qed.

(** Bob reads the example purchase; the vault may not. *)
Lemma get_transaction_access_witness :
  let m := Fixtures.market1 TransactionManager.COMPLETED None in
  snd (TransactionQueries.get_transaction m "tx-1" Fixtures.vault)
  = Raise (CustomException "TRANS_005" "Unauthorized transaction access" None)
  /\ TransactionManager.transactions m !! "tx-1"
     = Some (Fixtures.purchase TransactionManager.COMPLETED None).
Proof.
  intros m.
  destruct (get_transaction_access m "tx-1" Fixtures.vault) as (_ & _ & _ & H4).
  destruct (get_transaction_access m "tx-1" Fixtures.bob) as (_ & H2 & _).
  split.
  - apply (H4 (Fixtures.purchase TransactionManager.COMPLETED None)).
    + reflexivity.
    + simpl. unfold Fixtures.vault, Fixtures.alice. discriminate.
    + simpl. unfold Fixtures.vault, Fixtures.bob. discriminate.
  - apply (H2 (Fixtures.purchase TransactionManager.COMPLETED None)). reflexivity.
Defined.

(** X11.  [get_user_transactions] returns the empty list for a user without
    transactions, and never changes the manager.  When it returns a list:
    the list is ordered newest first; every element is a stored transaction
    listed under the user and has passed the role, state and time filters
    (so with role 'buyer' the user is its buyer, with role 'seller' its
    seller, and with a state filter it is in that state); with a
    non-negative offset and limit it holds at most [limit] elements; and
    from offset 0 with a limit of at least the number of the user's
    transactions, every listed transaction that passes the filters is in
    it. *)
Theorem get_user_transactions_spec
    (m : TransactionManager.t) (user_id : string) (role state_ : option string)
    (start_time end_time : option Q) (offset limit : Z) :
  let r :=
    TransactionQueries.get_user_transactions m user_id role state_
      start_time end_time offset limit in
  let tids := default [] (TransactionManager.user_transactions m !! user_id) in
  fst r = m
  /\ (TransactionManager.user_transactions m !! user_id = None -> snd r = Return [])
  /\ (forall xs, snd r = Return xs ->
        newest_first xs
        /\ Forall (fun x =>
                     TransactionQueries.selected user_id role state_
                       start_time end_time x = true
                     /\ exists tid,
                         tid ∈ tids
                         /\ TransactionManager.transactions m !! tid = Some x) xs
        /\ (role = Some "buyer" ->
            Forall (fun x => TransactionManager.buyer_id x = user_id) xs)
        /\ (role = Some "seller" ->
            Forall (fun x => TransactionManager.seller_id x = user_id) xs)
        /\ (forall st, truthy_str state_ = Some st ->
              Forall (fun x =>
                        TransactionQueries.state_name (TransactionManager.state x) = st)
                xs)
        /\ (0 <= offset -> 0 <= limit -> Z.of_nat (length xs) <= limit)
        /\ (offset = 0 -> Z.of_nat (length tids) <= limit ->
            forall tid x,
              tid ∈ tids ->
              TransactionManager.transactions m !! tid = Some x ->
              TransactionQueries.selected user_id role state_
                start_time end_time x = true ->
              x ∈ xs)).
Proof.
  cbv zeta. unfold TransactionQueries.get_user_transactions.
  destruct (TransactionManager.user_transactions m !! user_id) as [tids|] eqn:Hix;
    simpl.
  2:{ split; [reflexivity |]. split; [reflexivity |].
      intros xs [= <-]. split; [constructor |].
      repeat split; try constructor.
      - simpl. lia.
      - intros _ _ tid x Hin. inversion Hin. }
  destruct (TransactionQueries.collect (TransactionManager.transactions m)
              (TransactionQueries.selected user_id role state_ start_time end_time)
              tids) as [ys|e] eqn:Hc; simpl.
  2:{ split; [destruct e; reflexivity |]. split; [discriminate |].
      intros xs H. destruct e; discriminate. }
  split; [reflexivity |]. split; [discriminate |].
  intros xs [= <-].
  set (sorted := TransactionQueries.sort_newest_first ys).
  assert (Hsl : py_slice sorted offset (offset + limit) `sublist_of` sorted)
    by apply py_slice_sublist.
  assert (Hsound :
    Forall (fun x =>
              TransactionQueries.selected user_id role state_ start_time end_time x
              = true
              /\ exists tid,
                  tid ∈ tids /\ TransactionManager.transactions m !! tid = Some x)
      (py_slice sorted offset (offset + limit))).
  { eapply Forall_sublist; [exact Hsl |].
    subst sorted. rewrite sort_newest_first_perm.
    apply (collect_sound _ _ _ _ Hc). }
  split; [eapply newest_first_sublist; [exact Hsl | apply sort_newest_first_sorted] |].
  split; [exact Hsound |].
  split; [| split; [| split; [| split]]].
  - intros ->. eapply Forall_impl; [exact Hsound |].
    intros x (Hsel & _). unfold TransactionQueries.selected in Hsel.
    apply andb_true_iff in Hsel. destruct Hsel as [Hsel _].
    apply andb_true_iff in Hsel. destruct Hsel as [Hrole _].
    unfold TransactionQueries.role_ok in Hrole. simpl in Hrole.
    rewrite orb_false_r in Hrole.
    apply negb_true_iff, negb_false_iff, String.eqb_eq in Hrole. exact Hrole.
  - intros ->. eapply Forall_impl; [exact Hsound |].
    intros x (Hsel & _). unfold TransactionQueries.selected in Hsel.
    apply andb_true_iff in Hsel. destruct Hsel as [Hsel _].
    apply andb_true_iff in Hsel. destruct Hsel as [Hrole _].
    unfold TransactionQueries.role_ok in Hrole. simpl in Hrole.
    apply negb_true_iff, negb_false_iff, String.eqb_eq in Hrole. exact Hrole.
  - intros st Hst. eapply Forall_impl; [exact Hsound |].
    intros x (Hsel & _). unfold TransactionQueries.selected in Hsel.
    apply andb_true_iff in Hsel. destruct Hsel as [Hsel _].
    apply andb_true_iff in Hsel. destruct Hsel as [_ Hstate].
    unfold TransactionQueries.state_ok in Hstate. rewrite Hst in Hstate.
    apply String.eqb_eq in Hstate. exact Hstate.
  - intros Ho Hl.
    pose proof (py_slice_length sorted offset (offset + limit) Ho ltac:(lia)) as Hlen.
    replace (offset + limit - offset) with limit in Hlen by lia. lia.
  - intros -> Hl tid x Hin Hx Hsel.
    rewrite py_slice_all.
    + subst sorted. rewrite sort_newest_first_perm.
      eapply collect_complete; eauto.
    + subst sorted. rewrite sort_newest_first_perm.
      pose proof (collect_length _ _ _ _ Hc). simpl. lia.
Qed.

(** Alice's purchases, as a buyer, in state completed. *)
Lemma get_user_transactions_spec_witness :
  let m := Fixtures.market1 TransactionManager.COMPLETED None in
  Fixtures.purchase TransactionManager.COMPLETED None
  ∈ match snd (TransactionQueries.get_user_transactions m Fixtures.alice
                 (Some "buyer") (Some "completed") None None 0 50) with
    | Return xs => xs
    | Raise _ => []
    end.
Proof.
  intros m.
  destruct (get_user_transactions_spec m Fixtures.alice (Some "buyer")
              (Some "completed") None None 0 50) as (_ & _ & H).
  destruct (snd (TransactionQueries.get_user_transactions m Fixtures.alice
                   (Some "buyer") (Some "completed") None None 0 50))
    as [xs|e] eqn:E.
  - destruct (H xs eq_refl) as (_ & _ & _ & _ & _ & _ & Hall).
    apply (Hall eq_refl ltac:(vm_compute; discriminate) "tx-1").
    + vm_compute. left.
    + reflexivity.
    + reflexivity.
  - vm_compute in E. discriminate.
Defined.

(* ===================================================================== *)
(** * Further properties: creation errors and fees *)
(* ===================================================================== *)

(** X12.  [create_transaction] refuses a buyer who is also the seller with
    TRANS_001, and otherwise a non-positive amount with TRANS_002, without
    consulting the token manager and without changing anything.  Whenever it
    raises, for whatever reason, no transaction has been stored, indexed,
    scheduled or counted. *)
Theorem create_transaction_rejections
    (cb : option (TokenManager.t -> string -> Q -> TokenManager.t * outcome bool))
    (m : TransactionManager.t) (buyer seller agent : string) (amount : Q)
    (listing : option string) (new_id : string) (now : Q) :
  let r :=
    TransactionManager.create_transaction cb m buyer seller agent amount listing
      new_id now in
  (buyer = seller ->
   r = (m, Raise (CustomException "TRANS_001"
                    "Buyer and seller cannot be the same" None)))
  /\ (buyer <> seller -> (amount <= 0)%Q ->
      r = (m, Raise (CustomException "TRANS_002" "Invalid transaction amount" None)))
  /\ (forall e, snd r = Raise e ->
        TransactionManager.transactions (fst r) = TransactionManager.transactions m
        /\ TransactionManager.user_transactions (fst r)
           = TransactionManager.user_transactions m
        /\ TransactionManager.agent_transactions (fst r)
           = TransactionManager.agent_transactions m
        /\ TransactionManager.active_transactions (fst r)
           = TransactionManager.active_transactions m
        /\ TransactionManager.metrics (fst r) = TransactionManager.metrics m).
Proof.
  cbv zeta. unfold TransactionManager.create_transaction.
  split; [| split].
  - intros ->. rewrite String.eqb_refl. reflexivity.
  - intros Hne Hamt. apply String.eqb_neq in Hne. rewrite Hne.
    unfold Validator.validate_token_amount.
    apply Qltb_ge in Hamt. rewrite Hamt. reflexivity.
  - intros e. rewrite handle_exceptions_fst.
    intros H. apply handle_exceptions_raise in H. destruct H as [e' H].
    destruct (String.eqb buyer seller); [simpl; auto |].
    destruct (negb (Validator.validate_token_amount amount)); [simpl; auto |].
    destruct (TransactionManager.volume_of _ _) as [vol|e0]; [| simpl; auto].
    destruct cb as [method|]; [| simpl; auto].
    destruct (method _ _ _) as [tm1 [[|]|e0]]; simpl in *; auto.
    discriminate.
Qed.

(** Alice cannot buy from herself, and cannot buy for nothing. *)
Lemma create_transaction_rejections_witness :
  TransactionManager.create_transaction (Some Fixtures.check_balance_provided)
    Fixtures.market0 Fixtures.alice Fixtures.alice "agent-7" 900 None "tx-9" 5
  = (Fixtures.market0,
     Raise (CustomException "TRANS_001" "Buyer and seller cannot be the same" None))
  /\ TransactionManager.create_transaction (Some Fixtures.check_balance_provided)
       Fixtures.market0 Fixtures.alice Fixtures.bob "agent-7" 0 None "tx-9" 5
     = (Fixtures.market0,
        Raise (CustomException "TRANS_002" "Invalid transaction amount" None)).
Proof.
  split.
  - apply (proj1 (create_transaction_rejections (Some Fixtures.check_balance_provided)
                    Fixtures.market0 Fixtures.alice Fixtures.alice "agent-7" 900 None
                    "tx-9" 5)).
    reflexivity.
  - apply (proj1 (proj2 (create_transaction_rejections
                           (Some Fixtures.check_balance_provided)
                           Fixtures.market0 Fixtures.alice Fixtures.bob "agent-7" 0
                           None "tx-9" 5))).
    + unfold Fixtures.alice, Fixtures.bob. discriminate.
    + unfold Qle. simpl. lia.
Defined.

Section FeeFacts.

Import TransactionManager.

Lemma py_min_monotone (hi x1 x2 : Q) :
  (x1 <= x2)%Q -> (py_min hi x1 <= py_min hi x2)%Q.
Proof.
  intros H. unfold py_min.
  destruct (Qltb x1 hi) eqn:E1, (Qltb x2 hi) eqn:E2;
    repeat match goal with
           | H : Qltb _ _ = true |- _ => apply Qltb_lt in H
           | H : Qltb _ _ = false |- _ => apply Qltb_ge in H
           end; lra.
Qed.

Lemma py_max_monotone (lo y1 y2 : Q) :
  (y1 <= y2)%Q -> (py_max lo y1 <= py_max lo y2)%Q.
Proof.
  intros H. unfold py_max.
  destruct (Qltb lo y1) eqn:E1, (Qltb lo y2) eqn:E2;
    repeat match goal with
           | H : Qltb _ _ = true |- _ => apply Qltb_lt in H
           | H : Qltb _ _ = false |- _ => apply Qltb_ge in H
           end; lra.
Qed.

Lemma item_ltb_false (a b : Q * Q) : item_ltb a b = false -> (fst b <= fst a)%Q.
Proof.
  unfold item_ltb. intros H. apply orb_false_elim in H. destruct H as [H _].
  apply Qltb_ge in H. exact H.
Qed.

Lemma item_ltb_true (a b : Q * Q) : item_ltb a b = true -> (fst a <= fst b)%Q.
Proof.
  unfold item_ltb. intros H. apply orb_true_iff in H. destruct H as [H | H].
  - apply Qltb_lt in H. lra.
  - apply andb_true_iff in H. destruct H as [H _].
    apply Qeq_bool_iff in H. lra.
Qed.

Lemma insert_desc_perm (x : Q * Q) (l : list (Q * Q)) : insert_desc x l ≡ₚ x :: l.
Proof.
  induction l as [|y l IH]; simpl; [reflexivity |].
  destruct (item_ltb y x); [reflexivity |].
  rewrite IH. apply Permutation_swap.
Qed.

Lemma sorted_desc_perm (l : list (Q * Q)) : sorted_desc l ≡ₚ l.
Proof.
  induction l as [|x l IH]; simpl; [reflexivity |].
  rewrite insert_desc_perm, IH. reflexivity.
Qed.

Lemma insert_desc_descending (x : Q * Q) (l : list (Q * Q)) :
  thresholds_descending l -> thresholds_descending (insert_desc x l).
Proof.
  induction 1 as [|y l Hall Hl IH]; simpl.
  - constructor; constructor.
  - destruct (item_ltb y x) eqn:E.
    + apply item_ltb_true in E. constructor; [| constructor; assumption].
      constructor; [exact E |].
      eapply Forall_impl; [exact Hall |]. intros z Hz. simpl in Hz. lra.
    + apply item_ltb_false in E. constructor; [| exact IH].
      rewrite insert_desc_perm. constructor; assumption.
Qed.

Lemma sorted_desc_descending (l : list (Q * Q)) : thresholds_descending (sorted_desc l).
Proof.
  induction l as [|x l IH]; simpl; [constructor |].
  apply insert_desc_descending. exact IH.
Qed.

(** On a list ordered highest threshold first, the loop picks the item with
    the highest threshold the volume reaches. *)
Lemma first_tier_descending (v base : Q) (l : list (Q * Q)) :
  thresholds_descending l ->
  (Forall (fun it => (v < fst it)%Q) l -> first_tier v l base = base)
  /\ (Exists (fun it => (fst it <= v)%Q) l ->
      exists th r,
        (th, r) ∈ l /\ (th <= v)%Q /\ first_tier v l base = r
        /\ Forall (fun it => (fst it <= v)%Q -> (fst it <= th)%Q) l).
Proof.
  induction 1 as [|[th0 r0] l Hall Hl IH]; simpl.
  - split; [reflexivity |]. intros H. inversion H.
  - destruct (Qleb th0 v) eqn:E.
    + apply Qleb_le in E. split.
      * intros Hf. inversion Hf as [|? ? Hlt _]; subst. simpl in Hlt. lra.
      * intros _. exists th0, r0. split; [left |]. split; [exact E |].
        split; [reflexivity |]. constructor; [simpl; lra |].
        eapply Forall_impl; [exact Hall |]. intros it Hit _. exact Hit.
    + apply Qleb_gt in E. destruct IH as [IH1 IH2]. split.
      * intros Hf. inversion Hf; subst. auto.
      * intros Hex. inversion Hex as [? ? Hhd | ? ? Htl]; subst.
        -- simpl in Hhd. lra.
        -- destruct (IH2 Htl) as (th & r & Hin & Hle & Hr & Hmax).
           exists th, r. split; [right; exact Hin |]. split; [exact Hle |].
           split; [exact Hr |]. constructor; [simpl; intros; lra | exact Hmax].
Qed.

End FeeFacts.

(** X13.  For every fee configuration, amount and volume: the fee is never
    below [min_fee]; when [min_fee <= max_fee] it is never above [max_fee];
    and when the rate in force is not negative, a larger amount never gets a
    smaller fee. *)
Theorem fee_bounds_and_monotone
    (cfg : TransactionManager.FeeConfig) (volume : Q) :
  (forall amount,
      (TransactionManager.min_fee cfg
       <= TransactionManager._calculate_fee cfg amount volume)%Q)
  /\ ((TransactionManager.min_fee cfg <= TransactionManager.max_fee cfg)%Q ->
      forall amount,
        (TransactionManager._calculate_fee cfg amount volume
         <= TransactionManager.max_fee cfg)%Q)
  /\ ((0 <= TransactionManager.fee_rate cfg volume)%Q ->
      forall a1 a2,
        (a1 <= a2)%Q ->
        (TransactionManager._calculate_fee cfg a1 volume
         <= TransactionManager._calculate_fee cfg a2 volume)%Q).
Proof.
  unfold TransactionManager._calculate_fee. split; [| split].
  - intros amount. apply py_max_spec.
  - intros Hrange amount.
    match goal with
    | |- (py_max ?lo ?y <= _)%Q =>
        destruct (py_max_cases lo y) as [-> | ->]; [exact Hrange |]
    end.
    apply py_min_spec.
  - intros Hrate a1 a2 Hle. apply py_max_monotone, py_min_monotone.
    apply Qmult_le_compat_r; assumption.
Qed.

(** With the configuration of the sources, at volume 0: amounts 1 and
    1000000 get the minimum and the maximum fee. *)
Lemma fee_bounds_and_monotone_witness :
  (TransactionManager._calculate_fee TransactionManager.fee_config0 1 0
   <= TransactionManager.max_fee TransactionManager.fee_config0)%Q
  /\ (TransactionManager._calculate_fee TransactionManager.fee_config0 1 0
      <= TransactionManager._calculate_fee TransactionManager.fee_config0 1000000 0)%Q.
Proof.
  destruct (fee_bounds_and_monotone TransactionManager.fee_config0 0) as (_ & H2 & H3).
  split.
  - apply H2. unfold Qle. simpl. lia.
  - apply H3; unfold Qle; simpl; lia.
Defined.

(** X14.  For every tier table, in whatever order its items were entered:
    when the volume is below every threshold the base rate applies; when it
    reaches some threshold, the rate applied is that of a tier whose
    threshold it reaches and which no tier it also reaches exceeds, that is,
    the tier with the highest threshold reached. *)
Theorem fee_rate_highest_tier_reached
    (cfg : TransactionManager.FeeConfig) (volume : Q) :
  (Forall (fun it => (volume < fst it)%Q) (TransactionManager.volume_discount_tiers cfg) ->
   TransactionManager.fee_rate cfg volume = TransactionManager.base_fee_rate cfg)
  /\ (Exists (fun it => (fst it <= volume)%Q)
        (TransactionManager.volume_discount_tiers cfg) ->
      exists threshold rate,
        (threshold, rate) ∈ TransactionManager.volume_discount_tiers cfg
        /\ (threshold <= volume)%Q
        /\ TransactionManager.fee_rate cfg volume = rate
        /\ Forall (fun it => (fst it <= volume)%Q -> (fst it <= threshold)%Q)
             (TransactionManager.volume_discount_tiers cfg)).
Proof.
  unfold TransactionManager.fee_rate.
  destruct (first_tier_descending volume (TransactionManager.base_fee_rate cfg)
              (TransactionManager.sorted_desc
                 (TransactionManager.volume_discount_tiers cfg))
              (sorted_desc_descending _)) as [H1 H2].
  split.
  - intros Hall. apply H1. rewrite sorted_desc_perm. exact Hall.
  - intros Hex. rewrite <- sorted_desc_perm in Hex.
    destruct (H2 Hex) as (th & r & Hin & Hle & Hr & Hmax).
    exists th, r. rewrite sorted_desc_perm in Hin, Hmax. auto.
Qed.

(** A table entered in no particular order, at volume 20000: the tier of
    threshold 10000 applies. *)
Lemma fee_rate_highest_tier_reached_witness :
  let cfg :=
    {| TransactionManager.base_fee_rate := 0.025;
       TransactionManager.min_fee := 0.1;
       TransactionManager.max_fee := 100.0;
       TransactionManager.volume_discount_tiers :=
         [ (10000, 0.015); (100000, 0.01); (1000, 0.02) ]%Q |} in
  exists threshold rate,
    (threshold, rate) ∈ TransactionManager.volume_discount_tiers cfg
    /\ (threshold <= 20000)%Q
    /\ TransactionManager.fee_rate cfg 20000 = rate.
Proof.
  intros cfg.
  destruct (proj2 (fee_rate_highest_tier_reached cfg 20000))
    as (th & r & H1 & H2 & H3 & _).
  - apply Exists_cons_hd. simpl. unfold Qle. simpl. lia.
  - exists th, r. auto.
Defined.

(* ===================================================================== *)
(** * Further properties: the control tick *)
(* ===================================================================== *)

Section TickFacts.

Import DynamicStabilizer.

(** The ways a control tick can end. *)
Lemma traced_cases (s : t) (now : Q) :
  let r := check_and_adjust_traced s now in
  let elapsed :=
    Qltb (now - last_adjustment_time s) (inject_Z (adjustment_interval s)) in
  let err := tick_error s in
  let cp1 := tick_params s in
  let adj := pid_adjustment cp1 (adjustment_interval s) (max_adjustment s) err in
  let sc := (current_supply (market_state s) * adj)%Q in
  let action :=
    if Qltb 0 sc then _mint_tokens (token_manager s) sc
    else _burn_tokens (token_manager s) (- sc)%Q in
  (elapsed = true /\ r = (s, Idle, Return None))
  \/ (elapsed = false /\ Qeq_bool (target_price s) 0 = true
      /\ r = (s, Idle, Raise (CustomException "STAB_004" "Price adjustment failed"
                                (Some "DivisionByZero"))))
  \/ (elapsed = false /\ Qeq_bool (target_price s) 0 = false
      /\ Qleb (Qabs err) (price_tolerance s) = true
      /\ r = (s, Idle, Return None))
  \/ (elapsed = false /\ Qeq_bool (target_price s) 0 = false
      /\ Qleb (Qabs err) (price_tolerance s) = false
      /\ adjustment_interval s = 0
      /\ r = (set_control_params s cp1, Idle,
              Raise (CustomException "STAB_004" "Price adjustment failed"
                       (Some "DivisionByZero"))))
  \/ (elapsed = false /\ Qeq_bool (target_price s) 0 = false
      /\ Qleb (Qabs err) (price_tolerance s) = false
      /\ adjustment_interval s <> 0
      /\ exists k,
          adjusted_metrics (metrics s) (snd action) adj sc = (k, Return tt)
          /\ r = (set_control_params
                    (set_last_adjustment_time
                       (set_metrics
                          (set_token_manager (set_control_params s cp1) (fst action))
                          k) now)
                    (set_last_error cp1 err),
                  Adjusting err adj sc (Qltb 0 sc) (snd action),
                  Return (Some {| timestamp := now; price_error := err;
                                  adjustment := adj; supply_change := sc;
                                  success := snd action |})))
  \/ (elapsed = false /\ Qeq_bool (target_price s) 0 = false
      /\ Qleb (Qabs err) (price_tolerance s) = false
      /\ adjustment_interval s <> 0
      /\ snd action = true
      /\ successful_adjustments (metrics s) = -1
      /\ r = (set_metrics
                (set_token_manager (set_control_params s cp1) (fst action))
                (fst (adjusted_metrics (metrics s) true adj sc)),
              Adjusting err adj sc (Qltb 0 sc) true,
              Raise (CustomException "STAB_004" "Price adjustment failed"
                       (Some "DivisionByZero")))).
Proof.
  cbv zeta. unfold check_and_adjust_traced, check_and_adjust_body.
  fold (tick_error s). fold (tick_params s).
  destruct (Qltb (now - last_adjustment_time s) (inject_Z (adjustment_interval s)));
    [left; auto |].
  destruct (Qeq_bool (target_price s) 0); [right; left; auto |].
  destruct (Qleb (Qabs (tick_error s)) (price_tolerance s));
    [right; right; left; auto |].
  destruct (adjustment_interval s =? 0) eqn:Hi.
  { apply Z.eqb_eq in Hi. do 3 right. left. auto. }
  apply Z.eqb_neq in Hi. simpl.
  set (adj := pid_adjustment (tick_params s) (adjustment_interval s)
                (max_adjustment s) (tick_error s)).
  set (sc := (current_supply (market_state s) * adj)%Q).
  destruct (if Qltb 0 sc then _mint_tokens (token_manager s) sc
            else _burn_tokens (token_manager s) (- sc)%Q) as [tm1 ok] eqn:Hact.
  simpl.
  destruct (adjusted_metrics (metrics s) ok adj sc) as [k [[]|e]] eqn:Hk; simpl.
  - do 4 right. left. repeat split; auto. exists k. auto.
  - do 5 right. unfold adjusted_metrics in Hk.
    destruct ok; [| discriminate].
    destruct (successful_adjustments (metrics s) + 1 =? 0) eqn:Hz; [| discriminate].
    apply Z.eqb_eq in Hz. injection Hk as <- <-.
    repeat split; auto; first [lia | reflexivity].
Qed.

(** The wrapper adds nothing to a tick: every exception of the body is
    already a [CustomException]. *)
Lemma check_and_adjust_traced_eq (s : t) (now : Q) :
  check_and_adjust s now
  = (fst (fst (check_and_adjust_traced s now)), snd (check_and_adjust_traced s now)).
Proof.
  unfold check_and_adjust.
  pose proof (traced_cases s now) as H. cbv zeta in H.
  destruct H as [(_ & ->) | [(_ & _ & ->) | [(_ & _ & _ & ->)
    | [(_ & _ & _ & _ & ->) | [(_ & _ & _ & _ & k & _ & ->)
    | (_ & _ & _ & _ & _ & _ & ->)]]]]]; reflexivity.
Qed.

Lemma same_setup_refl (s : t) : same_setup s s.
Proof. unfold same_setup. auto 12. Qed.

Lemma Qabs_le_limit (x M : Q) : (- M <= x <= M)%Q -> (Qabs x <= M)%Q.
Proof. intros [H1 H2]. apply Qabs_Qle_condition. split; assumption. Qed.

End TickFacts.

(** X15.  A tick does nothing, and returns [None], when less than
    [adjustment_interval] seconds have passed since the last adjustment, and
    also when the interval has passed and the relative price error is within
    the tolerance: the stabilizer is then exactly as before (no mint, no
    burn, integral error, last error and last adjustment time untouched). *)
Theorem idle_tick_changes_nothing (s : DynamicStabilizer.t) (now : Q) :
  ((now - DynamicStabilizer.last_adjustment_time s
    < inject_Z (DynamicStabilizer.adjustment_interval s))%Q ->
   DynamicStabilizer.check_and_adjust s now = (s, Return None))
  /\ ((inject_Z (DynamicStabilizer.adjustment_interval s)
       <= now - DynamicStabilizer.last_adjustment_time s)%Q ->
      ~ (DynamicStabilizer.target_price s == 0)%Q ->
      (Qabs (tick_error s) <= DynamicStabilizer.price_tolerance s)%Q ->
      DynamicStabilizer.check_and_adjust s now = (s, Return None)).
Proof.
  rewrite check_and_adjust_traced_eq.
  pose proof (traced_cases s now) as H. cbv zeta in H.
  split.
  - intros Hlt. apply Qltb_lt in Hlt. rewrite Hlt in H.
    destruct H as [(_ & ->) | [(? & _) | [(? & _) | [(? & _) | [(? & _) | (? & _)]]]]];
      try discriminate. reflexivity.
  - intros Hge Ht Htol. apply Qltb_ge in Hge. apply Qleb_le in Htol.
    rewrite Hge, Htol in H.
    destruct H as [(? & _) | [(_ & Hz & _) | [(_ & _ & _ & ->)
      | [(_ & _ & ? & _) | [(_ & _ & ? & _) | (_ & _ & ? & _)]]]]];
      try discriminate; [| reflexivity].
    apply Qeq_bool_iff in Hz. contradiction.
Qed.

(** The default stabilizer at price 1.005, one interval after it was
    built: the error 0.005 is within the tolerance 0.02. *)
Lemma idle_tick_changes_nothing_witness :
  DynamicStabilizer.check_and_adjust (Fixtures.stabilizer [] 1.005 3500) 3600
  = (Fixtures.stabilizer [] 1.005 3500, Return None)
  /\ DynamicStabilizer.check_and_adjust (Fixtures.stabilizer [] 1.05 3500) 3599
     = (Fixtures.stabilizer [] 1.05 3500, Return None).
Proof.
  split.
  - apply (proj2 (idle_tick_changes_nothing (Fixtures.stabilizer [] 1.005 3500) 3600)).
    + vm_compute. discriminate.
    + vm_compute. discriminate.
    + vm_compute. discriminate.
  - apply (proj1 (idle_tick_changes_nothing (Fixtures.stabilizer [] 1.05 3500) 3599)).
    vm_compute. reflexivity.
Defined.

(** X16.  No tick, whatever its outcome, changes the stabilizer's
    configuration (target price, tolerance, interval, limit, gains, damping),
    its market snapshot (price and supply, so a later tick computes from the
    same supply even after a successful mint or burn) or its two sample
    histories.  A tick that returns [None] has changed nothing at all, and a
    tick that returns a report has set [last_adjustment_time] to the time of
    the tick and [last_error] to the reported error. *)
Theorem tick_frame (s : DynamicStabilizer.t) (now : Q) :
  let r := DynamicStabilizer.check_and_adjust s now in
  same_setup s (fst r)
  /\ (snd r = Return None -> fst r = s)
  /\ (forall rep, snd r = Return (Some rep) ->
        DynamicStabilizer.last_adjustment_time (fst r) = now
        /\ DynamicStabilizer.timestamp rep = now
        /\ DynamicStabilizer.last_error (DynamicStabilizer.control_params (fst r))
           = DynamicStabilizer.price_error rep
        /\ DynamicStabilizer.price_error rep = tick_error s).
Proof.
  cbv zeta. rewrite check_and_adjust_traced_eq.
  pose proof (traced_cases s now) as H. cbv zeta in H.
  destruct H as [(_ & ->) | [(_ & _ & ->) | [(_ & _ & _ & ->)
    | [(_ & _ & _ & _ & ->) | [(_ & _ & _ & _ & k & _ & ->)
    | (_ & _ & _ & _ & _ & _ & ->)]]]]]; simpl;
    (split; [unfold same_setup; simpl; auto 12 |]);
    (split; [first [reflexivity | discriminate] |]);
    intros rep Hrep; try discriminate.
  injection Hrep as <-. simpl. auto.
Qed.

(** The default stabilizer at price 1.05: after its first adjusting tick
    the market snapshot still shows supply 3500. *)
Lemma tick_frame_witness :
  let s := Fixtures.stabilizer [] 1.05 3500 in
  DynamicStabilizer.market_state (fst (DynamicStabilizer.check_and_adjust s 3600))
  = DynamicStabilizer.market_state s
  /\ DynamicStabilizer.last_adjustment_time
       (fst (DynamicStabilizer.check_and_adjust s 3600)) = 3600%Q.
Proof.
  intros s.
  destruct (tick_frame s 3600) as (H1 & _ & H3).
  split.
  - unfold same_setup in H1. tauto.
  - destruct (H3 {| DynamicStabilizer.timestamp := 3600;
                    DynamicStabilizer.price_error := 0.0500;
                    DynamicStabilizer.adjustment := -0.05;
                    DynamicStabilizer.supply_change := -175.00;
                    DynamicStabilizer.success := false |}) as (Ht & _).
    + vm_compute. reflexivity.
    + exact Ht.
Defined.

(** X17.  With a non-negative [max_adjustment], every tick keeps the
    counters consistent: if beforehand the success and failure counters are
    non-negative, the total counter is their sum, the running average
    adjustment size lies between 0 and [max_adjustment] and the cumulative
    supply change is non-negative, then the same holds afterwards, and the
    tick does not fail in its bookkeeping: it returns [None] or a report.
    Exactly the ticks that return a report add one to the total counter. *)
Theorem tick_keeps_metrics_consistent (s : DynamicStabilizer.t) (now : Q) :
  (0 <= DynamicStabilizer.max_adjustment s)%Q ->
  ~ (DynamicStabilizer.target_price s == 0)%Q ->
  DynamicStabilizer.adjustment_interval s <> 0 ->
  metrics_consistent s ->
  let r := DynamicStabilizer.check_and_adjust s now in
  metrics_consistent (fst r)
  /\ ((snd r = Return None
       /\ DynamicStabilizer.total_adjustments (DynamicStabilizer.metrics (fst r))
          = DynamicStabilizer.total_adjustments (DynamicStabilizer.metrics s))
      \/ (exists rep,
             snd r = Return (Some rep)
             /\ DynamicStabilizer.total_adjustments (DynamicStabilizer.metrics (fst r))
                = DynamicStabilizer.total_adjustments (DynamicStabilizer.metrics s) + 1)).
Proof.
  intros HM Ht Hi Hcons. cbv zeta. rewrite check_and_adjust_traced_eq.
  pose proof (traced_cases s now) as H. cbv zeta in H.
  destruct Hcons as (Hs & Hf & Htot & Havg & Hsup).
  destruct H as [(_ & ->) | [(_ & Hz & _) | [(_ & _ & _ & ->)
    | [(_ & _ & _ & Hz & _) | [(_ & _ & _ & _ & k & Hk & ->)
    | (_ & _ & _ & _ & _ & Hneg & _)]]]]];
    cbn -[Qabs Qmult Qplus Qdiv Qle inject_Z].
  - split; [unfold metrics_consistent; auto | left; auto].
  - apply Qeq_bool_iff in Hz. contradiction.
  - split; [unfold metrics_consistent; auto | left; auto].
  - contradiction.
  - set (adj := DynamicStabilizer.pid_adjustment (tick_params s)
                  (DynamicStabilizer.adjustment_interval s)
                  (DynamicStabilizer.max_adjustment s) (tick_error s)) in *.
    pose proof (pid_adjustment_bounds (tick_params s)
                  (DynamicStabilizer.adjustment_interval s)
                  (DynamicStabilizer.max_adjustment s) (tick_error s) HM) as Hb.
    fold adj in Hb. apply Qabs_le_limit in Hb.
    pose proof (Qabs_nonneg adj) as Hb0.
    unfold DynamicStabilizer.adjusted_metrics in Hk.
    match type of Hk with
    | (if ?c then _ else _) = _ => destruct c
    end.
    + destruct (DynamicStabilizer.successful_adjustments (DynamicStabilizer.metrics s)
                + 1 =? 0) eqn:Hz; [discriminate |].
      injection Hk as <-. split.
      * unfold metrics_consistent. cbn -[Qabs Qmult Qplus Qdiv Qle inject_Z].
        split; [lia |]. split; [lia |]. split; [lia |].
        split.
        -- replace (DynamicStabilizer.successful_adjustments
                      (DynamicStabilizer.metrics s) + 1 - 1)
             with (DynamicStabilizer.successful_adjustments
                     (DynamicStabilizer.metrics s)) by lia.
           set (n := DynamicStabilizer.successful_adjustments
                       (DynamicStabilizer.metrics s)) in *.
           set (avg := DynamicStabilizer.average_adjustment_size
                         (DynamicStabilizer.metrics s)) in *.
           set (M := DynamicStabilizer.max_adjustment s) in *.
           assert (Hn : (0 <= inject_Z n)%Q)
             by (change 0%Q with (inject_Z 0); rewrite <- Zle_Qle; exact Hs).
           assert (Hn1 : (inject_Z (n + 1) == inject_Z n + 1)%Q)
             by (rewrite inject_Z_plus; reflexivity).
           assert (Hpos : (0 < inject_Z (n + 1))%Q) by (rewrite Hn1; lra).
           split.
           ++ apply Qle_shift_div_l; [exact Hpos |].
              assert (0 <= avg * inject_Z n)%Q
                by (apply Qmult_le_0_compat; lra).
              lra.
           ++ apply Qle_shift_div_r; [exact Hpos |].
              assert (avg * inject_Z n <= M * inject_Z n)%Q
                by (apply Qmult_le_compat_r; lra).
              rewrite Hn1. lra.
        -- change (0 <= DynamicStabilizer.total_supply_changes
                           (DynamicStabilizer.metrics s)
                         + Qabs (DynamicStabilizer.current_supply
                                   (DynamicStabilizer.market_state s) * adj))%Q.
           pose proof (Qabs_nonneg
                         (DynamicStabilizer.current_supply
                            (DynamicStabilizer.market_state s) * adj)).
           lra.
      * right. eexists. split; [reflexivity |]. simpl. reflexivity.
    + injection Hk as <-. split.
      * unfold metrics_consistent. simpl.
        split; [lia |]. split; [lia |]. split; [lia |]. auto.
      * right. eexists. split; [reflexivity |]. simpl. reflexivity.
  - lia.
Qed.

(** The default stabilizer, freshly built, at price 1.05. *)
Lemma tick_keeps_metrics_consistent_witness :
  metrics_consistent
    (fst (DynamicStabilizer.check_and_adjust (Fixtures.stabilizer [] 1.05 3500) 3600)).
Proof.
  apply (tick_keeps_metrics_consistent (Fixtures.stabilizer [] 1.05 3500) 3600).
  - vm_compute. discriminate.
  - vm_compute. discriminate.
  - vm_compute. discriminate.
  - unfold metrics_consistent. simpl. repeat split; try lia; vm_compute; discriminate.
Defined.

(** X18.  The tick's two divisions.  When the interval has passed and the
    target price is zero, the tick raises STAB_004 (division by zero in the
    price error) and the stabilizer is exactly as before.  When
    [adjustment_interval] is zero, the target price is not, the time is not
    before the last adjustment and the error exceeds the tolerance, the tick
    raises STAB_004 (division by zero in the derivative term) before any mint
    or burn is issued: the token manager, the metrics, [last_error] and
    [last_adjustment_time] are as before. *)
Theorem tick_division_errors (s : DynamicStabilizer.t) (now : Q) :
  ((inject_Z (DynamicStabilizer.adjustment_interval s)
    <= now - DynamicStabilizer.last_adjustment_time s)%Q ->
   (DynamicStabilizer.target_price s == 0)%Q ->
   DynamicStabilizer.check_and_adjust s now
   = (s, Raise (CustomException "STAB_004" "Price adjustment failed"
                  (Some "DivisionByZero"))))
  /\ (DynamicStabilizer.adjustment_interval s = 0 ->
      (DynamicStabilizer.last_adjustment_time s <= now)%Q ->
      ~ (DynamicStabilizer.target_price s == 0)%Q ->
      (DynamicStabilizer.price_tolerance s < Qabs (tick_error s))%Q ->
      let r := DynamicStabilizer.check_and_adjust s now in
      snd r = Raise (CustomException "STAB_004" "Price adjustment failed"
                       (Some "DivisionByZero"))
      /\ DynamicStabilizer.token_manager (fst r) = DynamicStabilizer.token_manager s
      /\ DynamicStabilizer.metrics (fst r) = DynamicStabilizer.metrics s
      /\ DynamicStabilizer.last_error (DynamicStabilizer.control_params (fst r))
         = DynamicStabilizer.last_error (DynamicStabilizer.control_params s)
      /\ DynamicStabilizer.last_adjustment_time (fst r)
         = DynamicStabilizer.last_adjustment_time s).
Proof.
  rewrite check_and_adjust_traced_eq.
  pose proof (traced_cases s now) as H. cbv zeta in H.
  split.
  - intros Hge Hz. apply Qltb_ge in Hge. apply Qeq_bool_iff in Hz.
    rewrite Hge, Hz in H.
    destruct H as [(? & _) | [(_ & _ & ->) | [(_ & ? & _)
      | [(_ & ? & _) | [(_ & ? & _) | (_ & ? & _)]]]]];
      try discriminate. reflexivity.
  - intros Hi Hlast Ht Htol.
    assert (Hge : Qltb (now - DynamicStabilizer.last_adjustment_time s)
                    (inject_Z (DynamicStabilizer.adjustment_interval s)) = false).
    { apply Qltb_ge. rewrite Hi. change (inject_Z 0) with 0%Q. lra. }
    apply Qleb_gt in Htol. rewrite Hge, Htol in H.
    destruct H as [(? & _) | [(_ & Hz & _) | [(_ & _ & ? & _)
      | [(_ & _ & _ & _ & ->) | [(_ & _ & _ & ? & _) | (_ & _ & _ & ? & _)]]]]];
      try discriminate; try contradiction.
    + apply Qeq_bool_iff in Hz. contradiction.
    + simpl. auto.
Qed.

(** A stabilizer whose target price was set to 0. *)
Lemma tick_division_errors_witness :
  let s :=
    DynamicStabilizer.set_market_state
      (DynamicStabilizer.init (Fixtures.tm0 []) 0)
      (DynamicStabilizer.market_state (Fixtures.stabilizer [] 1.05 3500)) in
  let s0 :=
    {| DynamicStabilizer.token_manager := DynamicStabilizer.token_manager s;
       DynamicStabilizer.target_price := 0;
       DynamicStabilizer.price_tolerance := DynamicStabilizer.price_tolerance s;
       DynamicStabilizer.adjustment_interval := DynamicStabilizer.adjustment_interval s;
       DynamicStabilizer.max_adjustment := DynamicStabilizer.max_adjustment s;
       DynamicStabilizer.price_history := DynamicStabilizer.price_history s;
       DynamicStabilizer.volume_history := DynamicStabilizer.volume_history s;
       DynamicStabilizer.last_adjustment_time := DynamicStabilizer.last_adjustment_time s;
       DynamicStabilizer.metrics := DynamicStabilizer.metrics s;
       DynamicStabilizer.control_params := DynamicStabilizer.control_params s;
       DynamicStabilizer.market_state := DynamicStabilizer.market_state s |} in
  DynamicStabilizer.check_and_adjust s0 3600
  = (s0, Raise (CustomException "STAB_004" "Price adjustment failed"
                  (Some "DivisionByZero"))).
Proof.
  intros s s0.
  apply (proj1 (tick_division_errors s0 3600)).
  - vm_compute. discriminate.
  - reflexivity.
Defined.

Section IngestionFacts.

Import DynamicStabilizer.

Lemma deque_append_length {A : Type} (d : list A) (x : A) :
  (length d <= maxlen)%nat -> (length (deque_append d x) <= maxlen)%nat.
Proof.
  intros H. unfold deque_append.
  destruct (length d <? maxlen)%nat eqn:E.
  - apply Nat.ltb_lt in E. rewrite length_app. cbn [length]. lia.
  - apply Nat.ltb_ge in E. rewrite length_app. unfold maxlen in *.
    destruct d; cbn [length tl] in *; lia.
Qed.

Lemma deque_append_last {A : Type} (d : list A) (x : A) :
  last (deque_append d x) = Some x.
Proof.
  unfold deque_append. destruct (length d <? maxlen)%nat; apply last_snoc.
Qed.

(** The histories after the body of [update_market_state], however it
    ends. *)
Lemma update_market_state_body_histories (s : t) (txs : list MarketTx) (now : Q) :
  let total_volume := sum_utility tx_amount txs in
  let weighted_price :=
    if Qltb 0 total_volume
    then (sum_utility (fun tx => tx_amount tx * tx_price tx) txs / total_volume)%Q
    else current_price (market_state s) in
  price_history (fst (update_market_state_body s txs now))
  = deque_append (price_history s) (now, weighted_price)
  /\ volume_history (fst (update_market_state_body s txs now))
     = deque_append (volume_history s) (now, total_volume).
Proof.
  cbv zeta. unfold update_market_state_body.
  match goal with
  | |- context [_get_total_supply ?s1] =>
      pose proof (_get_total_supply_frame s1) as Hf;
      destruct (_get_total_supply s1) as [s2 [supply_|e]]
  end; simpl in Hf; destruct Hf as (Hp & Hv & _ & _); simpl; [| auto].
  destruct (_calculate_demand_rate s2); simpl; [| auto].
  destruct (_calculate_supply_rate s2); simpl; [| auto].
  destruct (_calculate_liquidity_depth s2); simpl; [| auto].
  destruct (Qeq_bool (target_price s2) 0); simpl; auto.
Qed.

End IngestionFacts.

(** X19.  [update_market_state] with an empty list returns at once and
    changes nothing.  With any list, a history buffer that holds at most 1000
    samples holds at most 1000 afterwards; and after a call with a non-empty
    list the newest sample of each buffer is the one of this call, stamped
    with the time of the call, the oldest sample having been dropped if the
    buffer was full. *)
Theorem update_market_state_buffers
    (s : DynamicStabilizer.t) (new_transactions : list DynamicStabilizer.MarketTx)
    (now : Q) :
  let r := DynamicStabilizer.update_market_state s new_transactions now in
  (new_transactions = [] -> r = (s, Return tt))
  /\ ((length (DynamicStabilizer.price_history s) <= DynamicStabilizer.maxlen)%nat ->
      (length (DynamicStabilizer.price_history (fst r)) <= DynamicStabilizer.maxlen)%nat)
  /\ ((length (DynamicStabilizer.volume_history s) <= DynamicStabilizer.maxlen)%nat ->
      (length (DynamicStabilizer.volume_history (fst r)) <= DynamicStabilizer.maxlen)%nat)
  /\ (new_transactions <> [] ->
      (exists price,
          last (DynamicStabilizer.price_history (fst r)) = Some (now, price))
      /\ last (DynamicStabilizer.volume_history (fst r))
         = Some (now, DynamicStabilizer.sum_utility DynamicStabilizer.tx_amount
                        new_transactions)
      /\ (length (DynamicStabilizer.price_history s) = DynamicStabilizer.maxlen ->
          exists sample,
            DynamicStabilizer.price_history (fst r)
            = (tl (DynamicStabilizer.price_history s) ++ [sample])%list)).
Proof.
  cbv zeta. unfold DynamicStabilizer.update_market_state.
  destruct new_transactions as [|tx0 rest].
  - simpl. split; [reflexivity |]. split; [auto |]. split; [auto |]. congruence.
  - rewrite handle_exceptions_fst.
    pose proof (update_market_state_body_histories s (tx0 :: rest) now) as Hh.
    cbv zeta in Hh. destruct Hh as [Hp Hv].
    assert (Hfst : forall b : DynamicStabilizer.t * outcome unit,
               fst (match b with
                    | (s1, Return v) => (s1, Return v)
                    | (s1, Raise e) =>
                        (s1, Raise (CustomException "STAB_002"
                                      "Market state update failed" (Some (str_exn e))))
                    end) = fst b).
    { intros [s1 [v|e]]; reflexivity. }
    rewrite Hfst, Hp, Hv.
    split; [discriminate |].
    split; [apply deque_append_length |].
    split; [apply deque_append_length |].
    intros _. split; [eexists; apply deque_append_last |].
    split; [apply deque_append_last |].
    intros Hfull. unfold DynamicStabilizer.deque_append. rewrite Hfull.
    eexists. reflexivity.
Qed.

(** One sale fed to the default stabilizer at time 10. *)
Lemma update_market_state_buffers_witness :
  let r :=
    DynamicStabilizer.update_market_state (Fixtures.stabilizer [] 1 3500)
      [Fixtures.sale] 10 in
  (length (DynamicStabilizer.price_history (fst r)) <= DynamicStabilizer.maxlen)%nat
  /\ last (DynamicStabilizer.volume_history (fst r))
     = Some (10%Q, DynamicStabilizer.sum_utility DynamicStabilizer.tx_amount
                     [Fixtures.sale]).
Proof.
  intros r.
  destruct (update_market_state_buffers (Fixtures.stabilizer [] 1 3500)
              [Fixtures.sale] 10) as (_ & H2 & _ & H4).
  split.
  - apply H2. simpl. unfold DynamicStabilizer.maxlen. lia.
  - destruct H4 as (_ & Hv & _); [discriminate | exact Hv].
Defined.

Section SupplyReadFacts.

Import DynamicStabilizer.

Lemma set_token_manager_same (s : t) : set_token_manager s (token_manager s) = s.
Proof. destruct s; reflexivity. Qed.

(** The supply read never returns. *)
Lemma _get_total_supply_raises (s : t) :
  exists e,
    _get_total_supply s = (s, Raise e)
    /\ str_exn e
       = match dict_get UTILITY (TokenManager.token_contracts (token_manager s)) with
         | Some _ => "STAB_003: Failed to get total supply"
         | None => TokenType_repr UTILITY
         end.
Proof.
  unfold _get_total_supply.
  destruct (dict_get UTILITY _) as [ca|]; [| eexists; split; reflexivity].
  simpl. rewrite set_executor_same, set_token_manager_same.
  eexists. split; reflexivity.
Qed.

End SupplyReadFacts.

(** X20.  [initialize] never returns: it always raises STAB_001 and leaves
    the stabilizer exactly as it was.  The supply read it starts with is sent
    to the executor front without a key and fails there (STAB_003), or, when
    the utility contract is not configured, fails on the missing key before
    anything is sent.  So the snapshot never receives a supply and no price
    sample is recorded. *)
Theorem initialize_effect (s : DynamicStabilizer.t) (now : Q) :
  StabilizerSetup.initialize s now
  = (s,
     Raise (CustomException "STAB_001" "Stabilizer initialization failed"
              (Some
                 (match dict_get UTILITY
                          (TokenManager.token_contracts
                             (DynamicStabilizer.token_manager s)) with
                  | Some _ => "STAB_003: Failed to get total supply"
                  | None => "<TokenType.UTILITY: 'utility'>"
                  end)))).
Proof.
  unfold StabilizerSetup.initialize.
  destruct (_get_total_supply_raises s) as (e & -> & He).
  simpl. rewrite He. reflexivity.
Qed.

(** The default stabilizer, initialised at time 7. *)
Lemma initialize_effect_witness :
  let s := DynamicStabilizer.init (Fixtures.tm0 []) 0 in
  let r := StabilizerSetup.initialize s 7 in
  snd r = Raise (CustomException "STAB_001" "Stabilizer initialization failed"
                   (Some "STAB_003: Failed to get total supply"))
  /\ DynamicStabilizer.price_history (fst r) = [].
Proof.
  intros s r. subst r. rewrite (initialize_effect s 7). split; reflexivity.
Defined.

(** X21.  The stabilizer cannot change the supply.  Its mint and burn calls
    are sent to the executor front without a key, so each of them fails
    before anything leaves the program: [_mint_tokens] and [_burn_tokens]
    return [False] and leave the token manager as it was.  Hence every tick
    that reaches the adjusting phase is a failed adjustment: the token
    manager is untouched, the failure counter goes up by one, the success
    counter and the total of supply changes stay as they are, and the report
    says [success = False]. *)
Theorem adjustments_always_fail (s : DynamicStabilizer.t) (now : Q) :
  (forall tm amount,
      DynamicStabilizer._mint_tokens tm amount = (tm, false)
      /\ DynamicStabilizer._burn_tokens tm amount = (tm, false))
  /\ (forall s' err adj sc minted ok r,
         DynamicStabilizer.check_and_adjust_traced s now
         = (s', DynamicStabilizer.Adjusting err adj sc minted ok, r) ->
         ok = false
         /\ DynamicStabilizer.token_manager s' = DynamicStabilizer.token_manager s
         /\ DynamicStabilizer.failed_adjustments (DynamicStabilizer.metrics s')
            = DynamicStabilizer.failed_adjustments (DynamicStabilizer.metrics s) + 1
         /\ DynamicStabilizer.successful_adjustments (DynamicStabilizer.metrics s')
            = DynamicStabilizer.successful_adjustments (DynamicStabilizer.metrics s)
         /\ DynamicStabilizer.total_supply_changes (DynamicStabilizer.metrics s')
            = DynamicStabilizer.total_supply_changes (DynamicStabilizer.metrics s)
         /\ r = Return (Some {| DynamicStabilizer.timestamp := now;
                                DynamicStabilizer.price_error := err;
                                DynamicStabilizer.adjustment := adj;
                                DynamicStabilizer.supply_change := sc;
                                DynamicStabilizer.success := false |})).
Proof.
  split.
  - intros tm amount. split; [apply _mint_tokens_fails | apply _burn_tokens_fails].
  - intros s' err adj sc minted ok r H.
    pose proof (traced_cases s now) as Hc. cbv zeta in Hc.
    rewrite _mint_tokens_fails, _burn_tokens_fails in Hc.
    assert (Hact : forall (b : bool) (tm : TokenManager.t),
               (if b then (tm, false) else (tm, false)) = (tm, false))
      by (intros []; reflexivity).
    rewrite Hact in Hc. cbn [fst snd] in Hc.
    rewrite H in Hc.
    destruct Hc as [(_ & Hr) | [(_ & _ & Hr) | [(_ & _ & _ & Hr)
      | [(_ & _ & _ & _ & Hr) | [(_ & _ & _ & _ & k & Hk & Hr)
      | (_ & _ & _ & _ & Hok & _)]]]]]; try discriminate.
    injection Hr as -> -> -> -> -> -> ->.
    unfold DynamicStabilizer.adjusted_metrics in Hk. injection Hk as <-.
    simpl. auto 10.
Qed.

(** The default stabilizer at price 1.05 and supply 3500, one interval after
    it was built, with a node that would accept every transaction: the burn
    of 175 tokens fails all the same. *)
Lemma adjustments_always_fail_witness :
  let s := Fixtures.stabilizer [] 1.05 3500 in
  let r := DynamicStabilizer.check_and_adjust_traced s 3600 in
  snd (fst r) = DynamicStabilizer.Adjusting 0.0500 (-0.05) (-175.00) false false
  /\ DynamicStabilizer.failed_adjustments (DynamicStabilizer.metrics (fst (fst r))) = 1
  /\ DynamicStabilizer.total_supply_changes (DynamicStabilizer.metrics (fst (fst r)))
     = 0%Q.
Proof.
  intros s r.
  destruct (proj2 (adjustments_always_fail s 3600) (fst (fst r))
              0.0500%Q (-0.05)%Q (-175.00)%Q false false (snd r))
    as (_ & _ & Hf & _ & Hc & _).
  - vm_compute. reflexivity.
  - split; [vm_compute; reflexivity |]. split; [exact Hf | exact Hc].
Defined.
